(** * Kmeans_clustering.py: a shallow embedding and its properties

    The script crops a Sentinel-2 and a Sentinel-1 raster, stacks their bands,
    and hands the stack to [run_Kmeans], which reshapes it to a pixel-by-band
    matrix, optionally normalises it, draws a random sample, scores a range of
    cluster counts, asks for the count to use, predicts every pixel and writes
    the labels as a GeoTIFF.

    numpy arrays are modelled by their shape and their elements in C order
    (the order in which numpy indexes them, whatever the memory layout);
    Python exceptions by a [result] type; the calls into scikit-learn, numpy's
    random generator, the terminal and the file system by a state-and-error
    monad over a [world] that also keeps a chronological trace of those calls.
    scikit-learn itself is an interface ([sklearn]): its numerical work is
    not part of the script. Python's [int] is embedded as CPython evaluates
    it, over an [Interpreter] that holds the Unicode tables it consults. *)

From Stdlib Require Import Floats.
From Stdlib Require Import List String Ascii ZArith Lia Bool Reals Lra.
From stdpp Require Import gmap strings.
Import ListNotations.
Close Scope float_scope.
Local Open Scope nat_scope.

(** ** Exceptions *)

Inductive exn : Type :=
| ValueError
| IndexError
| EOFError
| TypeError.

Inductive result (A : Type) : Type :=
| Ok (a : A)
| Raise (e : exn).
Arguments Ok {A} a.
Arguments Raise {A} e.

Definition result_bind {A B : Type} (r : result A) (k : A -> result B) : result B :=
  match r with
  | Ok a => k a
  | Raise e => Raise e
  end.

(** ** numpy arrays *)

Record ndarray (A : Type) : Type := NDArray { shape : list nat; data : list A }.
Arguments NDArray {A} shape data.
Arguments shape {A} n.
Arguments data {A} n.

(** Number of elements of an array of the given shape. *)
Definition size_of (sh : list nat) : nat := fold_right Nat.mul 1 sh.

(** The invariant of every numpy array: as many elements as the shape says. *)
Definition well_shaped {A : Type} (a : ndarray A) : Prop :=
  length (data a) = size_of (shape a).

(** C-order offset of a multi-index; [None] where numpy raises IndexError
    (wrong number of indices, or an index out of its axis). *)
Fixpoint ravel (sh idx : list nat) : option nat :=
  match sh, idx with
  | [], [] => Some 0
  | n :: sh', i :: idx' =>
      if i <? n then
        match ravel sh' idx' with
        | Some o => Some (i * size_of sh' + o)
        | None => None
        end
      else None
  | _, _ => None
  end.

(** [a[i0, i1, ...]] *)
Definition item {A : Type} (a : ndarray A) (idx : list nat) : option A :=
  match ravel (shape a) idx with
  | Some o => nth_error (data a) o
  | None => None
  end.

(** [np.reshape(a, newshape)]: the elements are read in C order and laid out
    again in C order; the total size must not change. *)
Definition np_reshape {A : Type} (a : ndarray A) (newshape : list nat) : result (ndarray A) :=
  if size_of newshape =? length (data a)
  then Ok (NDArray newshape (data a))
  else Raise ValueError.

(** [np.concatenate((a, b), axis=0)]: all axes but the first must agree. *)
Definition np_concatenate {A : Type} (a b : ndarray A) : result (ndarray A) :=
  match shape a, shape b with
  | n :: sa, m :: sb =>
      if decide (sa = sb)
      then Ok (NDArray ((n + m) :: sa) (data a ++ data b))
      else Raise ValueError
  | _, _ => Raise ValueError
  end.

(** [np.transpose(a, [1,2,0])]: the result has [out[i, j, b] = a[b, i, j]]. *)
Definition np_transpose_120 {A : Type} (a : ndarray A) : result (ndarray A) :=
  match shape a with
  | [s0; s1; s2] =>
      Ok (NDArray [s1; s2; s0]
            (flat_map (fun i =>
               flat_map (fun j =>
                 flat_map (fun b => option_list (item a [b; i; j])) (seq 0 s0))
               (seq 0 s2))
             (seq 0 s1)))
  | _ => Raise ValueError
  end.

(** [X[idx, :]] on a 2-D array: the rows named by [idx], in that order. *)
Definition row {A : Type} (X : ndarray A) (i : nat) : option (list A) :=
  match shape X with
  | [n; b] => if i <? n then Some (firstn b (skipn (i * b) (data X))) else None
  | _ => None
  end.

Fixpoint take_rows_data {A : Type} (X : ndarray A) (idx : list nat) : result (list A) :=
  match idx with
  | [] => Ok []
  | i :: idx' =>
      match row X i with
      | Some r => result_bind (take_rows_data X idx') (fun rest => Ok (r ++ rest))
      | None => Raise IndexError
      end
  end.

Definition take_rows {A : Type} (X : ndarray A) (idx : list nat) : result (ndarray A) :=
  match shape X with
  | [n; b] => result_bind (take_rows_data X idx) (fun d => Ok (NDArray [length idx; b] d))
  | _ => Raise IndexError
  end.

(** ** Band stacking (the main script) *)

(** The two array operations of the stacking, one applied to the result of
    the other: [np.concatenate((img, img2), axis=0)] and
    [np.transpose(_, [1,2,0])]. This is not the whole of lines 240 to 245:
    the script plots a preview between the two, which can raise. The lines
    as the script runs them are [main_stack] below. *)
Definition stack_bands {A : Type} (img img2 : ndarray A) : result (ndarray A) :=
  result_bind (np_concatenate img img2) np_transpose_120.

(** ** Element arithmetic *)

(** The arithmetic [norm] needs of the element type. The rasters hold
    floating-point numbers: [Numeric_R] is their real-number idealisation and
    [Numeric_float] binary64 arithmetic. (numpy computes in the precision of
    the raster's dtype, which can be binary32, and adds the terms of a long
    sum pairwise. Against binary64 from left to right this changes a result
    in its last bits at most, and not at all where every step is exact, as
    in the sums the binary64 instance is evaluated on below.) *)
Class Numeric (A : Type) : Type := {
  nzero : A;
  nadd : A -> A -> A;
  nmul : A -> A -> A;
  ndiv : A -> A -> A;
  nsqrt : A -> A
}.

#[export] Instance Numeric_R : Numeric R := {|
  nzero := 0%R;
  nadd := Rplus;
  nmul := Rmult;
  ndiv := Rdiv;
  nsqrt := R_sqrt.sqrt
|}.

#[export] Instance Numeric_float : Numeric float := {|
  nzero := 0%float;
  nadd := PrimFloat.add;
  nmul := PrimFloat.mul;
  ndiv := PrimFloat.div;
  nsqrt := PrimFloat.sqrt
|}.

(** [np.sum(v, 0)] of a 1-D array, the terms added from left to right. *)
Definition np_sum {A : Type} `{Numeric A} (v : list A) : A := fold_left nadd v nzero.

(** The inner function of [run_Kmeans]:
    [norm(r) = r / np.sqrt(np.sum(r**2, 0))]. *)
Definition norm {A : Type} `{Numeric A} (r : list A) : list A :=
  let s := nsqrt (np_sum (map (fun x => nmul x x) r)) in
  map (fun x => ndiv x s) r.

(** Euclidean norm of a vector, [np.sqrt(np.sum(v**2))]. *)
Definition l2_norm {A : Type} `{Numeric A} (v : list A) : A :=
  nsqrt (np_sum (map (fun x => nmul x x) v)).

(** [X[:, c]] of a 2-D array. *)
Definition column {A : Type} (X : ndarray A) (c : nat) : list A :=
  match shape X with
  | [n; b] => flat_map (fun i => option_list (item X [i; c])) (seq 0 n)
  | _ => []
  end.

(** [np.apply_along_axis(f, 0, X)] on a 2-D array: [f] is applied to every
    1-D slice along axis 0, that is to every column [X[:, c]], and its result
    becomes column [c] of the output. numpy refuses an array without columns
    and results of differing lengths. *)
Definition np_apply_along_axis0 {A : Type} (f : list A -> list A) (X : ndarray A)
  : result (ndarray A) :=
  match shape X with
  | [n; b] =>
      if b =? 0 then Raise ValueError
      else
        let cols := map (fun c => f (column X c)) (seq 0 b) in
        let n' := length (nth 0 cols []) in
        if forallb (fun col => length col =? n') cols
        then Ok (NDArray [n'; b]
                   (flat_map (fun i =>
                      flat_map (fun c => option_list (nth_error (nth c cols []) i)) (seq 0 b))
                    (seq 0 n')))
        else Raise ValueError
  | _ => Raise ValueError
  end.

(** ** Python built-ins: [range], string slices, [int] *)

(** [range(start, stop, step)] for a positive step. *)
Definition py_range (start stop step : nat) : list Z :=
  map (fun i => Z.of_nat (start + i * step)) (seq 0 ((stop - start + step - 1) / step)).

(** [s[:-n]] *)
Definition slice_to_minus (n : nat) (s : string) : string :=
  substring 0 (String.length s - n) s.

(** *** [int(s)] of a string

    A [str] is held as its UTF-8 bytes. [int] of a [str] first replaces the
    blanks and decimal digits outside ASCII by a space and by the ASCII digit
    of the same value ([_PyUnicode_TransformDecimalAndSpaceToASCII]), then
    reads the result in base 10 ([PyLong_FromString]): blanks, an optional
    sign, digits with single underscores between them, blanks. What it
    consults of the interpreter is a parameter: the Unicode database and the
    limit on the number of digits. *)

(** The interpreter: [Py_UNICODE_ISSPACE ch] and [Py_UNICODE_TODECIMAL ch]
    (the decimal value 0 to 9 of a decimal digit), consulted for code points
    from 127 on, and [sys.get_int_max_str_digits()] (0: no limit, as in every
    Python before 3.11). *)
Class Interpreter : Type := {
  Py_UNICODE_ISSPACE : N -> bool;
  Py_UNICODE_TODECIMAL : N -> option nat;
  int_max_str_digits : nat
}.

Definition bytes_of (s : string) : list N := map N_of_ascii (list_ascii_of_string s).

Definition is_continuation (b : N) : bool := ((128 <=? b) && (b <? 192))%N.

(** UTF-8 decoding to code points; [None] for bytes that are not UTF-8
    (overlong forms, surrogates and values above 10FFFF included). *)
Fixpoint decode_utf8 (bs : list N) : option (list N) :=
  match bs with
  | [] => Some []
  | b0 :: r0 =>
      if (b0 <? 128)%N then option_map (cons b0) (decode_utf8 r0)
      else if ((194 <=? b0) && (b0 <? 224))%N then
        match r0 with
        | b1 :: r1 =>
            if is_continuation b1
            then option_map (cons ((b0 - 192) * 64 + (b1 - 128))%N) (decode_utf8 r1)
            else None
        | _ => None
        end
      else if ((224 <=? b0) && (b0 <? 240))%N then
        match r0 with
        | b1 :: b2 :: r2 =>
            let cp := ((b0 - 224) * 4096 + (b1 - 128) * 64 + (b2 - 128))%N in
            if is_continuation b1 && is_continuation b2
               && (2048 <=? cp)%N && negb ((55296 <=? cp) && (cp <? 57344))%N
            then option_map (cons cp) (decode_utf8 r2)
            else None
        | _ => None
        end
      else if ((240 <=? b0) && (b0 <? 245))%N then
        match r0 with
        | b1 :: b2 :: b3 :: r3 =>
            let cp := ((b0 - 240) * 262144 + (b1 - 128) * 4096
                       + (b2 - 128) * 64 + (b3 - 128))%N in
            if is_continuation b1 && is_continuation b2 && is_continuation b3
               && (65536 <=? cp)%N && (cp <? 1114112)%N
            then option_map (cons cp) (decode_utf8 r3)
            else None
        | _ => None
        end
      else None
  end.

(** One character of the transformation: ASCII below 127 is kept, a blank
    becomes a space, a decimal digit its ASCII digit; anything else ends the
    conversion with an error ([None]). *)
Definition ascii_of_code_point {py : Interpreter} (ch : N) : option ascii :=
  if (ch <? 127)%N then Some (ascii_of_N ch)
  else if Py_UNICODE_ISSPACE ch then Some " "%char
  else match Py_UNICODE_TODECIMAL ch with
       | Some d => if d <? 10 then Some (ascii_of_nat (48 + d)) else None
       | None => None
       end.

Fixpoint all_some {T : Type} (l : list (option T)) : option (list T) :=
  match l with
  | [] => Some []
  | Some x :: l' => option_map (cons x) (all_some l')
  | None :: _ => None
  end.

(** The transformation of a whole string: an ASCII string is taken as it
    is. *)
Definition to_ascii {py : Interpreter} (cps : list N) : option (list ascii) :=
  if forallb (fun ch => (ch <? 128)%N) cps
  then Some (map ascii_of_N cps)
  else all_some (map ascii_of_code_point cps).

(** [Py_ISSPACE]: space, tab, line feed, vertical tab, form feed, carriage
    return. *)
Definition is_space (c : ascii) : bool :=
  let n := nat_of_ascii c in
  ((9 <=? n) && (n <=? 13)) || (n =? 32).

Definition digit_value (c : ascii) : option Z :=
  let n := nat_of_ascii c in
  if (48 <=? n) && (n <=? 57) then Some (Z.of_nat (n - 48)) else None.

Fixpoint lstrip (cs : list ascii) : list ascii :=
  match cs with
  | c :: cs' => if is_space c then lstrip cs' else cs
  | [] => []
  end.

Definition strip (cs : list ascii) : list ascii := rev (lstrip (rev (lstrip cs))).

(** Digits with single underscores between them; [prev] tells whether the
    previous character was a digit. *)
Fixpoint parse_digits (cs : list ascii) (acc : Z) (prev : bool) : option Z :=
  match cs with
  | [] => if prev then Some acc else None
  | c :: cs' =>
      match digit_value c with
      | Some d => parse_digits cs' (10 * acc + d)%Z true
      | None =>
          if Ascii.eqb c "_"%char && prev then parse_digits cs' acc false else None
      end
  end.

Definition is_digit (c : ascii) : bool :=
  match digit_value c with Some _ => true | None => false end.

(** More than 640 digits and more than the limit, when there is one. *)
Definition too_many_digits (limit n : nat) : bool :=
  (640 <? n) && (0 <? limit) && (limit <? n).

(** [PyLong_FromString] in base 10 on the transformed characters. *)
Definition parse_int (limit : nat) (cs : list ascii) : option Z :=
  let core := strip cs in
  let negative := match core with c :: _ => Ascii.eqb c "-"%char | [] => false end in
  let signed := match core with
                | c :: _ => Ascii.eqb c "-"%char || Ascii.eqb c "+"%char
                | [] => false
                end in
  let body := if signed then tl core else core in
  match parse_digits body 0%Z false with
  | Some v =>
      if too_many_digits limit (length (List.filter is_digit body)) then None
      else Some (if negative then (- v)%Z else v)
  | None => None
  end.

(** [int(s)]; every failure is a [ValueError]. (A line that is not UTF-8
    either reaches [int] with lone surrogates in place of the bad bytes,
    which are neither blanks nor digits, or is refused on reading with a
    [UnicodeDecodeError], which is a [ValueError] too.) *)
Definition py_int {py : Interpreter} (s : string) : result Z :=
  match decode_utf8 (bytes_of s) with
  | None => Raise ValueError
  | Some cps =>
      match to_ascii cps with
      | None => Raise ValueError
      | Some cs =>
          match parse_int int_max_str_digits cs with
          | Some k => Ok k
          | None => Raise ValueError
          end
      end
  end.

(** *** What [int] accepts, said from the grammar

    [decinteger ::= digit (["_"] digit)*], read in base 10, with an optional
    sign before it and blanks around. *)

(** The ten digits with their values, and the six blanks: tab, line feed,
    vertical tab, form feed, carriage return and space. *)
Definition digit_chars : list (ascii * Z) :=
  [("0"%char, 0%Z); ("1"%char, 1%Z); ("2"%char, 2%Z); ("3"%char, 3%Z); ("4"%char, 4%Z);
   ("5"%char, 5%Z); ("6"%char, 6%Z); ("7"%char, 7%Z); ("8"%char, 8%Z); ("9"%char, 9%Z)].

Definition blank_chars : list ascii :=
  [ascii_of_nat 9; ascii_of_nat 10; ascii_of_nat 11; ascii_of_nat 12; ascii_of_nat 13;
   " "%char].

(** [decimal_digits cs v n]: [cs] is a run of digits with single underscores
    between them, [v] its value in base 10 and [n] the number of digits. *)
Inductive decimal_digits : list ascii -> Z -> nat -> Prop :=
| decimal_one c d :
    In (c, d) digit_chars -> decimal_digits [c] d 1
| decimal_next cs v n c d :
    decimal_digits cs v n -> In (c, d) digit_chars ->
    decimal_digits (cs ++ [c]) (10 * v + d)%Z (S n)
| decimal_underscore cs v n c d :
    decimal_digits cs v n -> In (c, d) digit_chars ->
    decimal_digits (cs ++ ["_"%char; c]) (10 * v + d)%Z (S n).

(** An integer in ASCII characters: blanks, an optional sign, digits, blanks,
    with no more digits than the limit allows (a limit of 0 is none, and up
    to 640 digits are always allowed). *)
Definition ascii_int_literal (limit : nat) (cs : list ascii) (k : Z) : Prop :=
  exists lead sign body trail v n,
    cs = lead ++ sign ++ body ++ trail /\
    Forall (fun c => In c blank_chars) lead /\
    Forall (fun c => In c blank_chars) trail /\
    decimal_digits body v n /\
    (n <= 640 \/ limit = 0 \/ n <= limit) /\
    ((sign = [] /\ k = v) \/ (sign = ["+"%char] /\ k = v)
     \/ (sign = ["-"%char] /\ k = (- v)%Z)).

(** The string [s] is an integer literal with value [k]. *)
Definition int_literal {py : Interpreter} (s : string) (k : Z) : Prop :=
  exists cps cs,
    decode_utf8 (bytes_of s) = Some cps /\
    to_ascii cps = Some cs /\
    ascii_int_literal int_max_str_digits cs k.

(** What has been read when [parse_digits] is at accumulator [acc] with flag
    [prev]: a run of digits of value [acc], or such a run and an underscore,
    or nothing yet. *)
Definition consumed (p : list ascii) (acc : Z) (prev : bool) : Prop :=
  if prev then exists n, decimal_digits p acc n
  else (p = [] /\ acc = 0%Z)
       \/ (exists p' n, p = p' ++ ["_"%char] /\ decimal_digits p' acc n).

(** A string of ASCII characters only. *)
Definition is_ascii (s : string) : bool :=
  forallb (fun b => (b <? 128)%N) (bytes_of s).

(** ** Raster metadata and files *)

(** A value the script only passes along (a CRS, an affine transform, a
    nodata value), known by its identity. *)
Inductive pyobj : Type := PyObj (id : positive).

Inductive meta_value : Type :=
| MStr (s : string)
| MInt (z : Z)
| MObj (o : pyobj).

(** A raster file: the profile it was opened with and the bands written. *)
Record gtiff : Type := GTiff {
  profile : gmap string meta_value;
  bands : gmap nat (ndarray Z)
}.

(** The metadata kept when the Sentinel-2 raster is cropped:
    [meta = src.meta.copy()] and then [meta.update({"driver": "GTiff",
    "height": img.shape[1], "width": img.shape[2], "transform": transform})]. *)
Definition crop_meta {A : Type} (src_meta : gmap string meta_value)
    (img : ndarray A) (transform : pyobj) : result (gmap string meta_value) :=
  match nth_error (shape img) 1, nth_error (shape img) 2 with
  | Some h, Some w =>
      Ok (<["transform" := MObj transform]>
          (<["width" := MInt (Z.of_nat w)]>
           (<["height" := MInt (Z.of_nat h)]>
            (<["driver" := MStr "GTiff"]> src_meta))))
  | _, _ => Raise IndexError
  end.

(** The module-level names [run_Kmeans] reads: [rows] and [columns], set by
    [bands, rows, columns = img.shape]. ([meta], which it also updates, is
    part of the [world].) *)
Record globals : Type := Globals { rows : nat; columns : nat }.

Definition unpack_shape {A : Type} (img : ndarray A) : result globals :=
  match shape img with
  | [_; r; c] => Ok (Globals r c)
  | _ => Raise ValueError
  end.

(** ** scikit-learn *)

(** The calls the script makes into scikit-learn. A fitted [KMeans] is an
    [estimator]; [KMeans_fit_predict k rs X] is
    [KMeans(n_clusters=k, random_state=rs).fit_predict(X)] and returns the
    fitted estimator with the labels. Any call may raise. *)
Record sklearn (A : Type) : Type := Sklearn {
  estimator : Type;
  n_clusters_of : estimator -> Z;
  KMeans_fit_predict : Z -> Z -> ndarray A -> result (estimator * list Z);
  KMeans_predict : estimator -> ndarray A -> result (list Z);
  silhouette_score : ndarray A -> list Z -> result A;
  PCA_fit_transform : nat -> ndarray A -> result (ndarray A);
  labels_dtype : string
}.
Arguments estimator {A} s.
Arguments n_clusters_of {A} s e.
Arguments KMeans_fit_predict {A} s n_clusters random_state X.
Arguments KMeans_predict {A} s e X.
Arguments silhouette_score {A} s X labels.
Arguments PCA_fit_transform {A} s n_components X.
Arguments labels_dtype {A} s.

(** [X.shape[0]] and [X.shape[1]] *)
Definition nrows {A : Type} (X : ndarray A) : nat := nth 0 (shape X) 0.
Definition ncols {A : Type} (X : ndarray A) : nat := nth 1 (shape X) 0.

(** Number of distinct labels. *)
Definition n_labels (l : list Z) : nat := length (nodup Z.eq_dec l).

(** What scikit-learn documents of these calls: an estimator remembers its
    [n_clusters]; labels come one per row and lie in [0, n_clusters); the
    silhouette coefficient is only defined for 2 to n_samples - 1 distinct
    labels and [silhouette_score] raises otherwise. *)
Record sklearn_contract {A : Type} (lib : sklearn A) : Prop := {
  fit_predict_labels : forall k rs X m l,
    KMeans_fit_predict lib k rs X = Ok (m, l) ->
    n_clusters_of lib m = k /\ length l = nrows X /\ Forall (fun c => 0 <= c < k)%Z l;
  predict_labels : forall m X l,
    KMeans_predict lib m X = Ok l ->
    length l = nrows X /\ Forall (fun c => 0 <= c < n_clusters_of lib m)%Z l;
  silhouette_defined : forall X l s,
    silhouette_score lib X l = Ok s -> 2 <= n_labels l <= nrows X - 1
}.

(** ** The world outside the script *)

(** numpy's global random generator is a stream of raw draws and a position
    in it; the terminal is the list of lines still to be typed; [meta] is the
    module-level metadata dictionary, which [run_Kmeans] updates in place;
    [fs] is the file system. *)
Record world : Type := World {
  stdin : list string;
  rand_raw : nat -> nat;
  rand_pos : nat;
  meta : gmap string meta_value;
  fs : gmap string gtiff
}.

Definition set_stdin (l : list string) (w : world) : world :=
  World l (rand_raw w) (rand_pos w) (meta w) (fs w).
Definition set_rand_pos (p : nat) (w : world) : world :=
  World (stdin w) (rand_raw w) p (meta w) (fs w).
Definition set_meta (m : gmap string meta_value) (w : world) : world :=
  World (stdin w) (rand_raw w) (rand_pos w) m (fs w).
Definition set_fs (f : gmap string gtiff) (w : world) : world :=
  World (stdin w) (rand_raw w) (rand_pos w) (meta w) f.

(** The trace: the calls of the sweep and of the final fit (fits, scores,
    printed lines, the prediction), the prompt and the write of the output
    file, in the order in which they happen. A call is recorded when it is
    made, whether or not it returns. What [run_Kmeans] does before the sweep
    (the reshape, the normalisation, the PCA and the random draw) is not in
    the trace: it shows in the result and in the state only. *)
Inductive event (A : Type) : Type :=
| EvFit (n_clusters random_state : Z) (samples : ndarray A)
| EvSilhouette (samples : ndarray A) (labels : list Z)
| EvPrint (n_clusters : Z) (silhouette : A)
| EvInput (prompt : string)
| EvPredict (n_clusters : Z) (X : ndarray A)
| EvWrite (path : string) (band : nat).
Arguments EvFit {A} n_clusters random_state samples.
Arguments EvSilhouette {A} samples labels.
Arguments EvPrint {A} n_clusters silhouette.
Arguments EvInput {A} prompt.
Arguments EvPredict {A} n_clusters X.
Arguments EvWrite {A} path band.

Record outcome (A T : Type) : Type := Outcome {
  events : list (event A);
  final : world;
  value : result T
}.
Arguments Outcome {A T} events final value.
Arguments events {A T} o.
Arguments final {A T} o.
Arguments value {A T} o.

(** State, trace and exceptions: an exception keeps the state reached and the
    events so far, as in Python. *)
Definition M (A T : Type) : Type := world -> outcome A T.

Definition ret {A T : Type} (x : T) : M A T := fun w => Outcome [] w (Ok x).

Definition bind {A T U : Type} (m : M A T) (k : T -> M A U) : M A U := fun w =>
  match m w with
  | Outcome evs w1 (Ok x) =>
      match k x w1 with
      | Outcome evs' w2 v => Outcome (evs ++ evs') w2 v
      end
  | Outcome evs w1 (Raise e) => Outcome evs w1 (Raise e)
  end.

Definition lift {A T : Type} (r : result T) : M A T := fun w => Outcome [] w r.

(** A call out of the script: its event, then its result. *)
Definition call {A T : Type} (e : event A) (r : result T) : M A T :=
  fun w => Outcome [e] w r.

#[export] Instance M_ret {A : Type} : MRet (M A) := fun T x => ret x.
#[export] Instance M_bind {A : Type} : MBind (M A) := fun T U k m => bind m k.

(** [input(prompt)]: the next typed line, [EOFError] when there is none. *)
Definition input {A : Type} (prompt : string) : M A string := fun w =>
  match stdin w with
  | line :: rest => Outcome [EvInput prompt] (set_stdin rest w) (Ok line)
  | [] => Outcome [EvInput prompt] w (Raise EOFError)
  end.

(** [np.random.randint(high, size=size)]: [size] independent draws, each
    reduced into [0, high). numpy returns the empty array for [size] 0
    before it looks at the bounds, and raises [ValueError] for [high] 0
    otherwise. *)
Definition np_random_randint {A : Type} (high size : nat) : M A (list nat) := fun w =>
  if (high =? 0) && negb (size =? 0) then Outcome [] w (Raise ValueError)
  else Outcome []
         (set_rand_pos (rand_pos w + size) w)
         (Ok (map (fun i => rand_raw w (rand_pos w + i) mod high) (seq 0 size))).

(** [meta.update(dtype=dtype, count=1)] on the module-level dictionary. *)
Definition meta_update_dtype_count {A : Type} (dtype : string) : M A unit := fun w =>
  Outcome [] (set_meta (<["count" := MInt 1]> (<["dtype" := MStr dtype]> (meta w))) w) (Ok tt).

Definition get_meta {A : Type} : M A (gmap string meta_value) := fun w =>
  Outcome [] w (Ok (meta w)).

(** [with rasterio.open(path, 'w', **profile) as dst: dst.write(arr, 1)]:
    the file is created (or replaced) with that profile and [arr] as band 1. *)
Definition rasterio_write {A : Type} (path : string) (prof : gmap string meta_value)
    (arr : ndarray Z) : M A unit := fun w =>
  Outcome [EvWrite path 1] (set_fs (<[path := GTiff prof {[1 := arr]}]> (fs w)) w) (Ok tt).

(** ** run_Kmeans *)

(** [range_n_clusters = range(2, 33, 2)] *)
Definition range_n_clusters : list Z := py_range 2 33 2.

(** The name of the output file (lines 101 to 105). *)
Definition output_name (bestCluster : string) (bnorm pca : bool) : string :=
  let output := ("Sentinel_40m_kmeans_" ++ bestCluster ++ "k.tif")%string in
  let output := if bnorm then (slice_to_minus 4 output ++ "_bnorm.tif")%string else output in
  let output := if pca then (slice_to_minus 4 output ++ "_pca.tif")%string else output in
  output.

Definition prompt : string := "Please enter your selected number of clusters: ".

Section Pipeline.
Context {A : Type} `{Numeric A} {py : Interpreter}.
Variable lib : sklearn A.
Variable env : globals.

(** [X = np.reshape(raster, (rows*columns, raster.shape[2]))] *)
Definition reshape_pixels (raster : ndarray A) : result (ndarray A) :=
  match nth_error (shape raster) 2 with
  | Some b => np_reshape raster [rows env * columns env; b]
  | None => Raise IndexError
  end.

(** [if bnorm == True: X = np.apply_along_axis(norm, 0, X)] *)
Definition brightness (bnorm : bool) (X : ndarray A) : result (ndarray A) :=
  if bnorm then np_apply_along_axis0 norm X else Ok X.

(** [if pca == True: X = PCA(n_components=X.shape[1]).fit_transform(X)]
    (a call into scikit-learn that leaves no event in the trace) *)
Definition principal (pca : bool) (X : ndarray A) : result (ndarray A) :=
  if pca then PCA_fit_transform lib (ncols X) X else Ok X.

(** [idx = np.random.randint(X.shape[0], size=numSamples)] and
    [samples = X[idx, :]] *)
Definition subsample (X : ndarray A) (numSamples : nat) : M A (list nat * ndarray A) :=
  idx ← np_random_randint (nrows X) numSamples ;
  samples ← lift (take_rows X idx) ;
  ret (idx, samples).

Definition fit_predict (n_clusters random_state : Z) (samples : ndarray A)
  : M A (estimator lib * list Z) :=
  call (EvFit n_clusters random_state samples)
       (KMeans_fit_predict lib n_clusters random_state samples).

Definition silhouette (samples : ndarray A) (labels : list Z) : M A A :=
  call (EvSilhouette samples labels) (silhouette_score lib samples labels).

Definition print_score (n_clusters : Z) (s : A) : M A unit :=
  call (EvPrint n_clusters s) (Ok tt).

Definition predict (kmeans : estimator lib) (X : ndarray A) : M A (ndarray Z) :=
  call (EvPredict (n_clusters_of lib kmeans) X)
       (result_bind (KMeans_predict lib kmeans X)
          (fun l => Ok (NDArray [length l] l))).

(** The loop over [range_n_clusters] (lines 77 to 82). *)
Fixpoint sweep (samples : ndarray A) (candidates : list Z) : M A unit :=
  match candidates with
  | [] => ret tt
  | n_clusters :: rest =>
      '(clusterer, cluster_labels) ← fit_predict n_clusters 10 samples ;
      s ← silhouette samples cluster_labels ;
      print_score n_clusters s ;;
      sweep samples rest
  end.

(** Lines 89 to 114: the prompt, the final fit, the prediction of every
    pixel and the output file. *)
Definition select_and_write (X samples : ndarray A) (bnorm pca : bool) : M A (ndarray Z) :=
  bestCluster ← input prompt ;
  k ← lift (py_int bestCluster) ;
  '(kmeans, cluster_labels) ← fit_predict k 123 samples ;
  s ← silhouette samples cluster_labels ;
  predCluster ← predict kmeans X ;
  predCluster ← lift (np_reshape predCluster [rows env; columns env]) ;
  let output := output_name bestCluster bnorm pca in
  meta_update_dtype_count (labels_dtype lib) ;;
  prof ← get_meta ;
  rasterio_write output prof predCluster ;;
  ret predCluster.

Definition run_Kmeans (raster : ndarray A) (numSamples : nat) (bnorm pca : bool)
  : M A (ndarray Z) :=
  X ← lift (reshape_pixels raster) ;
  X ← lift (brightness bnorm X) ;
  X ← lift (principal pca X) ;
  '(idx, samples) ← subsample X numSamples ;
  sweep samples range_n_clusters ;;
  select_and_write X samples bnorm pca.

End Pipeline.

(** ** A small instance of the scikit-learn interface *)

(** Used to run the pipeline on examples. It keeps to the documented
    contract and to scikit-learn's argument checks (at least one cluster and
    no more clusters than samples; 2 to n_samples - 1 distinct labels; no
    more components than rows or columns) but does no numerical work: row
    [i] gets label [i mod k], the score is 0 and the PCA leaves the matrix
    as it is. *)
Definition toy_labels (k : Z) (n : nat) : list Z :=
  map (fun i => (Z.of_nat i mod k)%Z) (seq 0 n).

Definition toy_sklearn {A : Type} `{Numeric A} : sklearn A := {|
  estimator := Z;
  n_clusters_of := fun k => k;
  KMeans_fit_predict := fun k _ X =>
    if ((1 <=? k) && (k <=? Z.of_nat (nrows X)))%Z
    then Ok (k, toy_labels k (nrows X))
    else Raise ValueError;
  KMeans_predict := fun k X =>
    if (1 <=? k)%Z then Ok (toy_labels k (nrows X)) else Raise ValueError;
  silhouette_score := fun X l =>
    if (2 <=? n_labels l) && (n_labels l <=? nrows X - 1)
    then Ok nzero
    else Raise ValueError;
  PCA_fit_transform := fun n X =>
    if n <=? Nat.min (nrows X) (ncols X) then Ok X else Raise ValueError;
  labels_dtype := "int32"
|}.

(** ** An interpreter *)

(** CPython 3.11 with the Unicode database 14.0.0: the blanks from
    code point 127 on (U+0085, U+00A0, U+1680, U+2000 to U+200A, U+2028,
    U+2029, U+202F, U+205F, U+3000), the decimal digits, which come in runs
    of ten from the digit zero of each script, and the default limit of 4300
    digits. *)
Definition unicode_blanks : list N :=
  [133; 160; 5760; 8192; 8193; 8194; 8195; 8196; 8197; 8198; 8199; 8200;
   8201; 8202; 8232; 8233; 8239; 8287; 12288]%N.

(** The digit zero of each script (from U+0660, Arabic-Indic, to U+1FBF0,
    segmented digits; U+FF10 is the fullwidth zero). *)
Definition unicode_zeros : list N :=
  [
   1632; 1776; 1984; 2406; 2534; 2662; 2790; 2918;
   3046; 3174; 3302; 3430; 3558; 3664; 3792; 3872;
   4160; 4240; 6112; 6160; 6470; 6608; 6784; 6800;
   6992; 7088; 7232; 7248; 42528; 43216; 43264; 43472;
   43504; 43600; 44016; 65296; 66720; 68912; 69734; 69872;
   69942; 70096; 70384; 70736; 70864; 71248; 71360; 71472;
   71904; 72016; 72784; 73040; 73120; 92768; 92864; 93008;
   120782; 120792; 120802; 120812; 120822; 123200; 123632; 125264;
   130032]%N.

Definition unicode_decimal (ch : N) : option nat :=
  match List.find (fun z => (z <=? ch) && (ch <? z + 10))%N unicode_zeros with
  | Some z => Some (N.to_nat (ch - z))
  | None => None
  end.

Definition cpython : Interpreter := {|
  Py_UNICODE_ISSPACE := fun ch => existsb (N.eqb ch) unicode_blanks;
  Py_UNICODE_TODECIMAL := unicode_decimal;
  int_max_str_digits := 4300
|}.

(** ** Example inputs *)

(** One pixel with the two band values 3 and 4. *)
Definition one_pixel_R : ndarray R := NDArray [1; 1; 2] [3%R; 4%R].
Definition one_pixel_float : ndarray float := NDArray [1; 1; 2] [3%float; 4%float].

(** Two rows of three pixels with two bands each. *)
Definition raster_2x3 : ndarray float :=
  NDArray [2; 3; 2]
    [1%float; 2%float; 3%float; 4%float; 5%float; 6%float;
     7%float; 8%float; 9%float; 10%float; 11%float; 12%float].

(** The same pixels as a matrix of six rows and two bands. *)
Definition pixels_6x2 : ndarray float :=
  NDArray [6; 2]
    [1%float; 2%float; 3%float; 4%float; 5%float; 6%float;
     7%float; 8%float; 9%float; 10%float; 11%float; 12%float].

(** Cropped inputs of the band stacking: two Sentinel-2 bands and one
    Sentinel-1 band over two rows of three pixels. *)
Definition img_S2 : ndarray float :=
  NDArray [2; 2; 3]
    [1%float; 2%float; 3%float; 4%float; 5%float; 6%float;
     7%float; 8%float; 9%float; 10%float; 11%float; 12%float].
Definition img_S1 : ndarray float :=
  NDArray [1; 2; 3]
    [13%float; 14%float; 15%float; 16%float; 17%float; 18%float].

Definition src_meta_example : gmap string meta_value :=
  <["driver" := MStr "JP2OpenJPEG"]>
  (<["dtype" := MStr "float32"]>
   (<["nodata" := MObj (PyObj 1)]>
    (<["width" := MInt 1570]>
     (<["height" := MInt 1600]>
      (<["count" := MInt 13]>
       (<["crs" := MObj (PyObj 2)]>
        (<["transform" := MObj (PyObj 3)]> ∅))))))).

(** A terminal on which [line] is typed, a generator whose raw draws count
    up from 0, the metadata of the example and an empty disk. *)
Definition world_typing (line : string) : world :=
  World [line] (fun i => i) 0 src_meta_example ∅.

Definition env_2x3 : globals := Globals 2 3.

(** Typed lines: the fullwidth digit four (U+FF14, the bytes EF BC 94); a
    no-break space (U+00A0, the bytes C2 A0) and a 4; the control character
    1C (file separator), which [str.strip] takes off and [int] does not,
    and a 4; a 4 and the control character 1F. *)
Definition fullwidth_four : string :=
  string_of_list_ascii (map ascii_of_nat [239; 188; 148]).
Definition nbsp_four : string :=
  string_of_list_ascii (map ascii_of_nat [194; 160; 52]).
Definition separator_four : string :=
  string_of_list_ascii (map ascii_of_nat [28; 52]).
Definition four_separator : string :=
  string_of_list_ascii (map ascii_of_nat [52; 31]).

(** ** Reading a trace *)

(** Events of the sweep: fits with [random_state=10], scores and prints. *)
Definition is_sweep_event {A : Type} (e : event A) : Prop :=
  match e with
  | EvFit _ rs _ => rs = 10%Z
  | EvSilhouette _ _ => True
  | EvPrint _ _ => True
  | _ => False
  end.

(** A completed sweep over [candidates]: for each candidate, in order, the
    fit on [samples], the score of the labels that fit returned and the
    printed line with that score. *)
Inductive sweep_run {A : Type} (lib : sklearn A) (samples : ndarray A)
  : list Z -> list (event A) -> Prop :=
| sweep_run_nil : sweep_run lib samples [] []
| sweep_run_cons n rest m l s evs :
    KMeans_fit_predict lib n 10 samples = Ok (m, l) ->
    silhouette_score lib samples l = Ok s ->
    sweep_run lib samples rest evs ->
    sweep_run lib samples (n :: rest)
      (EvFit n 10 samples :: EvSilhouette samples l :: EvPrint n s :: evs).

(** What follows the (first) prompt. *)
Fixpoint after_prompt {A : Type} (evs : list (event A)) : list (event A) :=
  match evs with
  | [] => []
  | EvInput _ :: rest => rest
  | _ :: rest => after_prompt rest
  end.

(** The [(n_clusters, random_state)] of the fits in a trace. *)
Definition fit_requests {A : Type} (evs : list (event A)) : list (Z * Z) :=
  flat_map (fun e => match e with EvFit n rs _ => [(n, rs)] | _ => [] end) evs.

(** The files written in a trace. *)
Definition written {A : Type} (evs : list (event A)) : list string :=
  flat_map (fun e => match e with EvWrite path _ => [path] | _ => [] end) evs.

(** [X] is the pixel matrix [run_Kmeans] derives from [raster]: the reshaped
    raster after the optional normalisation and PCA. *)
Definition prepared {A : Type} `{Numeric A} (lib : sklearn A) (env : globals)
    (raster : ndarray A) (bnorm pca : bool) (X : ndarray A) : Prop :=
  exists X0 X1,
    reshape_pixels env raster = Ok X0 /\
    brightness bnorm X0 = Ok X1 /\
    principal lib pca X1 = Ok X.

(** The prediction claim read for every cluster count from 1 on: whenever the
    prompt is reached and the typed count [k] is at least 1, the run returns
    an array of the raster's rows and columns with labels in [0, k), written
    to the output file as its only band. *)
Definition labels_every_count_from_one : Prop :=
  forall (py : Interpreter) (lib : sklearn float), sklearn_contract lib ->
  forall (env : globals) (raster : ndarray float) (R C B numSamples : nat)
         (bnorm pca : bool) (w : world) (s : string) (rest : list string) (k : Z),
    shape raster = [R; C; B] -> well_shaped raster ->
    rows env = R -> columns env = C ->
    stdin w = s :: rest -> py_int s = Ok k -> (1 <= k)%Z ->
    In (EvInput prompt) (events (run_Kmeans lib env raster numSamples bnorm pca w)) ->
    exists pred f,
      value (run_Kmeans lib env raster numSamples bnorm pca w) = Ok pred /\
      shape pred = [R; C] /\
      Forall (fun c => 0 <= c < k)%Z (data pred) /\
      fs (final (run_Kmeans lib env raster numSamples bnorm pca w))
        !! output_name s bnorm pca = Some f /\
      bands f !! 1 = Some pred /\
      profile f !! "count" = Some (MInt 1).

(** ** Plotting and the rest of the main script *)

(** What [plot_image] needs besides [Numeric]: [np.minimum] and the number 1
    (the default [factor], and the bound the image is clipped at). *)
Class Display (A : Type) : Type := {
  nmin : A -> A -> A;
  none : A
}.

#[export] Instance Display_R : Display R := {|
  nmin := Rmin;
  none := 1%R
|}.

(** An image is an array of floating-point numbers or of integers
    ([np.issubdtype(image.dtype, np.floating)] tells which). *)
Inductive image (A : Type) : Type :=
| FloatImage (a : ndarray A)
| IntImage (a : ndarray Z).
Arguments FloatImage {A} a.
Arguments IntImage {A} a.

Definition image_shape {A : Type} (img : image A) : list nat :=
  match img with
  | FloatImage a => shape a
  | IntImage a => shape a
  end.

(** The shapes [plt.imshow] takes: (M, N), (M, N, 3) and (M, N, 4). For any
    other it raises [TypeError]. *)
Definition imshow_accepts (sh : list nat) : bool :=
  match sh with
  | [_; _] => true
  | [_; _; c] => (c =? 3) || (c =? 4)
  | _ => false
  end.

(** The array [plot_image] hands to [plt.imshow]:
    [np.minimum(image * factor, 1)] for a floating-point image, the image
    itself otherwise. *)
Definition imshow_argument {A : Type} `{Numeric A} `{Display A} (img : image A)
    (factor : A) : image A :=
  match img with
  | FloatImage a =>
      FloatImage (NDArray (shape a) (map (fun x => nmin (nmul x factor) none) (data a)))
  | IntImage a => IntImage a
  end.

(** [plot_image(image, factor)]: the array shown, or the [TypeError] of
    [plt.imshow]. *)
Definition plot_image {A : Type} `{Numeric A} `{Display A} (img : image A) (factor : A)
  : result (image A) :=
  let shown := imshow_argument img factor in
  if imshow_accepts (image_shape shown) then Ok shown else Raise TypeError.

(** [a[:, :, idx]] on a 3-D array, [idx] a list of positions on the last
    axis: [out[b, i, k] = a[b, i, idx[k]]]; [IndexError] when a position is
    out of the axis or the array has fewer than three axes. *)
Definition np_take_last {A : Type} (a : ndarray A) (idx : list nat) : result (ndarray A) :=
  match shape a with
  | [s0; s1; s2] =>
      if forallb (fun k => k <? s2) idx
      then Ok (NDArray [s0; s1; length idx]
                 (flat_map (fun b =>
                    flat_map (fun i =>
                      flat_map (fun k => option_list (item a [b; i; k])) idx)
                    (seq 0 s1))
                  (seq 0 s0)))
      else Raise IndexError
  | _ => Raise IndexError
  end.

(** Lines 240 to 245 of the main script, with the preview:
    [raster = np.concatenate((img, img2), axis=0)],
    [plot_image(raster[:,:,[8,4,3]])],
    [raster = np.transpose(raster, [1,2,0])]. The result is the raster and
    the image the preview showed. *)
Definition main_stack {A : Type} `{Numeric A} `{Display A} (img img2 : ndarray A)
  : result (ndarray A * image A) :=
  result_bind (np_concatenate img img2) (fun raster =>
  result_bind (np_take_last raster [8; 4; 3]) (fun preview =>
  result_bind (plot_image (FloatImage preview) none) (fun shown =>
  result_bind (np_transpose_120 raster) (fun raster => Ok (raster, shown))))).

(** How the clustering section of the main script ends when no call raises:
    it runs to its last line, or it stops at a name that is not bound. *)
Inductive script_end : Type :=
| Finished
| NameError (name : string).

(** [plot_image(<name>)] in the main script: the name must be bound; the
    label image it is bound to, an array of integers, is then handed to
    [plt.imshow] as it is. *)
Definition plot_name {A : Type} (vars : gmap string (ndarray Z)) (name : string)
    (rest : M A script_end) : M A script_end :=
  match vars !! name with
  | Some a => if imshow_accepts (shape a) then rest else lift (Raise TypeError)
  | None => mret (NameError name)
  end.

(** How the section ends when it stops at the unbound [name] after a call
    with result [r]: with the call's exception if it raised, with the
    [NameError] otherwise. *)
Definition stops_at {T : Type} (name : string) (r : result T) : result script_end :=
  match r with
  | Ok _ => Ok (NameError name)
  | Raise e => Raise e
  end.

(** The default of [numSamples]. *)
Definition default_numSamples : nat := 100 * 100.

(** Lines 250 to 264: four calls of [run_Kmeans] with the default
    [numSamples=10000], each result bound to a name and a label image
    plotted after each call. [vars] holds the label images bound before
    line 250. *)
Definition main_clustering {A : Type} `{Numeric A} {py : Interpreter}
    (lib : sklearn A) (env : globals)
    (raster : ndarray A) (vars : gmap string (ndarray Z)) : M A script_end :=
  kmeans1 ← run_Kmeans lib env raster default_numSamples false false;
  let vars := <["kmeans1" := kmeans1]> vars in
  plot_name vars "kmeans2" (
  kmeans2 ← run_Kmeans lib env raster default_numSamples false true;
  let vars := <["kmeans2" := kmeans2]> vars in
  plot_name vars "kmeans2" (
  kmeans3 ← run_Kmeans lib env raster default_numSamples true false;
  let vars := <["kmeans3" := kmeans3]> vars in
  plot_name vars "kmeans3" (
  kmeans4 ← run_Kmeans lib env raster default_numSamples true true;
  let vars := <["kmeans4" := kmeans4]> vars in
  plot_name vars "kmeans4" (mret Finished)))).

(** ** More example inputs *)

(** One band, one row, nine columns, and a second band over the same
    pixels. *)
Definition img_9_columns : ndarray R :=
  NDArray [1; 1; 9] [1; 2; 3; 4; 5; 6; 7; 8; 9]%R.
Definition img2_9_columns : ndarray R :=
  NDArray [1; 1; 9] [11; 12; 13; 14; 15; 16; 17; 18; 19]%R.

(** Two bands and a third over two rows of three pixels. *)
Definition img_3_columns : ndarray R :=
  NDArray [2; 2; 3] [1; 2; 3; 4; 5; 6; 7; 8; 9; 10; 11; 12]%R.
Definition img2_3_columns : ndarray R :=
  NDArray [1; 2; 3] [13; 14; 15; 16; 17; 18]%R.

(** Three pixels with two bands each, as a matrix. *)
Definition pixels_3x2_R : ndarray R := NDArray [3; 2] [3; 1; 4; 2; 0; 2]%R.

(** A raster without pixels: no rows, three columns, two bands. *)
Definition raster_0x3 : ndarray float := NDArray [0; 3; 2] [].

(** The metadata of the example after the crop to [img_S2] with transform
    #7, and a world holding it on which [line] is typed. *)
Definition meta_cropped : gmap string meta_value :=
  <["transform" := MObj (PyObj 7)]>
  (<["width" := MInt 3]>
   (<["height" := MInt 2]>
    (<["driver" := MStr "GTiff"]> src_meta_example))).

Definition world_cropped (line : string) : world :=
  World [line] (fun i => i) 0 meta_cropped ∅.

(** ** The previews of the downloaded images (lines 155 to 198) *)

(** [l[i]] for a Python list and an integer index, negative indices counting
    from the end; [IndexError] out of range. *)
Definition py_index {T : Type} (l : list T) (i : Z) : result T :=
  let n := Z.of_nat (length l) in
  let j := if (i <? 0)%Z then (i + n)%Z else i in
  if ((0 <=? j) && (j <? n))%Z
  then match nth_error l (Z.to_nat j) with
       | Some x => Ok x
       | None => Raise IndexError
       end
  else Raise IndexError.

(** What the imagery service returned: the true-colour Sentinel-2 images and
    their dates, the raw-band Sentinel-2 images, the Sentinel-1 images and
    their dates. *)
Record acquired (A : Type) : Type := Acquired {
  wms_true_color_img : list (image A);
  wms_true_color_dates : list string;
  wms_bands_img : list (image A);
  s1_data : list (image A);
  s1_dates : list string
}.
Arguments Acquired {A}.
Arguments wms_true_color_img {A} a.
Arguments wms_true_color_dates {A} a.
Arguments wms_bands_img {A} a.
Arguments s1_data {A} a.
Arguments s1_dates {A} a.

(** A printed line: the count of images, or an image index with its date. *)
Inductive printed : Type :=
| PrintCount (n : nat)
| PrintDate (index : nat) (date : string).

(** [for index, date in enumerate(dates): print(...)] *)
Definition print_dates (dates : list string) : list printed :=
  map (fun p => PrintDate (fst p) (snd p)) (combine (seq 0 (length dates)) dates).

(** Lines 155 to 198: the lines printed, the images shown and how the
    section ends. [plot_image(wms_true_color_img[1])],
    [plot_image(wms_bands_img[-1])] and [plot_image(s1_data[2])] raise
    [IndexError] when the list is too short and [TypeError] when the image
    has a shape [plt.imshow] does not take; the section stops at the first
    exception. *)
Definition preview_acquired {A : Type} `{Numeric A} `{Display A} (a : acquired A)
  : list printed * list (image A) * result unit :=
  let lines1 := PrintCount (length (wms_true_color_img a))
                :: print_dates (wms_true_color_dates a) in
  match result_bind (py_index (wms_true_color_img a) 1) (fun tc => plot_image tc none) with
  | Raise e => (lines1, [], Raise e)
  | Ok p1 =>
    match result_bind (py_index (wms_bands_img a) (-1)) (fun bd => plot_image bd none) with
    | Raise e => (lines1, [p1], Raise e)
    | Ok p2 =>
      let lines2 := lines1 ++ PrintCount (length (s1_data a)) :: print_dates (s1_dates a) in
      match result_bind (py_index (s1_data a) 2) (fun s1 => plot_image s1 none) with
      | Raise e => (lines2, [p1; p2], Raise e)
      | Ok p3 => (lines2, [p1; p2; p3], Ok tt)
      end
    end
  end.

(** Thirteen Sentinel-2 bands over one pixel, and a picture of three
    channels over the same pixel. *)
Definition bands_13 : image R :=
  FloatImage (NDArray [1; 1; 13] [1; 2; 3; 4; 5; 6; 7; 8; 9; 10; 11; 12; 13]%R).
Definition picture_3 : image R :=
  FloatImage (NDArray [1; 1; 3] [1; 2; 3]%R).

(** What the service returns when the band layer delivers all thirteen
    bands: two true-colour pictures, the band image and three radar
    pictures. *)
Definition acquired_13_bands : acquired R :=
  Acquired [picture_3; picture_3] ["2017-12-05"; "2017-12-10"]
           [bands_13] [picture_3; picture_3; picture_3]
           ["2017-12-06"; "2017-12-09"; "2017-12-12"].
(** ** Facts about arrays *)

Lemma nth_error_flat_map_regular {A : Type} (f : nat -> list A) (m : nat) :
  forall n s i k,
    (forall x, s <= x < s + n -> length (f x) = m) ->
    i < n -> k < m ->
    nth_error (flat_map f (seq s n)) (i * m + k) = nth_error (f (s + i)) k.
Proof.
  induction n as [|n IH]; intros s i k Hlen Hi Hk; [lia|].
  cbn [seq flat_map]. destruct i as [|i].
  - rewrite Nat.add_0_r. cbn [Nat.mul Nat.add].
    rewrite nth_error_app1 by (rewrite Hlen; lia). reflexivity.
  - rewrite nth_error_app2 by (rewrite Hlen by lia; cbn [Nat.mul]; lia).
    rewrite Hlen by lia.
    replace (S i * m + k - m) with (i * m + k) by (cbn [Nat.mul]; lia).
    rewrite IH; [| intros x Hx; apply Hlen; lia | lia | lia].
    replace (S s + i) with (s + S i) by lia. reflexivity.
Qed.

Lemma length_flat_map_regular {A : Type} (f : nat -> list A) (m : nat) :
  forall n s,
    (forall x, s <= x < s + n -> length (f x) = m) ->
    length (flat_map f (seq s n)) = n * m.
Proof.
  induction n as [|n IH]; intros s Hlen; [reflexivity|].
  cbn [seq flat_map]. rewrite length_app, Hlen by lia.
  rewrite IH; [lia | intros x Hx; apply Hlen; lia].
Qed.

Lemma ravel3 (s0 s1 s2 i j k : nat) :
  i < s0 -> j < s1 -> k < s2 ->
  ravel [s0; s1; s2] [i; j; k] = Some ((i * s1 + j) * s2 + k).
Proof.
  intros Hi Hj Hk. cbn [ravel size_of fold_right].
  apply Nat.ltb_lt in Hi, Hj, Hk. rewrite Hi, Hj, Hk. f_equal. ring.
Qed.

Lemma ravel2 (s0 s1 i j : nat) :
  i < s0 -> j < s1 -> ravel [s0; s1] [i; j] = Some (i * s1 + j).
Proof.
  intros Hi Hj. cbn [ravel size_of fold_right].
  apply Nat.ltb_lt in Hi, Hj. rewrite Hi, Hj. f_equal. ring.
Qed.

Lemma offset3_lt (s0 s1 s2 i j k : nat) :
  i < s0 -> j < s1 -> k < s2 -> (i * s1 + j) * s2 + k < s0 * (s1 * (s2 * 1)).
Proof.
  intros Hi Hj Hk.
  assert (H1 : i * s1 + j + 1 <= s0 * s1) by nia.
  assert (H2 : (i * s1 + j + 1) * s2 <= s0 * s1 * s2) by (apply Nat.mul_le_mono_r; exact H1).
  rewrite Nat.mul_1_r, Nat.mul_assoc. nia.
Qed.

Lemma item3_is_Some {A : Type} (a : ndarray A) (s0 s1 s2 i j k : nat) :
  shape a = [s0; s1; s2] -> well_shaped a ->
  i < s0 -> j < s1 -> k < s2 ->
  exists x, item a [i; j; k] = Some x.
Proof.
  intros Hs Hw Hi Hj Hk. unfold item. rewrite Hs, ravel3 by assumption.
  destruct (nth_error (data a) ((i * s1 + j) * s2 + k)) as [x|] eqn:E; [eauto|].
  apply nth_error_None in E. red in Hw. rewrite Hs in Hw. cbn in Hw.
  pose proof (offset3_lt s0 s1 s2 i j k Hi Hj Hk). lia.
Qed.

Lemma item3_eq {A : Type} (a : ndarray A) (s0 s1 s2 i j k : nat) :
  shape a = [s0; s1; s2] -> i < s0 -> j < s1 -> k < s2 ->
  item a [i; j; k] = nth_error (data a) ((i * s1 + j) * s2 + k).
Proof.
  intros Hs Hi Hj Hk. unfold item. rewrite Hs, ravel3 by assumption. reflexivity.
Qed.

Lemma option_list_length_Some {A : Type} (o : option A) :
  (exists x, o = Some x) -> length (option_list o) = 1.
Proof. intros [x ->]. reflexivity. Qed.

(** Transposition moves the band axis last. *)
Lemma np_transpose_120_item {A : Type} (a : ndarray A) (s0 s1 s2 : nat) :
  shape a = [s0; s1; s2] -> well_shaped a ->
  exists t, np_transpose_120 a = Ok t /\ shape t = [s1; s2; s0] /\ well_shaped t /\
    forall i j b, i < s1 -> j < s2 -> b < s0 ->
      item t [i; j; b] = item a [b; i; j].
Proof.
  intros Hs Hw. unfold np_transpose_120. rewrite Hs.
  eexists. split; [reflexivity|]. split; [reflexivity|].
  set (inner := fun i j => flat_map (fun b => option_list (item a [b; i; j])) (seq 0 s0)).
  set (mid := fun i => flat_map (inner i) (seq 0 s2)).
  assert (Hinner : forall i j, i < s1 -> j < s2 -> length (inner i j) = s0 * 1).
  { intros i j Hi Hj. unfold inner. apply length_flat_map_regular.
    intros b Hb. apply option_list_length_Some.
    apply (item3_is_Some a s0 s1 s2); auto; lia. }
  assert (Hmid : forall i, i < s1 -> length (mid i) = s2 * (s0 * 1)).
  { intros i Hi. unfold mid. apply length_flat_map_regular.
    intros j Hj. apply Hinner; lia. }
  split.
  - red. cbn [data shape size_of fold_right].
    rewrite (length_flat_map_regular mid (s2 * (s0 * 1))); [reflexivity|].
    intros i Hi. apply Hmid. lia.
  - intros i j b Hi Hj Hb.
    rewrite (item3_eq _ s1 s2 s0) by (auto; reflexivity). cbn [data].
    replace ((i * s2 + j) * s0 + b) with (i * (s2 * (s0 * 1)) + (j * (s0 * 1) + b)) by ring.
    rewrite (nth_error_flat_map_regular mid (s2 * (s0 * 1)));
      [| intros x Hx; apply Hmid; lia | assumption | nia].
    cbn [Nat.add]. unfold mid.
    rewrite (nth_error_flat_map_regular (inner i) (s0 * 1));
      [| intros x Hx; apply Hinner; lia | assumption | lia].
    cbn [Nat.add]. unfold inner.
    replace b with (b * 1 + 0) at 1 by lia.
    rewrite (nth_error_flat_map_regular _ 1);
      [| intros x Hx; apply option_list_length_Some;
         apply (item3_is_Some a s0 s1 s2); auto; lia | assumption | lia].
    cbn [Nat.add].
    destruct (item3_is_Some a s0 s1 s2 b i j Hs Hw Hb Hi Hj) as [x Hx].
    rewrite Hx. reflexivity.
Qed.

(** Concatenation along axis 0 puts the second array after the first. *)
Lemma np_concatenate_item {A : Type} (a b : ndarray A) (n m s1 s2 : nat) :
  shape a = [n; s1; s2] -> shape b = [m; s1; s2] ->
  well_shaped a -> well_shaped b ->
  exists c, np_concatenate a b = Ok c /\ shape c = [n + m; s1; s2] /\ well_shaped c /\
    forall k i j, i < s1 -> j < s2 ->
      (k < n -> item c [k; i; j] = item a [k; i; j]) /\
      (n <= k < n + m -> item c [k; i; j] = item b [k - n; i; j]).
Proof.
  intros Ha Hb Hwa Hwb. unfold np_concatenate. rewrite Ha, Hb.
  destruct (decide ([s1; s2] = [s1; s2])) as [_|Hne]; [|congruence].
  eexists. split; [reflexivity|]. split; [reflexivity|].
  red in Hwa, Hwb. rewrite Ha in Hwa. rewrite Hb in Hwb.
  cbn [size_of fold_right] in Hwa, Hwb.
  split.
  - red. cbn [data shape size_of fold_right]. rewrite length_app, Hwa, Hwb. ring.
  - intros k i j Hi Hj. split; intros Hk.
    + rewrite (item3_eq _ (n + m) s1 s2), (item3_eq a n s1 s2) by (auto; lia).
      cbn [data]. apply nth_error_app1. rewrite Hwa.
      apply offset3_lt; assumption.
    + rewrite (item3_eq _ (n + m) s1 s2), (item3_eq b m s1 s2) by (auto; lia).
      cbn [data]. rewrite nth_error_app2 by (rewrite Hwa; nia).
      f_equal. rewrite Hwa. nia.
Qed.

(** The two array operations of the stacking, taken together: the
    concatenation followed by the transposition gives an array of shape
    (R, C, B2+B1) with the bands of [img] first and those of [img2] after
    them. *)
Lemma stack_bands_item {A : Type} (img img2 : ndarray A) (B2 B1 R C : nat) :
  shape img = [B2; R; C] -> shape img2 = [B1; R; C] ->
  well_shaped img -> well_shaped img2 ->
  exists raster,
    stack_bands img img2 = Ok raster /\
    shape raster = [R; C; B2 + B1] /\
    well_shaped raster /\
    forall i j b, i < R -> j < C ->
      (b < B2 -> item raster [i; j; b] = item img [b; i; j] /\
                 is_Some (item img [b; i; j])) /\
      (B2 <= b < B2 + B1 -> item raster [i; j; b] = item img2 [b - B2; i; j] /\
                            is_Some (item img2 [b - B2; i; j])).
Proof.
  intros Hs Hs2 Hw Hw2.
  destruct (np_concatenate_item img img2 B2 B1 R C Hs Hs2 Hw Hw2)
    as (c & Hc & Hcs & Hcw & Hci).
  destruct (np_transpose_120_item c (B2 + B1) R C Hcs Hcw)
    as (t & Ht & Hts & Htw & Hti).
  exists t. unfold stack_bands. rewrite Hc. cbn [result_bind].
  split; [exact Ht|]. split; [exact Hts|]. split; [exact Htw|].
  intros i j b Hi Hj. split; intros Hb.
  - split.
    + rewrite Hti by (auto; lia). apply Hci; assumption.
    + destruct (item3_is_Some img B2 R C b i j Hs Hw Hb Hi Hj) as [x Hx].
      rewrite Hx. eauto.
  - split.
    + rewrite Hti by (auto; lia). apply Hci; assumption.
    + assert (Hb' : b - B2 < B1) by lia.
      destruct (item3_is_Some img2 B1 R C (b - B2) i j Hs2 Hw2 Hb' Hi Hj) as [x Hx].
      rewrite Hx. eauto.
Qed.

(** C2. With the module-level [rows] and [columns] those of the raster, as
    the script sets them, [run_Kmeans] first reshapes a raster of shape
    (R, C, B) into the matrix X of shape (R*C, B) in row-major order:
    [X[i*C + j, b] = raster[i, j, b]]. *)
Theorem reshape_pixels_row_major {A : Type} (env : globals) (raster : ndarray A)
    (R C B : nat) :
  shape raster = [R; C; B] -> well_shaped raster ->
  rows env = R -> columns env = C ->
  exists X,
    reshape_pixels env raster = Ok X /\
    shape X = [R * C; B] /\
    well_shaped X /\
    forall i j b, i < R -> j < C -> b < B ->
      item X [i * C + j; b] = item raster [i; j; b] /\
      is_Some (item raster [i; j; b]).
Proof.
  intros Hs Hw HR HC. unfold reshape_pixels, np_reshape.
  rewrite Hs, HR, HC. cbn [nth_error].
  red in Hw. rewrite Hs in Hw. cbn [size_of fold_right] in Hw.
  assert (Hsz : size_of [R * C; B] = length (data raster)).
  { cbn [size_of fold_right]. rewrite Hw. ring. }
  apply Nat.eqb_eq in Hsz. rewrite Hsz.
  eexists. split; [reflexivity|]. split; [reflexivity|]. split.
  - red. cbn [data shape]. apply Nat.eqb_eq in Hsz. symmetry. exact Hsz.
  - intros i j b Hi Hj Hb. split.
    + rewrite (item3_eq raster R C B) by assumption.
      unfold item. cbn [shape data]. rewrite ravel2; [reflexivity | nia | assumption].
    + assert (Hw' : well_shaped raster) by (red; rewrite Hs; exact Hw).
      destruct (item3_is_Some raster R C B i j b Hs Hw' Hi Hj Hb) as [x Hx].
      rewrite Hx. eauto.
Qed.

Lemma reshape_pixels_row_major_witness :
  exists X,
    reshape_pixels env_2x3 raster_2x3 = Ok X /\
    shape X = [2 * 3; 2] /\
    well_shaped X /\
    forall i j b, i < 2 -> j < 3 -> b < 2 ->
      item X [i * 3 + j; b] = item raster_2x3 [i; j; b] /\
      is_Some (item raster_2x3 [i; j; b]).
Proof.
  apply (reshape_pixels_row_major env_2x3 raster_2x3 2 3 2); reflexivity.
Defined.

(** ** The output file name *)

Lemma string_length_app (x y : string) :
  String.length (x ++ y)%string = String.length x + String.length y.
Proof.
  induction x as [|c x IH]; [reflexivity|].
  change (String c x ++ y)%string with (String c (x ++ y)).
  cbn [String.length Nat.add]. rewrite IH. reflexivity.
Qed.

Lemma substring_prefix (x y : string) :
  substring 0 (String.length x) (x ++ y)%string = x.
Proof.
  induction x as [|c x IH].
  - destruct y; reflexivity.
  - change (String c x ++ y)%string with (String c (x ++ y)).
    cbn [String.length substring]. rewrite IH. reflexivity.
Qed.

Lemma slice_to_minus_app (n : nat) (x y : string) :
  String.length y = n -> slice_to_minus n (x ++ y)%string = x.
Proof.
  intros Hy. unfold slice_to_minus. rewrite string_length_app, Hy.
  replace (String.length x + n - n) with (String.length x) by lia.
  apply substring_prefix.
Qed.

Lemma string_app_assoc (x y z : string) :
  ((x ++ y) ++ z)%string = (x ++ (y ++ z))%string.
Proof.
  induction x as [|c x IH]; [reflexivity|].
  change (String c x ++ y)%string with (String c (x ++ y)).
  change (String c x ++ (y ++ z))%string with (String c (x ++ (y ++ z))).
  change (String c (x ++ y) ++ z)%string with (String c ((x ++ y) ++ z)).
  rewrite IH. reflexivity.
Qed.

(** C9. For every typed string [s] the output file is
    "Sentinel_40m_kmeans_" + s + "k.tif"; "_bnorm" goes before ".tif" when
    [bnorm] is set, "_pca" when [pca] is set, and "_bnorm_pca" when both
    are. *)
Theorem output_name_suffixes (s : string) :
  output_name s false false = ("Sentinel_40m_kmeans_" ++ s ++ "k.tif")%string /\
  output_name s true false = ("Sentinel_40m_kmeans_" ++ s ++ "k_bnorm.tif")%string /\
  output_name s false true = ("Sentinel_40m_kmeans_" ++ s ++ "k_pca.tif")%string /\
  output_name s true true = ("Sentinel_40m_kmeans_" ++ s ++ "k_bnorm_pca.tif")%string /\
  output_name "8" true true = "Sentinel_40m_kmeans_8k_bnorm_pca.tif"%string.
Proof.
  assert (Hcut : forall t : string,
    slice_to_minus 4 ("Sentinel_40m_kmeans_" ++ s ++ t ++ ".tif")%string
    = ("Sentinel_40m_kmeans_" ++ s ++ t)%string).
  { intros t.
    rewrite <- (string_app_assoc s t ".tif").
    rewrite <- (string_app_assoc "Sentinel_40m_kmeans_" (s ++ t) ".tif").
    rewrite slice_to_minus_app by reflexivity.
    reflexivity. }
  unfold output_name. cbv zeta iota.
  change "k.tif"%string with ("k" ++ ".tif")%string.
  repeat split.
  - rewrite Hcut. rewrite !string_app_assoc. reflexivity.
  - rewrite Hcut. rewrite !string_app_assoc. reflexivity.
  - rewrite Hcut. rewrite !string_app_assoc.
    change ("k" ++ "_bnorm.tif")%string with ("k_bnorm" ++ ".tif")%string.
    rewrite Hcut. rewrite !string_app_assoc. reflexivity.
Qed.

(** ** [int] of a string *)

(** The parser's tests on characters are the grammar's character classes. *)
Lemma digit_value_chars (c : ascii) (d : Z) :
  digit_value c = Some d <-> In (c, d) digit_chars.
Proof.
  split.
  - destruct c as [[] [] [] [] [] [] [] []]; vm_compute; intros E;
      try discriminate E; injection E as <-; auto 12.
  - intros Hin. cbn [In digit_chars] in Hin.
    repeat (destruct Hin as [Hin|Hin]; [injection Hin as <- <-; reflexivity|]).
    destruct Hin.
Qed.

Lemma is_space_chars (c : ascii) : is_space c = true <-> In c blank_chars.
Proof.
  split.
  - destruct c as [[] [] [] [] [] [] [] []]; vm_compute; intros E;
      try discriminate E; auto 8.
  - intros Hin. cbn [In blank_chars] in Hin.
    repeat (destruct Hin as [Hin|Hin]; [subst c; reflexivity|]).
    destruct Hin.
Qed.

Lemma blanks_chars (l : list ascii) :
  forallb is_space l = true <-> Forall (fun c => In c blank_chars) l.
Proof.
  rewrite forallb_forall, List.Forall_forall.
  split; intros Hl c Hc; apply is_space_chars, Hl, Hc.
Qed.

Lemma too_many_digits_false (limit n : nat) :
  too_many_digits limit n = false <-> (n <= 640 \/ limit = 0 \/ n <= limit).
Proof.
  unfold too_many_digits.
  destruct (640 <? n) eqn:E1; destruct (0 <? limit) eqn:E2; destruct (limit <? n) eqn:E3;
    cbn [andb];
    repeat match goal with
           | H : (_ <? _) = true |- _ => apply Nat.ltb_lt in H
           | H : (_ <? _) = false |- _ => apply Nat.ltb_ge in H
           end;
    split; intros; try discriminate; try reflexivity; lia.
Qed.

Lemma digit_not_space (c : ascii) (d : Z) : digit_value c = Some d -> is_space c = false.
Proof.
  unfold digit_value, is_space. cbv zeta.
  destruct ((48 <=? nat_of_ascii c) && (nat_of_ascii c <=? 57)) eqn:E; [|discriminate].
  intros _. apply andb_prop in E as [E1 E2].
  apply Nat.leb_le in E1. apply Nat.leb_le in E2.
  apply orb_false_intro.
  - apply andb_false_intro2. apply Nat.leb_gt. lia.
  - apply Nat.eqb_neq. lia.
Qed.

Lemma digit_not_sign (c : ascii) (d : Z) :
  digit_value c = Some d ->
  Ascii.eqb c "-" = false /\ Ascii.eqb c "+" = false /\ Ascii.eqb c "_" = false.
Proof.
  intros Hd.
  repeat split; apply Ascii.eqb_neq; intros ->; vm_compute in Hd; discriminate.
Qed.

Lemma is_digit_true (c : ascii) (d : Z) : digit_value c = Some d -> is_digit c = true.
Proof. unfold is_digit. intros ->. reflexivity. Qed.

(** Reading a run of digits, and then what follows it. *)
Lemma parse_digits_app (cs : list ascii) (v : Z) (n : nat) :
  decimal_digits cs v n ->
  forall rest, parse_digits (cs ++ rest) 0 false = parse_digits rest v true.
Proof.
  induction 1 as [c d Hd | cs v n c d Hcs IH Hd | cs v n c d Hcs IH Hd]; intros rest;
    apply digit_value_chars in Hd.
  - cbn [app parse_digits]. rewrite Hd. reflexivity.
  - rewrite <- app_assoc. rewrite IH. cbn [app parse_digits]. rewrite Hd. reflexivity.
  - rewrite <- app_assoc. rewrite IH. cbn [app parse_digits].
    change (digit_value "_") with (@None Z). change (Ascii.eqb "_" "_") with true.
    cbn [andb]. rewrite Hd. reflexivity.
Qed.

Lemma decimal_digits_count (cs : list ascii) (v : Z) (n : nat) :
  decimal_digits cs v n -> length (List.filter is_digit cs) = n.
Proof.
  induction 1 as [c d Hd | cs v n c d Hcs IH Hd | cs v n c d Hcs IH Hd];
    apply digit_value_chars in Hd.
  - cbn [List.filter]. rewrite (is_digit_true c d Hd). reflexivity.
  - rewrite List.filter_app, length_app, IH. cbn [List.filter].
    rewrite (is_digit_true c d Hd). cbn [length]. lia.
  - rewrite List.filter_app, length_app, IH. cbn [List.filter].
    change (is_digit "_") with false. rewrite (is_digit_true c d Hd). cbn [length]. lia.
Qed.

Lemma decimal_digits_ends (cs : list ascii) (v : Z) (n : nat) :
  decimal_digits cs v n ->
  (exists c d rest, cs = c :: rest /\ digit_value c = Some d) /\
  (exists c d init, cs = init ++ [c] /\ digit_value c = Some d).
Proof.
  induction 1 as [c d Hd | cs v n c d Hcs IH Hd | cs v n c d Hcs IH Hd];
    apply digit_value_chars in Hd.
  - split; [exists c, d, [] | exists c, d, []]; auto.
  - destruct IH as [(c0 & d0 & rest & -> & Hd0) _]. split.
    + exists c0, d0, (rest ++ [c]). auto.
    + exists c, d, (c0 :: rest). auto.
  - destruct IH as [(c0 & d0 & rest & -> & Hd0) _]. split.
    + exists c0, d0, (rest ++ ["_"%char; c]). auto.
    + exists c, d, ((c0 :: rest) ++ ["_"%char]). rewrite <- app_assoc. auto.
Qed.

Lemma decimal_digits_nonneg (cs : list ascii) (v : Z) (n : nat) :
  decimal_digits cs v n -> (0 <= v)%Z.
Proof.
  assert (Hdig : forall c d, digit_value c = Some d -> (0 <= d)%Z).
  { intros c d. unfold digit_value. cbv zeta.
    destruct (_ && _); [|discriminate]. intros [= <-]. lia. }
  induction 1 as [c d Hd | cs v n c d Hcs IH Hd | cs v n c d Hcs IH Hd];
    apply digit_value_chars in Hd; specialize (Hdig c d Hd); lia.
Qed.

Lemma parse_digits_sound (cs : list ascii) :
  forall p acc prev v,
    consumed p acc prev -> parse_digits cs acc prev = Some v ->
    exists n, decimal_digits (p ++ cs) v n.
Proof.
  induction cs as [|c cs IH]; intros p acc prev v Hp Hv.
  - cbn [parse_digits] in Hv. destruct prev; [|discriminate].
    injection Hv as <-. rewrite app_nil_r. exact Hp.
  - cbn [parse_digits] in Hv.
    replace (p ++ c :: cs) with ((p ++ [c]) ++ cs) by (rewrite <- app_assoc; reflexivity).
    destruct (digit_value c) as [d|] eqn:Hd.
    + apply digit_value_chars in Hd.
      apply (IH _ _ _ _ ) with (2 := Hv). cbn [consumed].
      destruct prev; cbn [consumed] in Hp.
      * destruct Hp as [n Hn]. exists (S n). apply decimal_next; assumption.
      * destruct Hp as [[-> ->] | (p' & n & -> & Hn)].
        -- exists 1. replace (10 * 0 + d)%Z with d by lia. apply decimal_one. exact Hd.
        -- exists (S n). rewrite <- app_assoc. apply decimal_underscore; assumption.
    + destruct (Ascii.eqb c "_") eqn:Ec; [|discriminate].
      destruct prev; [|discriminate]. cbn [andb] in Hv.
      apply Ascii.eqb_eq in Ec. subst c.
      apply (IH _ _ _ _) with (2 := Hv). cbn [consumed]. right.
      destruct Hp as [n Hn]. exists p, n. auto.
Qed.

Lemma parse_digits_iff (cs : list ascii) (v : Z) :
  parse_digits cs 0 false = Some v <-> exists n, decimal_digits cs v n.
Proof.
  split.
  - intros Hv. apply (parse_digits_sound cs [] 0%Z false v); [left; auto | exact Hv].
  - intros [n Hn]. rewrite <- (app_nil_r cs). rewrite (parse_digits_app cs v n Hn).
    reflexivity.
Qed.

(** Stripping blanks. *)
Lemma lstrip_split (cs : list ascii) :
  exists lead, cs = lead ++ lstrip cs /\ forallb is_space lead = true.
Proof.
  induction cs as [|c cs (lead & IH & Hl)].
  - exists []. auto.
  - cbn [lstrip]. destruct (is_space c) eqn:E.
    + exists (c :: lead). cbn [app forallb]. rewrite E, Hl. split; [congruence | reflexivity].
    + exists []. auto.
Qed.

Lemma lstrip_blanks (lead rest : list ascii) :
  forallb is_space lead = true ->
  match rest with c :: _ => is_space c = false | [] => True end ->
  lstrip (lead ++ rest) = rest.
Proof.
  intros Hl Hr. induction lead as [|c lead IH].
  - cbn [app]. destruct rest as [|c r]; [reflexivity|]. cbn [lstrip]. rewrite Hr. reflexivity.
  - cbn [forallb] in Hl. apply andb_prop in Hl as [Hc Hl].
    cbn [app lstrip]. rewrite Hc. apply IH. exact Hl.
Qed.

Lemma forallb_rev {T : Type} (f : T -> bool) (l : list T) :
  forallb f (rev l) = forallb f l.
Proof.
  induction l as [|x l IH]; [reflexivity|].
  cbn [rev forallb]. rewrite forallb_app, IH. cbn [forallb]. rewrite andb_true_r.
  apply andb_comm.
Qed.

Lemma strip_split (cs : list ascii) :
  exists lead trail,
    cs = lead ++ strip cs ++ trail /\
    forallb is_space lead = true /\ forallb is_space trail = true.
Proof.
  destruct (lstrip_split cs) as (lead & Hcs & Hl).
  destruct (lstrip_split (rev (lstrip cs))) as (t & Hr & Ht).
  exists lead, (rev t). unfold strip. split; [|split].
  - rewrite <- rev_app_distr, <- Hr, rev_involutive. exact Hcs.
  - exact Hl.
  - rewrite forallb_rev. exact Ht.
Qed.

Lemma strip_core (lead core trail : list ascii) (first last : ascii) (mid mid' : list ascii) :
  forallb is_space lead = true -> forallb is_space trail = true ->
  core = first :: mid -> core = mid' ++ [last] ->
  is_space first = false -> is_space last = false ->
  strip (lead ++ core ++ trail) = core.
Proof.
  intros Hl Ht Hf Hla Hsf Hsl. unfold strip.
  rewrite (lstrip_blanks lead (core ++ trail) Hl) by (rewrite Hf; exact Hsf).
  rewrite rev_app_distr.
  rewrite (lstrip_blanks (rev trail) (rev core)).
  - apply rev_involutive.
  - rewrite forallb_rev. exact Ht.
  - rewrite Hla, rev_app_distr. exact Hsl.
Qed.

(** [parse_int] accepts the integer literals, with their values. *)
Lemma parse_int_iff (limit : nat) (cs : list ascii) (k : Z) :
  parse_int limit cs = Some k <-> ascii_int_literal limit cs k.
Proof.
  split.
  - unfold parse_int. cbv zeta. intros Hp.
    destruct (strip_split cs) as (lead & trail & Hcs & Hl & Ht).
    destruct (strip cs) as [|c core] eqn:Ecore; [cbn in Hp; discriminate|].
    destruct (Ascii.eqb c "-") eqn:Eminus.
    + apply Ascii.eqb_eq in Eminus. subst c. cbn [orb tl] in Hp.
      destruct (parse_digits core 0 false) as [v|] eqn:Ev; [|discriminate].
      destruct (too_many_digits _ _) eqn:Elim; [discriminate|]. injection Hp as <-.
      apply parse_digits_iff in Ev as [n Hn].
      rewrite (decimal_digits_count core v n Hn) in Elim.
      apply too_many_digits_false in Elim. apply blanks_chars in Hl, Ht.
        exists lead, ["-"%char], core, trail, v, n. repeat split; auto.
    + cbn [orb] in Hp. destruct (Ascii.eqb c "+") eqn:Eplus.
      * apply Ascii.eqb_eq in Eplus. subst c. cbn [tl] in Hp.
        destruct (parse_digits core 0 false) as [v|] eqn:Ev; [|discriminate].
        destruct (too_many_digits _ _) eqn:Elim; [discriminate|]. injection Hp as <-.
        apply parse_digits_iff in Ev as [n Hn].
        rewrite (decimal_digits_count core v n Hn) in Elim.
        apply too_many_digits_false in Elim. apply blanks_chars in Hl, Ht.
        exists lead, ["+"%char], core, trail, v, n. repeat split; auto.
      * destruct (parse_digits (c :: core) 0 false) as [v|] eqn:Ev; [|discriminate].
        destruct (too_many_digits _ _) eqn:Elim; [discriminate|]. injection Hp as <-.
        apply parse_digits_iff in Ev as [n Hn].
        rewrite (decimal_digits_count (c :: core) v n Hn) in Elim.
        apply too_many_digits_false in Elim. apply blanks_chars in Hl, Ht.
        exists lead, [], (c :: core), trail, v, n. repeat split; auto.
  - intros (lead & sign & body & trail & v & n & Hcs & Hl & Ht & Hn & Hlim & Hsign).
    apply blanks_chars in Hl, Ht. apply too_many_digits_false in Hlim.
    destruct (decimal_digits_ends body v n Hn)
      as [(c0 & d0 & rest & Hb0 & Hd0) (c1 & d1 & init & Hb1 & Hd1)].
    pose proof (digit_not_space c0 d0 Hd0) as Hs0.
    pose proof (digit_not_space c1 d1 Hd1) as Hs1.
    destruct (digit_not_sign c0 d0 Hd0) as (Hm0 & Hp0 & _).
    assert (Hv : parse_digits body 0 false = Some v) by (apply parse_digits_iff; eauto).
    pose proof (decimal_digits_count body v n Hn) as Hcount.
    unfold parse_int. cbv zeta.
    destruct Hsign as [[-> ->] | [[-> ->] | [-> ->]]].
    + cbn [app] in Hcs.
      rewrite Hcs, (strip_core lead body trail c0 c1 rest init) by assumption.
      clear Hb1. subst body. cbv iota. rewrite Hm0, Hp0. cbn [orb].
      rewrite Hv, Hcount, Hlim. reflexivity.
    + assert (E : cs = lead ++ ("+"%char :: body) ++ trail) by (rewrite Hcs; reflexivity).
      rewrite E, (strip_core lead ("+"%char :: body) trail "+" c1 body ("+"%char :: init));
        [| assumption | assumption | reflexivity | rewrite Hb1; reflexivity
         | reflexivity | assumption].
      cbv iota. cbn [tl].
      change (Ascii.eqb "+" "-") with false. change (Ascii.eqb "+" "+") with true.
      cbn [orb]. rewrite Hv, Hcount, Hlim. reflexivity.
    + assert (E : cs = lead ++ ("-"%char :: body) ++ trail) by (rewrite Hcs; reflexivity).
      rewrite E, (strip_core lead ("-"%char :: body) trail "-" c1 body ("-"%char :: init));
        [| assumption | assumption | reflexivity | rewrite Hb1; reflexivity
         | reflexivity | assumption].
      cbv iota. cbn [tl]. change (Ascii.eqb "-" "-") with true.
      cbn [orb]. rewrite Hv, Hcount, Hlim. reflexivity.
Qed.

(** [int(s)] returns [k] exactly when [s] is an integer literal of value
    [k]; otherwise it raises [ValueError]. *)
Lemma py_int_iff {py : Interpreter} (s : string) (k : Z) :
  py_int s = Ok k <-> int_literal s k.
Proof.
  unfold py_int, int_literal. split.
  - destruct (decode_utf8 (bytes_of s)) as [cps|]; [|discriminate].
    destruct (to_ascii cps) as [cs|] eqn:Ea; [|discriminate].
    destruct (parse_int int_max_str_digits cs) as [k'|] eqn:Ep; [|discriminate].
    intros [= <-]. exists cps, cs. split; [reflexivity|]. split; [exact Ea|].
    apply parse_int_iff. exact Ep.
  - intros (cps & cs & -> & -> & Hl). apply parse_int_iff in Hl. rewrite Hl. reflexivity.
Qed.

Lemma py_int_raises {py : Interpreter} (s : string) :
  (forall k, ~ int_literal s k) <-> py_int s = Raise ValueError.
Proof.
  split.
  - intros Hno. destruct (py_int s) as [k|e] eqn:E.
    + exfalso. apply (Hno k). apply py_int_iff. exact E.
    + revert E. unfold py_int.
      destruct (decode_utf8 (bytes_of s)) as [cps|]; [|congruence].
      destruct (to_ascii cps) as [cs|]; [|congruence].
      destruct (parse_int int_max_str_digits cs); congruence.
  - intros E k Hk. apply py_int_iff in Hk. congruence.
Qed.

(** ASCII strings are read as they are, whatever the interpreter's tables. *)
Lemma decode_utf8_ascii (bs : list N) :
  forallb (fun b => (b <? 128)%N) bs = true -> decode_utf8 bs = Some bs.
Proof.
  induction bs as [|b bs IH]; [reflexivity|].
  cbn [forallb]. intros H. apply andb_prop in H as [Hb Hbs].
  cbn [decode_utf8]. rewrite Hb, (IH Hbs). reflexivity.
Qed.

Lemma py_int_ascii {py : Interpreter} (s : string) :
  is_ascii s = true ->
  py_int s = match parse_int int_max_str_digits (list_ascii_of_string s) with
             | Some k => Ok k
             | None => Raise ValueError
             end.
Proof.
  unfold is_ascii, py_int. intros Ha.
  rewrite (decode_utf8_ascii _ Ha). unfold to_ascii. rewrite Ha.
  unfold bytes_of. rewrite map_map.
  rewrite (map_ext _ (fun c => c)) by (intros c; apply ascii_N_embedding).
  rewrite map_id. reflexivity.
Qed.

(** The value of an integer literal is determined by the string. *)
Lemma int_literal_unique {py : Interpreter} (s : string) (k k' : Z) :
  int_literal s k -> int_literal s k' -> k = k'.
Proof.
  intros Hk Hk'. apply py_int_iff in Hk, Hk'. congruence.
Qed.

(** [int] on some strings, as CPython 3.11 evaluates them. *)
Lemma py_int_examples :
  py_int (py := cpython) "4" = Ok 4%Z /\
  py_int (py := cpython) " +4_0 " = Ok 40%Z /\
  py_int (py := cpython) "-12" = Ok (-12)%Z /\
  py_int (py := cpython) "007" = Ok 7%Z /\
  py_int (py := cpython) fullwidth_four = Ok 4%Z /\
  py_int (py := cpython) nbsp_four = Ok 4%Z /\
  py_int (py := cpython) separator_four = Raise ValueError /\
  py_int (py := cpython) four_separator = Raise ValueError /\
  py_int (py := cpython) "" = Raise ValueError /\
  py_int (py := cpython) "+" = Raise ValueError /\
  py_int (py := cpython) "+ 4" = Raise ValueError /\
  py_int (py := cpython) "_4" = Raise ValueError /\
  py_int (py := cpython) "4_" = Raise ValueError /\
  py_int (py := cpython) "4__0" = Raise ValueError /\
  py_int (py := cpython) "4.0" = Raise ValueError /\
  py_int (py := cpython) "0x10" = Raise ValueError /\
  py_int (py := cpython) "eight" = Raise ValueError.
Proof. vm_compute. repeat split; reflexivity. Qed.

(** ** Row indexing and the random subsample *)

Lemma item2_eq {A : Type} (X : ndarray A) (n b i c : nat) :
  shape X = [n; b] -> i < n -> c < b ->
  item X [i; c] = nth_error (data X) (i * b + c).
Proof.
  intros Hs Hi Hc. unfold item. rewrite Hs, ravel2 by assumption. reflexivity.
Qed.

Lemma row_spec {A : Type} (X : ndarray A) (n b i : nat) :
  shape X = [n; b] -> well_shaped X -> i < n ->
  exists r, row X i = Some r /\ length r = b /\
    forall c, c < b -> nth_error r c = item X [i; c].
Proof.
  intros Hs Hw Hi. unfold row. rewrite Hs.
  apply Nat.ltb_lt in Hi as Hi'. rewrite Hi'.
  red in Hw. rewrite Hs in Hw. cbn [size_of fold_right] in Hw.
  eexists. split; [reflexivity|]. split.
  - rewrite length_firstn, length_skipn, Hw. nia.
  - intros c Hc. rewrite nth_error_firstn.
    apply Nat.ltb_lt in Hc as Hc'. rewrite Hc'.
    rewrite nth_error_skipn. symmetry. apply (item2_eq X n b); assumption.
Qed.

Lemma take_rows_data_spec {A : Type} (X : ndarray A) (n b : nat) (idx : list nat) :
  shape X = [n; b] -> well_shaped X -> Forall (fun i => i < n) idx ->
  exists d, take_rows_data X idx = Ok d /\ length d = length idx * b /\
    forall s c, s < length idx -> c < b ->
      nth_error d (s * b + c) = item X [nth s idx 0; c].
Proof.
  intros Hs Hw. induction idx as [|i idx IH]; intros Hidx.
  - exists []. split; [reflexivity|]. split; [reflexivity|].
    intros s c Hlt. cbn in Hlt. lia.
  - inversion Hidx as [|? ? Hi Hrest]; subst.
    destruct (IH Hrest) as (d & Hd & Hlen & Hnth).
    destruct (row_spec X n b i Hs Hw Hi) as (r & Hr & Hrlen & Hrnth).
    cbn [take_rows_data]. rewrite Hr, Hd. cbn [result_bind].
    eexists. split; [reflexivity|]. split.
    + rewrite length_app, Hrlen, Hlen. cbn [length Nat.mul]. reflexivity.
    + intros s c Hlt Hc. destruct s as [|s].
      * cbn [Nat.mul Nat.add nth]. rewrite nth_error_app1 by lia. apply Hrnth, Hc.
      * cbn [nth length] in *.
        rewrite nth_error_app2 by (rewrite Hrlen; cbn [Nat.mul]; lia).
        rewrite Hrlen.
        replace (S s * b + c - b) with (s * b + c) by (cbn [Nat.mul]; lia).
        apply Hnth; lia.
Qed.

(** C8. For [numSamples >= 1] and a matrix X with [N >= 1] rows, the
    subsampling step draws exactly [numSamples] row indices, each below [N],
    so the row indexing succeeds and the sample has shape
    (numSamples, bands), row [s] of it being row [idx[s]] of X. The draws
    are independent (draw [s] is the [s]-th raw draw reduced into [0, N)),
    so this holds when [numSamples] exceeds [N] too, and then some index is
    drawn twice. *)
Theorem subsample_in_bounds {A : Type} (X : ndarray A) (N B numSamples : nat)
    (w : world) :
  shape X = [N; B] -> well_shaped X -> 1 <= N -> 1 <= numSamples ->
  exists idx samples,
    value (subsample (A:=A) X numSamples w) = Ok (idx, samples) /\
    idx = map (fun s => rand_raw w (rand_pos w + s) mod N) (seq 0 numSamples) /\
    length idx = numSamples /\
    Forall (fun i => i < N) idx /\
    shape samples = [numSamples; B] /\
    well_shaped samples /\
    (forall s b, s < numSamples -> b < B ->
       item samples [s; b] = item X [nth s idx 0; b]) /\
    (N < numSamples -> ~ List.NoDup idx).
Proof.
  intros Hs Hw HN Hn.
  set (idx := map (fun s => rand_raw w (rand_pos w + s) mod N) (seq 0 numSamples)).
  assert (Hlen : length idx = numSamples).
  { unfold idx. rewrite length_map, length_seq. reflexivity. }
  assert (Hall : Forall (fun i => i < N) idx).
  { apply List.Forall_forall. intros i Hi. unfold idx in Hi.
    apply in_map_iff in Hi as (s & <- & _). apply Nat.mod_upper_bound. lia. }
  destruct (take_rows_data_spec X N B idx Hs Hw Hall) as (d & Hd & Hdlen & Hdnth).
  exists idx, (NDArray [length idx; B] d).
  split.
  { unfold subsample, mbind, M_bind, bind, np_random_randint, lift, mret, M_ret, ret.
    unfold nrows. rewrite Hs. cbn [nth].
    destruct (N =? 0) eqn:E; [apply Nat.eqb_eq in E; lia|]. cbn [andb].
    cbn [value final events]. fold idx.
    unfold take_rows. rewrite Hs, Hd. reflexivity. }
  split; [reflexivity|]. split; [exact Hlen|]. split; [exact Hall|].
  split; [rewrite Hlen; reflexivity|]. split.
  { red. cbn [data shape size_of fold_right]. rewrite Hdlen. ring. }
  split.
  { intros s b Hsn Hb.
    rewrite (item2_eq _ (length idx) B) by (try reflexivity; lia).
    cbn [data]. apply Hdnth; lia. }
  intros Hbig Hnd.
  assert (Hincl : incl idx (seq 0 N)).
  { intros i Hi. apply in_seq. rewrite List.Forall_forall in Hall.
    specialize (Hall i Hi). lia. }
  pose proof (NoDup_incl_length Hnd Hincl) as Hle.
  rewrite Hlen, length_seq in Hle. lia.
Qed.

Lemma subsample_in_bounds_witness :
  exists idx samples,
    value (subsample pixels_6x2 8 (world_typing "4")) = Ok (idx, samples) /\
    idx = map (fun s => rand_raw (world_typing "4") (rand_pos (world_typing "4") + s) mod 6)
              (seq 0 8) /\
    length idx = 8 /\
    Forall (fun i => i < 6) idx /\
    shape samples = [8; 2] /\
    well_shaped samples /\
    (forall s b, s < 8 -> b < 2 ->
       item samples [s; b] = item pixels_6x2 [nth s idx 0; b]) /\
    (6 < 8 -> ~ List.NoDup idx).
Proof.
  apply (subsample_in_bounds pixels_6x2 6 2 8 (world_typing "4"));
    [reflexivity | reflexivity | lia | lia].
Defined.

(** ** The shape of a run *)

Ltac unfold_M :=
  unfold fit_predict, silhouette, print_score, predict, input,
    meta_update_dtype_count, get_meta, rasterio_write;
  unfold mbind, M_bind, bind, mret, M_ret, ret, lift, call;
  cbn [value final events].

Lemma outcome_eta {A T : Type} (o : outcome A T) :
  Outcome (events o) (final o) (value o) = o.
Proof. destruct o; reflexivity. Qed.

Lemma bind_lift_Ok {A T U : Type} (x : T) (k : T -> M A U) (w : world) :
  (lift (Ok x) ≫= k) w = k x w.
Proof. unfold_M. destruct (k x w); reflexivity. Qed.

Lemma bind_lift_Raise {A T U : Type} (e : exn) (k : T -> M A U) (w : world) :
  (lift (Raise e) ≫= k) w = Outcome [] w (Raise e).
Proof. reflexivity. Qed.

Lemma bind_eq {A T U : Type} (m : M A T) (k : T -> M A U) (w : world) :
  (m ≫= k) w =
  match value (m w) with
  | Ok x => Outcome (events (m w) ++ events (k x (final (m w))))
              (final (k x (final (m w)))) (value (k x (final (m w))))
  | Raise e => Outcome (events (m w)) (final (m w)) (Raise e)
  end.
Proof.
  unfold mbind, M_bind, bind.
  destruct (m w) as [evs w1 [x|e]]; cbn [value final events]; [|reflexivity].
  destruct (k x w1); reflexivity.
Qed.

Lemma bind_call_Ok {A T U : Type} (ev : event A) (x : T) (k : T -> M A U) (w : world) :
  (call ev (Ok x) ≫= k) w =
  Outcome (ev :: events (k x w)) (final (k x w)) (value (k x w)).
Proof. rewrite bind_eq. reflexivity. Qed.

Lemma bind_call_Raise {A T U : Type} (ev : event A) (e : exn) (k : T -> M A U)
    (w : world) :
  (call (T:=T) ev (Raise e) ≫= k) w = Outcome [ev] w (Raise e).
Proof. reflexivity. Qed.

Section Runs.
Context {A : Type} `{Numeric A} {py : Interpreter}.
Variable lib : sklearn A.
Variable env : globals.

(** The sweep leaves the world as it is and emits sweep events only; when
    it returns, it has fitted and scored every candidate in order. *)
Lemma sweep_outcome (samples : ndarray A) (candidates : list Z) (w : world) :
  final (sweep lib samples candidates w) = w /\
  Forall is_sweep_event (events (sweep lib samples candidates w)) /\
  (forall u, value (sweep lib samples candidates w) = Ok u ->
     sweep_run lib samples candidates (events (sweep lib samples candidates w))).
Proof.
  induction candidates as [|n rest IH].
  - cbn. split; [reflexivity|]. split; [constructor | intros; constructor].
  - cbn [sweep]. unfold fit_predict.
    destruct (KMeans_fit_predict lib n 10 samples) as [[m l]|e] eqn:Hfit.
    2:{ rewrite bind_call_Raise. cbn [value final events].
        split; [reflexivity|]. split; [repeat constructor | intros u Hu; discriminate]. }
    rewrite bind_call_Ok. cbn [value final events]. unfold silhouette.
    destruct (silhouette_score lib samples l) as [s|e] eqn:Hsil.
    2:{ rewrite bind_call_Raise. cbn [value final events].
        split; [reflexivity|]. split; [repeat constructor | intros u Hu; discriminate]. }
    rewrite bind_call_Ok. cbn [value final events]. unfold print_score.
    rewrite bind_call_Ok. cbn [value final events].
    destruct IH as (IHw & IHev & IHrun).
    split; [exact IHw|]. split.
    + repeat constructor. exact IHev.
    + intros u Hu. econstructor; eauto.
Qed.

(** Lines 89 to 114, case by case. *)
Lemma select_and_write_eq (X samples : ndarray A) (bnorm pca : bool) (w : world) :
  select_and_write lib env X samples bnorm pca w =
  match stdin w with
  | [] => Outcome [EvInput prompt] w (Raise EOFError)
  | s :: rest =>
    let w1 := set_stdin rest w in
    match py_int s with
    | Raise e => Outcome [EvInput prompt] w1 (Raise e)
    | Ok k =>
      match KMeans_fit_predict lib k 123 samples with
      | Raise e => Outcome [EvInput prompt; EvFit k 123 samples] w1 (Raise e)
      | Ok (m, l) =>
        match silhouette_score lib samples l with
        | Raise e =>
            Outcome [EvInput prompt; EvFit k 123 samples; EvSilhouette samples l]
              w1 (Raise e)
        | Ok _ =>
          match KMeans_predict lib m X with
          | Raise e =>
              Outcome [EvInput prompt; EvFit k 123 samples; EvSilhouette samples l;
                       EvPredict (n_clusters_of lib m) X] w1 (Raise e)
          | Ok lab =>
            match np_reshape (NDArray [length lab] lab) [rows env; columns env] with
            | Raise e =>
                Outcome [EvInput prompt; EvFit k 123 samples; EvSilhouette samples l;
                         EvPredict (n_clusters_of lib m) X] w1 (Raise e)
            | Ok pred =>
                let prof := <["count" := MInt 1]>
                              (<["dtype" := MStr (labels_dtype lib)]> (meta w)) in
                Outcome [EvInput prompt; EvFit k 123 samples; EvSilhouette samples l;
                         EvPredict (n_clusters_of lib m) X;
                         EvWrite (output_name s bnorm pca) 1]
                  (World rest (rand_raw w) (rand_pos w) prof
                     (<[output_name s bnorm pca := GTiff prof {[1 := pred]}]> (fs w)))
                  (Ok pred)
            end
          end
        end
      end
    end
  end.
Proof.
  unfold select_and_write.
  rewrite bind_eq. unfold input.
  destruct (stdin w) as [|s rest]; cbn [value final events]; [reflexivity|].
  destruct (py_int s) as [k|e]; [|reflexivity].
  rewrite bind_lift_Ok. unfold fit_predict.
  destruct (KMeans_fit_predict lib k 123 samples) as [[m l]|e]; [|reflexivity].
  rewrite bind_call_Ok. unfold silhouette.
  destruct (silhouette_score lib samples l) as [sc|e]; [|reflexivity].
  rewrite bind_call_Ok. unfold predict.
  destruct (KMeans_predict lib m X) as [lab|e]; [|reflexivity].
  cbn [result_bind]. rewrite bind_call_Ok.
  destruct (np_reshape (NDArray [length lab] lab) [rows env; columns env])
    as [pred|e]; [|reflexivity].
  rewrite bind_lift_Ok. reflexivity.
Qed.

Lemma subsample_frame (X : ndarray A) (numSamples : nat) (w : world) :
  events (subsample (A:=A) X numSamples w) = [] /\
  stdin (final (subsample (A:=A) X numSamples w)) = stdin w /\
  meta (final (subsample (A:=A) X numSamples w)) = meta w /\
  fs (final (subsample (A:=A) X numSamples w)) = fs w.
Proof.
  unfold subsample, np_random_randint. unfold_M.
  destruct ((nrows X =? 0) && negb (numSamples =? 0)); cbn [value final events]; [auto|].
  destruct (take_rows X _); cbn; auto.
Qed.

(** [run_Kmeans], phase by phase. *)
Lemma run_Kmeans_eq (raster : ndarray A) (numSamples : nat) (bnorm pca : bool)
    (w : world) :
  run_Kmeans lib env raster numSamples bnorm pca w =
  match reshape_pixels env raster with
  | Raise e => Outcome [] w (Raise e)
  | Ok X0 =>
    match brightness bnorm X0 with
    | Raise e => Outcome [] w (Raise e)
    | Ok X1 =>
      match principal lib pca X1 with
      | Raise e => Outcome [] w (Raise e)
      | Ok X =>
        let o1 := subsample X numSamples w in
        match value o1 with
        | Raise e => Outcome [] (final o1) (Raise e)
        | Ok (idx, samples) =>
          let o2 := sweep lib samples range_n_clusters (final o1) in
          match value o2 with
          | Raise e => Outcome (events o2) (final o1) (Raise e)
          | Ok _ =>
            let o3 := select_and_write lib env X samples bnorm pca (final o1) in
            Outcome (events o2 ++ events o3) (final o3) (value o3)
          end
        end
      end
    end
  end.
Proof.
  unfold run_Kmeans.
  destruct (reshape_pixels env raster) as [X0|e]; [|apply bind_lift_Raise].
  rewrite bind_lift_Ok.
  destruct (brightness bnorm X0) as [X1|e]; [|apply bind_lift_Raise].
  rewrite bind_lift_Ok.
  destruct (principal lib pca X1) as [X|e]; [|apply bind_lift_Raise].
  rewrite bind_lift_Ok, bind_eq.
  destruct (subsample_frame X numSamples w) as (Hev & _).
  rewrite Hev. cbn [app].
  destruct (value (subsample X numSamples w)) as [[idx samples]|e]; [|reflexivity].
  rewrite bind_eq.
  destruct (sweep_outcome samples range_n_clusters (final (subsample X numSamples w)))
    as (Hfin & _ & _).
  rewrite Hfin.
  destruct (value (sweep lib samples range_n_clusters
                     (final (subsample X numSamples w)))) as [u|e]; reflexivity.
Qed.

(** A run either stops before the prompt, having touched neither the
    terminal nor the metadata nor the disk, or completes the sweep and
    goes on with lines 89 to 114. *)
Lemma run_Kmeans_cases (raster : ndarray A) (numSamples : nat) (bnorm pca : bool)
    (w : world) :
  (exists e,
     value (run_Kmeans lib env raster numSamples bnorm pca w) = Raise e /\
     Forall is_sweep_event (events (run_Kmeans lib env raster numSamples bnorm pca w)) /\
     stdin (final (run_Kmeans lib env raster numSamples bnorm pca w)) = stdin w /\
     meta (final (run_Kmeans lib env raster numSamples bnorm pca w)) = meta w /\
     fs (final (run_Kmeans lib env raster numSamples bnorm pca w)) = fs w)
  \/
  (exists X idx samples scored w1,
     prepared lib env raster bnorm pca X /\
     value (subsample X numSamples w) = Ok (idx, samples) /\
     final (subsample X numSamples w) = w1 /\
     stdin w1 = stdin w /\ meta w1 = meta w /\ fs w1 = fs w /\
     sweep_run lib samples range_n_clusters scored /\
     Forall is_sweep_event scored /\
     run_Kmeans lib env raster numSamples bnorm pca w =
       Outcome (scored ++ events (select_and_write lib env X samples bnorm pca w1))
               (final (select_and_write lib env X samples bnorm pca w1))
               (value (select_and_write lib env X samples bnorm pca w1))).
Proof.
  rewrite run_Kmeans_eq.
  destruct (reshape_pixels env raster) as [X0|e] eqn:H0.
  2:{ left. exists e. cbn. auto. }
  destruct (brightness bnorm X0) as [X1|e] eqn:H1.
  2:{ left. exists e. cbn. auto. }
  destruct (principal lib pca X1) as [X|e] eqn:H2.
  2:{ left. exists e. cbn. auto. }
  cbv zeta.
  destruct (subsample_frame X numSamples w) as (_ & Hin & Hme & Hfs).
  destruct (value (subsample X numSamples w)) as [[idx samples]|e] eqn:H3.
  2:{ left. exists e. cbn. auto. }
  destruct (sweep_outcome samples range_n_clusters (final (subsample X numSamples w)))
    as (_ & Hsw & Hrun).
  destruct (value (sweep lib samples range_n_clusters
                     (final (subsample X numSamples w)))) as [u|e] eqn:H4.
  2:{ left. exists e. cbn. auto. }
  right. exists X, idx, samples.
  exists (events (sweep lib samples range_n_clusters (final (subsample X numSamples w)))).
  exists (final (subsample X numSamples w)).
  split; [exists X0, X1; auto|].
  split; [exact H3|]. split; [reflexivity|].
  split; [exact Hin|]. split; [exact Hme|]. split; [exact Hfs|].
  split; [apply (Hrun u); reflexivity|]. split; [exact Hsw|]. reflexivity.
Qed.

Lemma select_and_write_head (X samples : ndarray A) (bnorm pca : bool) (w : world) :
  exists tail,
    events (select_and_write lib env X samples bnorm pca w) = EvInput prompt :: tail.
Proof.
  rewrite select_and_write_eq.
  destruct (stdin w) as [|s rest]; [eexists; reflexivity|]. cbv zeta.
  destruct (py_int s) as [k|e]; [|eexists; reflexivity].
  destruct (KMeans_fit_predict lib k 123 samples) as [[m l]|e]; [|eexists; reflexivity].
  destruct (silhouette_score lib samples l) as [sc|e]; [|eexists; reflexivity].
  destruct (KMeans_predict lib m X) as [lab|e]; [|eexists; reflexivity].
  destruct (np_reshape (NDArray [length lab] lab) [rows env; columns env])
    as [pred|e]; eexists; reflexivity.
Qed.

End Runs.

Lemma sweep_event_not_input {A : Type} (evs : list (event A)) (p : string) :
  Forall is_sweep_event evs -> ~ In (EvInput p) evs.
Proof.
  intros Hall Hin. rewrite List.Forall_forall in Hall.
  apply (Hall _ Hin).
Qed.

Lemma after_prompt_sweep {A : Type} (scored tail : list (event A)) (p : string) :
  Forall is_sweep_event scored ->
  after_prompt (scored ++ EvInput p :: tail) = tail.
Proof.
  induction 1 as [|e evs He _ IH]; [reflexivity|].
  destruct e; cbn in He |- *; try contradiction; exact IH.
Qed.

Lemma written_sweep {A : Type} (scored : list (event A)) :
  Forall is_sweep_event scored -> written scored = [].
Proof.
  induction 1 as [|e evs He _ IH]; [reflexivity|].
  destruct e; cbn in He |- *; try contradiction; exact IH.
Qed.

Lemma written_app {A : Type} (l1 l2 : list (event A)) :
  written (l1 ++ l2) = written l1 ++ written l2.
Proof. unfold written. apply flat_map_app. Qed.

(** ** The sweep, the prompt and the final fit *)

(** C3. Whenever [run_Kmeans] reaches the prompt, it has swept exactly the
    candidates 2, 4, ..., 32 in increasing order, each with a K-means fit on
    the subsample, the silhouette score of that fit's labels and the printed
    score, and all of it precedes the prompt. *)
Theorem sweep_precedes_prompt {A : Type} `{Numeric A} {py : Interpreter} (lib : sklearn A)
    (env : globals) (raster : ndarray A) (numSamples : nat) (bnorm pca : bool)
    (w : world) :
  In (EvInput prompt) (events (run_Kmeans lib env raster numSamples bnorm pca w)) ->
  range_n_clusters = [2; 4; 6; 8; 10; 12; 14; 16; 18; 20; 22; 24; 26; 28; 30; 32]%Z /\
  exists X idx samples scored tail,
    prepared lib env raster bnorm pca X /\
    value (subsample X numSamples w) = Ok (idx, samples) /\
    sweep_run lib samples range_n_clusters scored /\
    events (run_Kmeans lib env raster numSamples bnorm pca w)
      = scored ++ EvInput prompt :: tail /\
    ~ In (EvInput prompt) scored.
Proof.
  intros Hin. split; [reflexivity|].
  destruct (run_Kmeans_cases lib env raster numSamples bnorm pca w)
    as [(e & _ & Hsw & _) | (X & idx & samples & scored & w1 & HX & Hsub & _ & _ & _ & _
                             & Hrun & Hsw & Heq)].
  - exfalso. exact (sweep_event_not_input _ _ Hsw Hin).
  - destruct (select_and_write_head lib env X samples bnorm pca w1) as [tail Htail].
    exists X, idx, samples, scored, tail.
    split; [exact HX|]. split; [exact Hsub|]. split; [exact Hrun|]. split.
    + rewrite Heq. cbn [events]. rewrite Htail. reflexivity.
    + apply sweep_event_not_input, Hsw.
Qed.

Lemma sweep_precedes_prompt_witness :
  range_n_clusters = [2; 4; 6; 8; 10; 12; 14; 16; 18; 20; 22; 24; 26; 28; 30; 32]%Z /\
  exists X idx samples scored tail,
    prepared toy_sklearn env_2x3 raster_2x3 false false X /\
    value (subsample X 40 (world_typing "4")) = Ok (idx, samples) /\
    sweep_run toy_sklearn samples range_n_clusters scored /\
    events (run_Kmeans (py := cpython) toy_sklearn env_2x3 raster_2x3 40 false false
        (world_typing "4"))
      = scored ++ EvInput prompt :: tail /\
    ~ In (EvInput prompt) scored.
Proof.
  apply (sweep_precedes_prompt (py := cpython) toy_sklearn env_2x3 raster_2x3 40 false false
           (world_typing "4")).
  apply (nth_error_In _ 48). vm_compute. reflexivity.
Defined.

(** The events of a run that reached the prompt with a line that parses. *)
Lemma fit_after_prompt {A : Type} `{Numeric A} {py : Interpreter} (lib : sklearn A)
    (env : globals) (raster : ndarray A) (numSamples : nat) (bnorm pca : bool)
    (w : world) (s : string) (rest : list string) (k : Z) :
  stdin w = s :: rest ->
  py_int s = Ok k ->
  In (EvInput prompt) (events (run_Kmeans lib env raster numSamples bnorm pca w)) ->
  exists X idx samples scored tail,
    value (subsample X numSamples w) = Ok (idx, samples) /\
    Forall is_sweep_event scored /\
    fit_requests tail = [] /\
    events (run_Kmeans lib env raster numSamples bnorm pca w)
      = scored ++ EvInput prompt :: EvFit k 123 samples :: tail.
Proof.
  intros Hstdin Hint Hin.
  destruct (run_Kmeans_cases lib env raster numSamples bnorm pca w)
    as [(e & _ & Hsw & _) | (X & idx & samples & scored & w1 & HX & Hsub & _ & Hs1 & _ & _
                             & Hrun & Hsw & Heq)].
  { exfalso. exact (sweep_event_not_input _ _ Hsw Hin). }
  rewrite Heq. cbn [events].
  assert (Htail : exists tail,
    events (select_and_write lib env X samples bnorm pca w1)
      = EvInput prompt :: EvFit k 123 samples :: tail /\ fit_requests tail = []).
  { rewrite select_and_write_eq, Hs1, Hstdin. cbv zeta. rewrite Hint.
    destruct (KMeans_fit_predict lib k 123 samples) as [[m l]|e];
      [|eexists; split; reflexivity].
    destruct (silhouette_score lib samples l) as [sc|e]; [|eexists; split; reflexivity].
    destruct (KMeans_predict lib m X) as [lab|e]; [|eexists; split; reflexivity].
    destruct (np_reshape (NDArray [length lab] lab) [rows env; columns env])
      as [pred|e]; eexists; split; reflexivity. }
  destruct Htail as (tail & Htail & Hnofit). rewrite Htail.
  exists X, idx, samples, scored, tail. auto.
Qed.

Lemma fit_requests_after_prompt {A : Type} (scored tail : list (event A))
    (samples : ndarray A) (k : Z) :
  Forall is_sweep_event scored -> fit_requests tail = [] ->
  fit_requests (after_prompt (scored ++ EvInput prompt :: EvFit k 123 samples :: tail))
    = [(k, 123%Z)].
Proof.
  intros Hsw Hnofit. rewrite after_prompt_sweep by exact Hsw.
  cbn [fit_requests flat_map app]. fold (fit_requests tail).
  rewrite Hnofit. reflexivity.
Qed.

(** C4. When the prompt is reached and the typed line [s] is an integer
    literal of value [k] (blanks, an optional sign, decimal digits with
    single underscores between them, blanks), the one fit that follows the
    prompt, the final fit, is made with [n_clusters = k] (and
    [random_state = 123]) on the subsample. The library is arbitrary here,
    so this holds whatever silhouette scores the sweep produced; in
    particular any other library [lib'], with other scores, leads to the
    same final request. *)
Theorem final_fit_uses_typed_count {A : Type} `{Numeric A} {py : Interpreter} (lib : sklearn A)
    (env : globals) (raster : ndarray A) (numSamples : nat) (bnorm pca : bool)
    (w : world) (s : string) (rest : list string) (k : Z) :
  stdin w = s :: rest ->
  int_literal s k ->
  In (EvInput prompt) (events (run_Kmeans lib env raster numSamples bnorm pca w)) ->
  fit_requests (after_prompt (events (run_Kmeans lib env raster numSamples bnorm pca w)))
    = [(k, 123%Z)] /\
  (exists X idx samples scored tail,
    value (subsample X numSamples w) = Ok (idx, samples) /\
    Forall is_sweep_event scored /\
    events (run_Kmeans lib env raster numSamples bnorm pca w)
      = scored ++ EvInput prompt :: EvFit k 123 samples :: tail) /\
  (forall lib' : sklearn A,
    In (EvInput prompt) (events (run_Kmeans lib' env raster numSamples bnorm pca w)) ->
    fit_requests (after_prompt
                    (events (run_Kmeans lib' env raster numSamples bnorm pca w)))
    = fit_requests (after_prompt
                      (events (run_Kmeans lib env raster numSamples bnorm pca w)))).
Proof.
  intros Hstdin Hlit Hin. apply py_int_iff in Hlit as Hint.
  destruct (fit_after_prompt lib env raster numSamples bnorm pca w s rest k
              Hstdin Hint Hin)
    as (X & idx & samples & scored & tail & Hsub & Hsw & Hnofit & Hev).
  assert (Hreq : fit_requests (after_prompt
            (events (run_Kmeans lib env raster numSamples bnorm pca w))) = [(k, 123%Z)]).
  { rewrite Hev. apply fit_requests_after_prompt; assumption. }
  split; [exact Hreq|]. split.
  - exists X, idx, samples, scored, tail. auto.
  - intros lib' Hin'.
    destruct (fit_after_prompt lib' env raster numSamples bnorm pca w s rest k
                Hstdin Hint Hin')
      as (X' & idx' & samples' & scored' & tail' & _ & Hsw' & Hnofit' & Hev').
    rewrite Hreq, Hev'. apply fit_requests_after_prompt; assumption.
Qed.

Lemma final_fit_uses_typed_count_witness :
  fit_requests (after_prompt
    (events (run_Kmeans (py := cpython) toy_sklearn env_2x3 raster_2x3 40 false false
        (world_typing fullwidth_four))))
    = [(4%Z, 123%Z)] /\
  (exists X idx samples scored tail,
    value (subsample X 40 (world_typing fullwidth_four)) = Ok (idx, samples) /\
    Forall is_sweep_event scored /\
    events (run_Kmeans (py := cpython) toy_sklearn env_2x3 raster_2x3 40 false false
        (world_typing fullwidth_four))
      = scored ++ EvInput prompt :: EvFit 4 123 samples :: tail) /\
  (forall lib' : sklearn float,
    In (EvInput prompt)
       (events (run_Kmeans (py := cpython) lib' env_2x3 raster_2x3 40 false false
           (world_typing fullwidth_four))) ->
    fit_requests (after_prompt
      (events (run_Kmeans (py := cpython) lib' env_2x3 raster_2x3 40 false false
          (world_typing fullwidth_four))))
    = fit_requests (after_prompt
        (events (run_Kmeans (py := cpython) toy_sklearn env_2x3 raster_2x3 40 false false
                   (world_typing fullwidth_four))))).
Proof.
  apply (final_fit_uses_typed_count (py := cpython) toy_sklearn env_2x3 raster_2x3 40 false false
           (world_typing fullwidth_four) fullwidth_four [] 4%Z).
  - reflexivity.
  - apply py_int_iff. vm_compute. reflexivity.
  - apply (nth_error_In _ 48). vm_compute. reflexivity.
Defined.

(** C10. When the prompt is reached and the typed line is not an integer
    literal (it has no value [k] as blanks, an optional sign, decimal digits
    with single underscores between them, blanks, within the interpreter's
    limit on the number of digits), [run_Kmeans] raises [ValueError] from
    the conversion: nothing follows the prompt (no final fit), no file is
    written, and the disk and the metadata are as they were. *)
Theorem unparsable_count_writes_nothing {A : Type} `{Numeric A} {py : Interpreter}
    (lib : sklearn A)
    (env : globals) (raster : ndarray A) (numSamples : nat) (bnorm pca : bool)
    (w : world) (s : string) (rest : list string) :
  stdin w = s :: rest ->
  (forall k, ~ int_literal s k) ->
  In (EvInput prompt) (events (run_Kmeans lib env raster numSamples bnorm pca w)) ->
  value (run_Kmeans lib env raster numSamples bnorm pca w) = Raise ValueError /\
  after_prompt (events (run_Kmeans lib env raster numSamples bnorm pca w)) = [] /\
  written (events (run_Kmeans lib env raster numSamples bnorm pca w)) = [] /\
  fs (final (run_Kmeans lib env raster numSamples bnorm pca w)) = fs w /\
  meta (final (run_Kmeans lib env raster numSamples bnorm pca w)) = meta w.
Proof.
  intros Hstdin Hlit Hin. apply py_int_raises in Hlit as Hint.
  destruct (run_Kmeans_cases lib env raster numSamples bnorm pca w)
    as [(e & _ & Hsw & _) | (X & idx & samples & scored & w1 & HX & Hsub & _ & Hs1 & Hm1 & Hf1
                             & Hrun & Hsw & Heq)].
  { exfalso. exact (sweep_event_not_input _ _ Hsw Hin). }
  rewrite Heq. cbn [events final value].
  rewrite select_and_write_eq, Hs1, Hstdin. cbv zeta. rewrite Hint.
  cbn [events final value].
  split; [reflexivity|]. split; [apply after_prompt_sweep, Hsw|]. split.
  - rewrite written_app, written_sweep by exact Hsw. reflexivity.
  - cbn. auto.
Qed.

Lemma unparsable_count_writes_nothing_witness :
  value (run_Kmeans (py := cpython) toy_sklearn env_2x3 raster_2x3 40 false false
      (world_typing separator_four))
    = Raise ValueError /\
  after_prompt
    (events (run_Kmeans (py := cpython) toy_sklearn env_2x3 raster_2x3 40 false false
        (world_typing separator_four)))
    = [] /\
  written
    (events (run_Kmeans (py := cpython) toy_sklearn env_2x3 raster_2x3 40 false false
        (world_typing separator_four)))
    = [] /\
  fs (final (run_Kmeans (py := cpython) toy_sklearn env_2x3 raster_2x3 40 false false
      (world_typing separator_four)))
    = fs (world_typing separator_four) /\
  meta (final (run_Kmeans (py := cpython) toy_sklearn env_2x3 raster_2x3 40 false false
      (world_typing separator_four)))
    = meta (world_typing separator_four).
Proof.
  apply (unparsable_count_writes_nothing (py := cpython)
      toy_sklearn env_2x3 raster_2x3 40 false false
           (world_typing separator_four) separator_four []).
  - reflexivity.
  - apply py_int_raises. vm_compute. reflexivity.
  - apply (nth_error_In _ 48). vm_compute. reflexivity.
Defined.

(** ** Metadata *)

(** C7. The metadata saved at the crop is the source raster's except for
    [driver] ("GTiff"), [height] and [width] (the rows and columns of the
    cropped array) and [transform] (the crop transform); [run_Kmeans] then
    changes only [dtype] and [count], sets [count] to 1, and opens the output
    file with the metadata so updated. *)
Theorem metadata_frame {A : Type} `{Numeric A} {py : Interpreter}
    (lib : sklearn A) (env : globals)
    (src_meta : gmap string meta_value) (img : ndarray A) (transform : pyobj)
    (nbands h wd : nat)
    (raster : ndarray A) (numSamples : nat) (bnorm pca : bool) (w : world) :
  shape img = [nbands; h; wd] ->
  (exists m0,
     crop_meta src_meta img transform = Ok m0 /\
     m0 !! "driver" = Some (MStr "GTiff") /\
     m0 !! "height" = Some (MInt (Z.of_nat h)) /\
     m0 !! "width" = Some (MInt (Z.of_nat wd)) /\
     m0 !! "transform" = Some (MObj transform) /\
     forall key : string,
       key <> "driver" -> key <> "height" -> key <> "width" -> key <> "transform" ->
       m0 !! key = src_meta !! key) /\
  (forall key : string,
     key <> "dtype" -> key <> "count" ->
     meta (final (run_Kmeans lib env raster numSamples bnorm pca w)) !! key
       = meta w !! key) /\
  (forall pred,
     value (run_Kmeans lib env raster numSamples bnorm pca w) = Ok pred ->
     meta (final (run_Kmeans lib env raster numSamples bnorm pca w)) !! "count"
       = Some (MInt 1) /\
     meta (final (run_Kmeans lib env raster numSamples bnorm pca w)) !! "dtype"
       = Some (MStr (labels_dtype lib)) /\
     exists s rest f,
       stdin w = s :: rest /\
       fs (final (run_Kmeans lib env raster numSamples bnorm pca w))
         !! output_name s bnorm pca = Some f /\
       profile f = meta (final (run_Kmeans lib env raster numSamples bnorm pca w))).
Proof.
  intros Himg. split; [|split].
  - unfold crop_meta. rewrite Himg. cbn [nth_error].
    eexists. split; [reflexivity|].
    split; [by simplify_map_eq|]. split; [by simplify_map_eq|].
    split; [by simplify_map_eq|]. split; [by simplify_map_eq|].
    intros key H1 H2 H3 H4. by simplify_map_eq.
  - intros key Hd Hc.
    destruct (run_Kmeans_cases lib env raster numSamples bnorm pca w)
      as [(e & _ & _ & _ & Hm & _) | (X & idx & samples & scored & w1 & _ & _ & _ & Hs1 & Hm1
                                     & Hf1 & _ & _ & Heq)].
    { rewrite Hm. reflexivity. }
    rewrite Heq. cbn [final]. rewrite select_and_write_eq.
    destruct (stdin w1) as [|s rest]; [cbn; by rewrite Hm1|]. cbv zeta.
    destruct (py_int s) as [k|e]; [|cbn; by rewrite Hm1].
    destruct (KMeans_fit_predict lib k 123 samples) as [[m l]|e]; [|cbn; by rewrite Hm1].
    destruct (silhouette_score lib samples l) as [sc|e]; [|cbn; by rewrite Hm1].
    destruct (KMeans_predict lib m X) as [lab|e]; [|cbn; by rewrite Hm1].
    destruct (np_reshape (NDArray [length lab] lab) [rows env; columns env])
      as [p|e]; [|cbn; by rewrite Hm1].
    cbn [final meta]. rewrite !lookup_insert_ne by congruence. by rewrite Hm1.
  - intros pred Hval.
    destruct (run_Kmeans_cases lib env raster numSamples bnorm pca w)
      as [(e & He & _) | (X & idx & samples & scored & w1 & _ & _ & _ & Hs1 & Hm1
                          & Hf1 & _ & _ & Heq)].
    { rewrite He in Hval. discriminate. }
    rewrite Heq in Hval |- *. cbn [final value] in Hval |- *.
    rewrite select_and_write_eq in Hval |- *.
    rewrite Hs1 in Hval |- *.
    destruct (stdin w) as [|s rest]; [discriminate|]. cbv zeta in Hval |- *.
    destruct (py_int s) as [k|e]; [|discriminate].
    destruct (KMeans_fit_predict lib k 123 samples) as [[m l]|e]; [|discriminate].
    destruct (silhouette_score lib samples l) as [sc|e]; [|discriminate].
    destruct (KMeans_predict lib m X) as [lab|e]; [|discriminate].
    destruct (np_reshape (NDArray [length lab] lab) [rows env; columns env])
      as [p|e]; [|discriminate].
    cbn [final meta fs]. split; [by simplify_map_eq|]. split; [by simplify_map_eq|].
    exists s, rest. eexists. split; [reflexivity|].
    split; [apply lookup_insert_eq | reflexivity].
Qed.

Lemma metadata_frame_witness :
  (exists m0,
     crop_meta src_meta_example img_S2 (PyObj 7) = Ok m0 /\
     m0 !! "driver" = Some (MStr "GTiff") /\
     m0 !! "height" = Some (MInt (Z.of_nat 2)) /\
     m0 !! "width" = Some (MInt (Z.of_nat 3)) /\
     m0 !! "transform" = Some (MObj (PyObj 7)) /\
     forall key : string,
       key <> "driver" -> key <> "height" -> key <> "width" -> key <> "transform" ->
       m0 !! key = src_meta_example !! key) /\
  (forall key : string,
     key <> "dtype" -> key <> "count" ->
     meta (final (run_Kmeans (py := cpython) toy_sklearn env_2x3 raster_2x3 40 false false
                    (world_typing "4"))) !! key
       = meta (world_typing "4") !! key) /\
  (forall pred,
     value (run_Kmeans (py := cpython) toy_sklearn env_2x3 raster_2x3 40 false false
         (world_typing "4"))
       = Ok pred ->
     meta (final (run_Kmeans (py := cpython) toy_sklearn env_2x3 raster_2x3 40 false false
                    (world_typing "4"))) !! "count"
       = Some (MInt 1) /\
     meta (final (run_Kmeans (py := cpython) toy_sklearn env_2x3 raster_2x3 40 false false
                    (world_typing "4"))) !! "dtype"
       = Some (MStr (labels_dtype (toy_sklearn (A:=float)))) /\
     exists s rest f,
       stdin (world_typing "4") = s :: rest /\
       fs (final (run_Kmeans (py := cpython) toy_sklearn env_2x3 raster_2x3 40 false false
                    (world_typing "4")))
         !! output_name s false false = Some f /\
       profile f = meta (final (run_Kmeans (py := cpython)
           toy_sklearn env_2x3 raster_2x3 40 false false
                                  (world_typing "4")))).
Proof.
  apply (metadata_frame (py := cpython) toy_sklearn env_2x3 src_meta_example img_S2 (PyObj 7) 2 2 3
           raster_2x3 40 false false (world_typing "4")).
  reflexivity.
Defined.

(** ** Labels of the whole image *)

Lemma n_labels_bound (k : Z) (l : list Z) :
  Forall (fun c => 0 <= c < k)%Z l -> n_labels l <= Z.to_nat k.
Proof.
  intros Hall. unfold n_labels.
  assert (Hincl : incl (nodup Z.eq_dec l) (map Z.of_nat (seq 0 (Z.to_nat k)))).
  { intros c Hc. apply nodup_In in Hc. rewrite List.Forall_forall in Hall.
    specialize (Hall c Hc). apply in_map_iff. exists (Z.to_nat c).
    split; [lia|]. apply in_seq. lia. }
  pose proof (NoDup_incl_length (NoDup_nodup Z.eq_dec l) Hincl) as Hle.
  rewrite length_map, length_seq in Hle. exact Hle.
Qed.

Lemma toy_labels_spec (k : Z) (n : nat) :
  (1 <= k)%Z ->
  length (toy_labels k n) = n /\ Forall (fun c => 0 <= c < k)%Z (toy_labels k n).
Proof.
  intros Hk. unfold toy_labels. split.
  - rewrite length_map, length_seq. reflexivity.
  - apply List.Forall_forall. intros c Hc. apply in_map_iff in Hc as (i & <- & _).
    apply Z.mod_pos_bound. lia.
Qed.

(** The small instance keeps the contract. *)
Lemma toy_sklearn_contract {A : Type} `{Numeric A} : sklearn_contract (toy_sklearn (A:=A)).
Proof.
  split.
  - intros k rs X m l. cbn [KMeans_fit_predict n_clusters_of toy_sklearn].
    destruct ((1 <=? k)%Z && (k <=? Z.of_nat (nrows X))%Z) eqn:E; [|discriminate].
    intros [= <- <-]. apply andb_true_iff in E as [E1 _]. apply Z.leb_le in E1.
    split; [reflexivity|]. apply toy_labels_spec, E1.
  - intros m X l. cbn [KMeans_predict n_clusters_of toy_sklearn].
    destruct (1 <=? m)%Z eqn:E; [|discriminate].
    intros [= <-]. apply Z.leb_le in E. apply toy_labels_spec, E.
  - intros X l s. cbn [silhouette_score toy_sklearn].
    destruct ((2 <=? n_labels l) && (n_labels l <=? nrows X - 1)) eqn:E; [|discriminate].
    intros _. apply andb_true_iff in E as [E1 E2].
    apply Nat.leb_le in E1, E2. lia.
Qed.

(** With at most one cluster the labels of the final fit are all equal, the
    score that follows the fit is undefined and raises: such a run returns
    nothing and writes nothing, whatever the library computes. *)
Lemma one_cluster_raises {A : Type} `{Numeric A} {py : Interpreter} (lib : sklearn A)
    (env : globals) (raster : ndarray A) (numSamples : nat) (bnorm pca : bool)
    (w : world) (s : string) (rest : list string) (k : Z) :
  sklearn_contract lib ->
  stdin w = s :: rest -> py_int s = Ok k -> (k <= 1)%Z ->
  exists e,
    value (run_Kmeans lib env raster numSamples bnorm pca w) = Raise e /\
    written (events (run_Kmeans lib env raster numSamples bnorm pca w)) = [] /\
    fs (final (run_Kmeans lib env raster numSamples bnorm pca w)) = fs w.
Proof.
  intros Hlib Hstdin Hint Hk.
  destruct (run_Kmeans_cases lib env raster numSamples bnorm pca w)
    as [(e & He & Hsw & _ & _ & Hfs) | (X & idx & samples & scored & w1 & _ & _ & _ & Hs1
                                        & _ & Hf1 & _ & Hsw & Heq)].
  { exists e. split; [exact He|]. split; [apply written_sweep, Hsw | exact Hfs]. }
  rewrite Heq. cbn [events final value].
  rewrite select_and_write_eq, Hs1, Hstdin. cbv zeta. rewrite Hint.
  destruct (KMeans_fit_predict lib k 123 samples) as [[m l]|e] eqn:Hfit.
  2:{ exists e. cbn [events final value].
      rewrite written_app, written_sweep by exact Hsw. cbn. auto. }
  destruct (silhouette_score lib samples l) as [sc|e] eqn:Hsil.
  2:{ exists e. cbn [events final value].
      rewrite written_app, written_sweep by exact Hsw. cbn. auto. }
  exfalso.
  destruct (fit_predict_labels lib Hlib _ _ _ _ _ Hfit) as (_ & _ & Hl).
  destruct (silhouette_defined lib Hlib _ _ _ Hsil) as (Htwo & _).
  pose proof (n_labels_bound k l Hl). lia.
Qed.

(** With one cluster the final silhouette score is undefined, so a run in
    which 1 is typed raises after the final fit and writes nothing. *)
Lemma labels_every_count_from_one_fails : ~ labels_every_count_from_one.
Proof.
  intros Hclaim.
  assert (Hprompt : In (EvInput prompt)
    (events (run_Kmeans (py := cpython) toy_sklearn env_2x3 raster_2x3 40 false false
               (world_typing "1")))).
  { apply (nth_error_In _ 48). vm_compute. reflexivity. }
  assert (Hint : py_int (py := cpython) "1" = Ok 1%Z) by (vm_compute; reflexivity).
  assert (Hk : (1 <= 1)%Z) by lia.
  destruct (Hclaim cpython toy_sklearn toy_sklearn_contract env_2x3 raster_2x3 2 3 2 40
              false false (world_typing "1") "1" [] 1%Z
              eq_refl eq_refl eq_refl eq_refl eq_refl Hint Hk Hprompt)
    as (pred & f & Hval & _).
  vm_compute in Hval. discriminate.
Qed.

(** C5. A run that returns, for a raster of shape (R, C, B) and the typed
    cluster count [k], had [k >= 2] (the score of the final fit needs two
    distinct labels), predicted a label for every one of the R*C rows of the
    pixel matrix and not only for the subsample, returns those labels as an
    array of shape (R, C) with entries in [0, k), and has written that array
    as the only band of the output file, whose metadata has [count] 1. *)
Theorem labels_every_pixel {A : Type} `{Numeric A} {py : Interpreter} (lib : sklearn A)
    (env : globals) (raster : ndarray A) (R C B numSamples : nat)
    (bnorm pca : bool) (w : world) (pred : ndarray Z) :
  sklearn_contract lib ->
  shape raster = [R; C; B] ->
  rows env = R -> columns env = C ->
  value (run_Kmeans lib env raster numSamples bnorm pca w) = Ok pred ->
  exists s rest k X f,
    stdin w = s :: rest /\
    py_int s = Ok k /\
    (2 <= k)%Z /\
    prepared lib env raster bnorm pca X /\
    nrows X = R * C /\
    In (EvPredict k X) (events (run_Kmeans lib env raster numSamples bnorm pca w)) /\
    shape pred = [R; C] /\
    well_shaped pred /\
    Forall (fun c => 0 <= c < k)%Z (data pred) /\
    fs (final (run_Kmeans lib env raster numSamples bnorm pca w))
      !! output_name s bnorm pca = Some f /\
    bands f = {[1 := pred]} /\
    profile f !! "count" = Some (MInt 1).
Proof.
  intros Hlib Hshape HR HC Hval.
  destruct (run_Kmeans_cases lib env raster numSamples bnorm pca w)
    as [(e & He & _) | (X & idx & samples & scored & w1 & HX & _ & _ & Hs1 & Hm1
                        & Hf1 & _ & _ & Heq)].
  { rewrite He in Hval. discriminate. }
  rewrite Heq in Hval |- *. cbn [final value events] in Hval |- *.
  rewrite select_and_write_eq in Hval |- *.
  rewrite Hs1 in Hval |- *.
  destruct (stdin w) as [|s rest]; [discriminate|]. cbv zeta in Hval |- *.
  destruct (py_int s) as [k|e] eqn:Hint; [|discriminate].
  destruct (KMeans_fit_predict lib k 123 samples) as [[m l]|e] eqn:Hfit; [|discriminate].
  destruct (silhouette_score lib samples l) as [sc|e] eqn:Hsil; [|discriminate].
  destruct (KMeans_predict lib m X) as [lab|e] eqn:Hpred; [|discriminate].
  destruct (np_reshape (NDArray [length lab] lab) [rows env; columns env])
    as [p|e] eqn:Hresh; [|discriminate].
  cbn [final value events fs] in Hval |- *. injection Hval as ->.
  destruct (fit_predict_labels lib Hlib _ _ _ _ _ Hfit) as (Hm & _ & Hl).
  destruct (silhouette_defined lib Hlib _ _ _ Hsil) as (Htwo & _).
  destruct (predict_labels lib Hlib _ _ _ Hpred) as (Hlen & Hlab).
  rewrite Hm in Hlab.
  pose proof (n_labels_bound k l Hl) as Hbound.
  unfold np_reshape in Hresh. cbn [data] in Hresh.
  destruct (size_of [rows env; columns env] =? length lab) eqn:Hsz; [|discriminate].
  injection Hresh as <-. apply Nat.eqb_eq in Hsz.
  rewrite HR, HC in Hsz |- *. cbn [size_of fold_right] in Hsz.
  exists s, rest, k, X. eexists.
  split; [reflexivity|]. split; [exact Hint|]. split; [lia|].
  split; [exact HX|]. split; [lia|]. split.
  { apply in_or_app. right. rewrite Hm. cbn. auto. }
  split; [reflexivity|]. split.
  { red. cbn [data shape size_of fold_right]. lia. }
  split; [exact Hlab|]. split; [apply lookup_insert_eq|].
  split; [reflexivity|]. cbn [profile]. by simplify_map_eq.
Qed.

Lemma labels_every_pixel_witness :
  exists s rest k X f,
    stdin (world_typing "4") = s :: rest /\
    py_int (py := cpython) s = Ok k /\
    (2 <= k)%Z /\
    prepared toy_sklearn env_2x3 raster_2x3 false false X /\
    nrows X = 2 * 3 /\
    In (EvPredict k X)
       (events (run_Kmeans (py := cpython) toy_sklearn env_2x3 raster_2x3 40 false false
                  (world_typing "4"))) /\
    shape (NDArray [2; 3] [0; 1; 2; 3; 0; 1]%Z) = [2; 3] /\
    well_shaped (NDArray [2; 3] [0; 1; 2; 3; 0; 1]%Z) /\
    Forall (fun c => 0 <= c < k)%Z (data (NDArray [2; 3] [0; 1; 2; 3; 0; 1]%Z)) /\
    fs (final (run_Kmeans (py := cpython) toy_sklearn env_2x3 raster_2x3 40 false false
                 (world_typing "4")))
      !! output_name s false false = Some f /\
    bands f = {[1 := NDArray [2; 3] [0; 1; 2; 3; 0; 1]%Z]} /\
    profile f !! "count" = Some (MInt 1).
Proof.
  apply (labels_every_pixel (py := cpython) toy_sklearn env_2x3 raster_2x3 2 3 2 40 false false
           (world_typing "4") (NDArray [2; 3] [0; 1; 2; 3; 0; 1]%Z)).
  - exact toy_sklearn_contract.
  - reflexivity.
  - reflexivity.
  - reflexivity.
  - vm_compute. reflexivity.
Defined.

(** ** Brightness normalisation *)

Lemma item2_is_Some {A : Type} (X : ndarray A) (n b i c : nat) :
  shape X = [n; b] -> well_shaped X -> i < n -> c < b ->
  exists x, item X [i; c] = Some x.
Proof.
  intros Hs Hw Hi Hc. rewrite (item2_eq X n b) by assumption.
  destruct (nth_error (data X) (i * b + c)) as [x|] eqn:E; [eauto|].
  apply nth_error_None in E. red in Hw. rewrite Hs in Hw.
  cbn [size_of fold_right] in Hw. nia.
Qed.

Lemma column_spec {A : Type} (X : ndarray A) (n b c : nat) :
  shape X = [n; b] -> well_shaped X -> c < b ->
  length (column X c) = n /\
  forall i, i < n -> nth_error (column X c) i = item X [i; c].
Proof.
  intros Hs Hw Hc. unfold column. rewrite Hs.
  assert (Hone : forall i, 0 <= i < 0 + n -> length (option_list (item X [i; c])) = 1).
  { intros i Hi. apply option_list_length_Some.
    apply (item2_is_Some X n b); auto; lia. }
  split.
  - rewrite (length_flat_map_regular _ 1) by exact Hone. lia.
  - intros i Hi. replace i with (i * 1 + 0) at 1 by lia.
    rewrite (nth_error_flat_map_regular _ 1) by (auto; lia).
    cbn [Nat.add].
    destruct (item2_is_Some X n b i c Hs Hw Hi Hc) as [x Hx]. rewrite Hx. reflexivity.
Qed.

Lemma length_norm {A : Type} `{Numeric A} (r : list A) : length (norm r) = length r.
Proof. unfold norm. apply length_map. Qed.

Lemma nth_error_norm {A : Type} `{Numeric A} (r : list A) (i : nat) :
  nth_error (norm r) i = option_map (fun x => ndiv x (l2_norm r)) (nth_error r i).
Proof. unfold norm, l2_norm. apply nth_error_map. Qed.

(** What [bnorm=True] computes: every entry of X is divided by the Euclidean
    norm of its column, that is of its band taken over all pixels. *)
Lemma brightness_divides_by_band_norm {A : Type} `{Numeric A} (X : ndarray A)
    (n b : nat) :
  shape X = [n; b] -> well_shaped X -> 1 <= b ->
  exists X',
    brightness true X = Ok X' /\
    shape X' = [n; b] /\
    well_shaped X' /\
    forall i c, i < n -> c < b ->
      item X' [i; c]
        = option_map (fun x => ndiv x (l2_norm (column X c))) (item X [i; c]).
Proof.
  intros Hs Hw Hb. unfold brightness, np_apply_along_axis0. rewrite Hs.
  destruct (b =? 0) eqn:E; [apply Nat.eqb_eq in E; lia|]. cbv zeta.
  set (cols := map (fun c => norm (column X c)) (seq 0 b)).
  assert (Hcol : forall c, c < b -> nth c cols [] = norm (column X c)).
  { intros c Hc. apply nth_error_nth. unfold cols.
    rewrite nth_error_map, nth_error_seq.
    apply Nat.ltb_lt in Hc. rewrite Hc. reflexivity. }
  assert (Hlen : forall c, c < b -> length (norm (column X c)) = n).
  { intros c Hc. rewrite length_norm. apply (column_spec X n b c Hs Hw Hc). }
  assert (Hn' : length (nth 0 cols []) = n).
  { rewrite Hcol by lia. apply Hlen. lia. }
  rewrite Hn'.
  assert (Hall : forallb (fun col => length col =? n) cols = true).
  { apply forallb_forall. intros col Hin. unfold cols in Hin.
    apply in_map_iff in Hin as (c & <- & Hc). apply in_seq in Hc.
    apply Nat.eqb_eq, Hlen. lia. }
  rewrite Hall.
  set (cell := fun i c => option_list (nth_error (nth c cols []) i)).
  assert (Hcell : forall i c, i < n -> c < b ->
            cell i c = option_list
              (option_map (fun x => ndiv x (l2_norm (column X c))) (item X [i; c]))).
  { intros i c Hi Hc. unfold cell. rewrite Hcol, nth_error_norm by assumption.
    destruct (column_spec X n b c Hs Hw Hc) as (_ & Hnth). rewrite Hnth by assumption.
    reflexivity. }
  assert (Hcell1 : forall i c, i < n -> c < b -> length (cell i c) = 1).
  { intros i c Hi Hc. rewrite Hcell by assumption.
    destruct (item2_is_Some X n b i c Hs Hw Hi Hc) as [x Hx]. rewrite Hx. reflexivity. }
  assert (Hrow : forall i, i < n -> length (flat_map (cell i) (seq 0 b)) = b * 1).
  { intros i Hi. apply length_flat_map_regular. intros c Hc. apply Hcell1; lia. }
  eexists. split; [reflexivity|]. split; [reflexivity|]. split.
  - red. cbn [data shape size_of fold_right].
    apply length_flat_map_regular. intros i Hi. apply Hrow. lia.
  - intros i c Hi Hc. rewrite (item2_eq _ n b) by (auto; reflexivity). cbn [data].
    replace (i * b + c) with (i * (b * 1) + (c * 1 + 0)) by ring.
    rewrite (nth_error_flat_map_regular _ (b * 1));
      [| intros x Hx; apply Hrow; lia | assumption | lia].
    cbn [Nat.add].
    rewrite (nth_error_flat_map_regular (cell i) 1);
      [| intros x Hx; apply Hcell1; lia | assumption | lia].
    cbn [Nat.add]. rewrite Hcell by assumption.
    destruct (item2_is_Some X n b i c Hs Hw Hi Hc) as [x Hx]. rewrite Hx. reflexivity.
Qed.

(** C1, at the one-pixel raster with band values 3 and 4 and [bnorm=True]:
    each band is divided by its own norm over the pixels (3 and 4), so the
    pixel becomes (1, 1). Its Euclidean norm is the square root of 2, not 1,
    and the proportion 3 : 4 of its bands is lost. The same values come out
    in binary64 arithmetic. *)
Theorem brightness_scales_bands_not_pixels :
  reshape_pixels (Globals 1 1) one_pixel_R = Ok (NDArray [1; 2] [3; 4]%R) /\
  brightness true (NDArray [1; 2] [3; 4]%R) = Ok (NDArray [1; 2] [1; 1]%R) /\
  row (NDArray [1; 2] [1; 1]%R) 0 = Some [1; 1]%R /\
  l2_norm [1; 1]%R = R_sqrt.sqrt 2 /\
  l2_norm [1; 1]%R <> 1%R /\
  reshape_pixels (Globals 1 1) one_pixel_float = Ok (NDArray [1; 2] [3; 4]%float) /\
  brightness true (NDArray [1; 2] [3; 4]%float) = Ok (NDArray [1; 2] [1; 1]%float).
Proof.
  assert (Hsqrt : forall x : R, (0 < x)%R -> (x / R_sqrt.sqrt (0 + x * x) = 1)%R).
  { intros x Hx. replace (0 + x * x)%R with (Rsqr x) by (unfold Rsqr; lra).
    rewrite sqrt_Rsqr by lra. field. lra. }
  assert (Hnorm : l2_norm [1; 1]%R = R_sqrt.sqrt 2).
  { cbv -[Rplus Rmult Rdiv R_sqrt.sqrt IZR]. f_equal. lra. }
  split; [reflexivity|]. split.
  { cbv -[Rplus Rmult Rdiv R_sqrt.sqrt IZR].
    rewrite (Hsqrt 3%R), (Hsqrt 4%R) by lra. reflexivity. }
  split; [reflexivity|]. split; [exact Hnorm|]. split.
  { rewrite Hnorm. intros Hone.
    pose proof (sqrt_sqrt 2 ltac:(lra)) as Hsq. rewrite Hone in Hsq. lra. }
  split; [reflexivity|]. vm_compute. reflexivity.
Qed.

(** ** Runs that return and runs that raise *)

Lemma subsample_final {A : Type} (X : ndarray A) (numSamples : nat) (w : world)
    (idx : list nat) (samples : ndarray A) :
  value (subsample X numSamples w) = Ok (idx, samples) ->
  final (subsample X numSamples w) = set_rand_pos (rand_pos w + numSamples) w.
Proof.
  unfold subsample, np_random_randint. rewrite bind_eq.
  destruct ((nrows X =? 0) && negb (numSamples =? 0));
    cbn [value final events]; [discriminate|].
  rewrite bind_eq.
  destruct (take_rows X _); cbn [lift value final events]; [|discriminate].
  reflexivity.
Qed.

Lemma sweep_run_requests {A : Type} (lib : sklearn A) (samples : ndarray A)
    (candidates : list Z) (evs : list (event A)) :
  sweep_run lib samples candidates evs ->
  fit_requests evs = map (fun n => (n, 10%Z)) candidates /\
  length evs = 3 * length candidates.
Proof.
  induction 1 as [|n rest m l s evs Hfit Hsil Hrun [IH1 IH2]]; [split; reflexivity|].
  split.
  - cbn [fit_requests flat_map app map]. fold (fit_requests evs). rewrite IH1. reflexivity.
  - cbn [length]. rewrite IH2. lia.
Qed.

Lemma fit_requests_app {A : Type} (l1 l2 : list (event A)) :
  fit_requests (l1 ++ l2) = fit_requests l1 ++ fit_requests l2.
Proof. unfold fit_requests. apply flat_map_app. Qed.

(** Everything a returning run did. *)
Lemma run_Kmeans_returns {A : Type} `{Numeric A} {py : Interpreter}
    (lib : sklearn A) (env : globals)
    (raster : ndarray A) (numSamples : nat) (bnorm pca : bool) (w : world)
    (pred : ndarray Z) :
  value (run_Kmeans lib env raster numSamples bnorm pca w) = Ok pred ->
  exists X idx samples scored s rest k m l sc lab,
    prepared lib env raster bnorm pca X /\
    value (subsample X numSamples w) = Ok (idx, samples) /\
    sweep_run lib samples range_n_clusters scored /\
    Forall is_sweep_event scored /\
    stdin w = s :: rest /\
    py_int s = Ok k /\
    KMeans_fit_predict lib k 123 samples = Ok (m, l) /\
    silhouette_score lib samples l = Ok sc /\
    KMeans_predict lib m X = Ok lab /\
    length lab = rows env * columns env /\
    pred = NDArray [rows env; columns env] lab /\
    run_Kmeans lib env raster numSamples bnorm pca w =
      Outcome
        (scored ++ [EvInput prompt; EvFit k 123 samples; EvSilhouette samples l;
                    EvPredict (n_clusters_of lib m) X;
                    EvWrite (output_name s bnorm pca) 1])
        (World rest (rand_raw w) (rand_pos w + numSamples)
           (<["count" := MInt 1]> (<["dtype" := MStr (labels_dtype lib)]> (meta w)))
           (<[output_name s bnorm pca :=
                GTiff (<["count" := MInt 1]>
                         (<["dtype" := MStr (labels_dtype lib)]> (meta w)))
                      {[1 := pred]}]> (fs w)))
        (Ok pred).
Proof.
  intros Hval.
  destruct (run_Kmeans_cases lib env raster numSamples bnorm pca w)
    as [(e & He & _) | (X & idx & samples & scored & w1 & HX & Hsub & Hw1 & _ & _
                        & _ & Hrun & Hsw & Heq)].
  { rewrite He in Hval. discriminate. }
  pose proof (subsample_final X numSamples w idx samples Hsub) as Hfin.
  rewrite Hfin in Hw1. subst w1.
  rewrite Heq in Hval |- *. cbn [value] in Hval.
  rewrite select_and_write_eq in Hval |- *.
  cbn [stdin set_rand_pos] in Hval |- *.
  destruct (stdin w) as [|s rest] eqn:Hstdin; [discriminate|]. cbv zeta in Hval |- *.
  destruct (py_int s) as [k|e] eqn:Hint; [|discriminate].
  destruct (KMeans_fit_predict lib k 123 samples) as [[m l]|e] eqn:Hfit; [|discriminate].
  destruct (silhouette_score lib samples l) as [sc|e] eqn:Hsil; [|discriminate].
  destruct (KMeans_predict lib m X) as [lab|e] eqn:Hpred; [|discriminate].
  destruct (np_reshape (NDArray [length lab] lab) [rows env; columns env])
    as [p|e] eqn:Hresh; [|discriminate].
  cbn [value events final] in Hval |- *. injection Hval as ->.
  unfold np_reshape in Hresh. cbn [data] in Hresh.
  destruct (size_of [rows env; columns env] =? length lab) eqn:Hsz; [|discriminate].
  injection Hresh as <-. apply Nat.eqb_eq in Hsz. cbn [size_of fold_right] in Hsz.
  exists X, idx, samples, scored, s, rest, k, m, l, sc, lab.
  split; [exact HX|]. split; [exact Hsub|]. split; [exact Hrun|]. split; [exact Hsw|].
  do 5 (split; [first [reflexivity | assumption]|]). split; [lia|].
  split; reflexivity.
Qed.

(** X5. A run that raises, at whatever step, has written no file and has
    left the disk and the metadata dictionary as they were. *)
Theorem raising_run_writes_nothing {A : Type} `{Numeric A} {py : Interpreter} (lib : sklearn A)
    (env : globals) (raster : ndarray A) (numSamples : nat) (bnorm pca : bool)
    (w : world) (e : exn) :
  value (run_Kmeans lib env raster numSamples bnorm pca w) = Raise e ->
  written (events (run_Kmeans lib env raster numSamples bnorm pca w)) = [] /\
  fs (final (run_Kmeans lib env raster numSamples bnorm pca w)) = fs w /\
  meta (final (run_Kmeans lib env raster numSamples bnorm pca w)) = meta w.
Proof.
  intros Hval.
  destruct (run_Kmeans_cases lib env raster numSamples bnorm pca w)
    as [(e' & _ & Hsw & _ & Hm & Hfs) | (X & idx & samples & scored & w1 & _ & _ & _ & Hs1
                                         & Hm1 & Hf1 & _ & Hsw & Heq)].
  { split; [apply written_sweep, Hsw | auto]. }
  rewrite Heq in Hval |- *. cbn [value events final] in Hval |- *.
  rewrite written_app, written_sweep by exact Hsw. cbn [app].
  rewrite select_and_write_eq in Hval |- *.
  destruct (stdin w1) as [|s rest]; [cbn; auto|]. cbv zeta in Hval |- *.
  destruct (py_int s) as [k|e1]; [|cbn; auto].
  destruct (KMeans_fit_predict lib k 123 samples) as [[m l]|e1]; [|cbn; auto].
  destruct (silhouette_score lib samples l) as [sc|e1]; [|cbn; auto].
  destruct (KMeans_predict lib m X) as [lab|e1]; [|cbn; auto].
  destruct (np_reshape (NDArray [length lab] lab) [rows env; columns env])
    as [p|e1]; [discriminate | cbn; auto].
Qed.

Lemma raising_run_writes_nothing_witness :
  written (events (run_Kmeans (py := cpython) toy_sklearn env_2x3 raster_2x3 40 false false
                     (world_typing "1"))) = [] /\
  fs (final (run_Kmeans (py := cpython) toy_sklearn env_2x3 raster_2x3 40 false false
      (world_typing "1")))
    = fs (world_typing "1") /\
  meta (final (run_Kmeans (py := cpython) toy_sklearn env_2x3 raster_2x3 40 false false
      (world_typing "1")))
    = meta (world_typing "1").
Proof.
  apply (raising_run_writes_nothing (py := cpython) toy_sklearn env_2x3 raster_2x3 40 false false
           (world_typing "1") ValueError).
  vm_compute. reflexivity.
Defined.

(** X6. A run that returns has made exactly the sixteen fits of the sweep
    (random_state 10) and then the final fit (random_state 123). Its trace
    has fifty-three events: the forty-eight of the sweep (a fit, a score and
    a printed line for each candidate), the prompt, the final fit, its
    score, the prediction and the write. The PCA, when asked for, is one
    more call into scikit-learn, made once, before the sweep, on the matrix
    after the normalisation and with as many components as that matrix has
    columns; it is not an event of the trace. The run has written exactly
    one file, read exactly one typed line and drawn exactly [numSamples]
    random numbers. *)
Theorem returning_run_accounting {A : Type} `{Numeric A} {py : Interpreter} (lib : sklearn A)
    (env : globals) (raster : ndarray A) (numSamples : nat) (bnorm pca : bool)
    (w : world) (pred : ndarray Z) :
  value (run_Kmeans lib env raster numSamples bnorm pca w) = Ok pred ->
  exists s rest k X0 X1 X idx samples scored m l,
    stdin w = s :: rest /\ py_int s = Ok k /\
    reshape_pixels env raster = Ok X0 /\ brightness bnorm X0 = Ok X1 /\
    (if pca then PCA_fit_transform lib (ncols X1) X1 = Ok X else X = X1) /\
    value (subsample X numSamples w) = Ok (idx, samples) /\
    sweep_run lib samples range_n_clusters scored /\
    length scored = 48 /\
    events (run_Kmeans lib env raster numSamples bnorm pca w)
      = scored ++ [EvInput prompt; EvFit k 123 samples; EvSilhouette samples l;
                   EvPredict (n_clusters_of lib m) X;
                   EvWrite (output_name s bnorm pca) 1] /\
    fit_requests (events (run_Kmeans lib env raster numSamples bnorm pca w))
      = map (fun n => (n, 10%Z)) range_n_clusters ++ [(k, 123%Z)] /\
    length (events (run_Kmeans lib env raster numSamples bnorm pca w)) = 53 /\
    written (events (run_Kmeans lib env raster numSamples bnorm pca w))
      = [output_name s bnorm pca] /\
    stdin (final (run_Kmeans lib env raster numSamples bnorm pca w)) = rest /\
    rand_pos (final (run_Kmeans lib env raster numSamples bnorm pca w))
      = rand_pos w + numSamples.
Proof.
  intros Hval.
  destruct (run_Kmeans_returns lib env raster numSamples bnorm pca w pred Hval)
    as (X & idx & samples & scored & s & rest & k & m & l & sc & lab & HX & Hsub & Hrun & Hsw
        & Hstdin & Hint & _ & _ & _ & _ & _ & Heq).
  destruct HX as (X0 & X1 & HX0 & HX1 & HX2).
  destruct (sweep_run_requests lib samples range_n_clusters scored Hrun) as (Hreq & Hlen).
  exists s, rest, k, X0, X1, X, idx, samples, scored, m, l.
  rewrite Heq. cbn [events final stdin rand_pos].
  split; [exact Hstdin|]. split; [exact Hint|].
  split; [exact HX0|]. split; [exact HX1|]. split.
  { unfold principal in HX2. destruct pca; [exact HX2 | congruence]. }
  split; [exact Hsub|]. split; [exact Hrun|]. split; [exact Hlen|].
  split; [reflexivity|]. split.
  { rewrite fit_requests_app, Hreq. reflexivity. }
  split.
  { rewrite length_app, Hlen. reflexivity. }
  split; [|split; reflexivity].
  rewrite written_app, written_sweep by exact Hsw. reflexivity.
Qed.

Lemma returning_run_accounting_witness :
  exists s rest k X0 X1 X idx samples scored m l,
    stdin (world_typing "4") = s :: rest /\ py_int (py := cpython) s = Ok k /\
    reshape_pixels env_2x3 raster_2x3 = Ok X0 /\ brightness true X0 = Ok X1 /\
    (if true then PCA_fit_transform toy_sklearn (ncols X1) X1 = Ok X else X = X1) /\
    value (subsample X 40 (world_typing "4")) = Ok (idx, samples) /\
    sweep_run toy_sklearn samples range_n_clusters scored /\
    length scored = 48 /\
    events (run_Kmeans (py := cpython) toy_sklearn env_2x3 raster_2x3 40 true true
              (world_typing "4"))
      = scored ++ [EvInput prompt; EvFit k 123 samples; EvSilhouette samples l;
                   EvPredict (n_clusters_of toy_sklearn m) X;
                   EvWrite (output_name s true true) 1] /\
    fit_requests (events (run_Kmeans (py := cpython) toy_sklearn env_2x3 raster_2x3 40
                            true true (world_typing "4")))
      = map (fun n => (n, 10%Z)) range_n_clusters ++ [(k, 123%Z)] /\
    length (events (run_Kmeans (py := cpython) toy_sklearn env_2x3 raster_2x3 40
                      true true (world_typing "4"))) = 53 /\
    written (events (run_Kmeans (py := cpython) toy_sklearn env_2x3 raster_2x3 40
                       true true (world_typing "4")))
      = [output_name s true true] /\
    stdin (final (run_Kmeans (py := cpython) toy_sklearn env_2x3 raster_2x3 40
                    true true (world_typing "4"))) = rest /\
    rand_pos (final (run_Kmeans (py := cpython) toy_sklearn env_2x3 raster_2x3 40
                       true true (world_typing "4")))
      = rand_pos (world_typing "4") + 40.
Proof.
  apply (returning_run_accounting (py := cpython) toy_sklearn env_2x3 raster_2x3 40 true true
           (world_typing "4") (NDArray [2; 3] [0; 1; 2; 3; 0; 1]%Z)).
  vm_compute. reflexivity.
Defined.

(** X7. In a run that returns, the label at row [i] and column [j] of the
    returned image is the label the final estimator predicted for row
    [i*columns + j] of the pixel matrix, the row the reshape put pixel
    [(i, j)] in: the label image is aligned with the raster. *)
Theorem labels_aligned_with_pixels {A : Type} `{Numeric A} {py : Interpreter} (lib : sklearn A)
    (env : globals) (raster : ndarray A) (numSamples : nat) (bnorm pca : bool)
    (w : world) (pred : ndarray Z) :
  value (run_Kmeans lib env raster numSamples bnorm pca w) = Ok pred ->
  exists X m lab,
    prepared lib env raster bnorm pca X /\
    KMeans_predict lib m X = Ok lab /\
    length lab = rows env * columns env /\
    forall i j, i < rows env -> j < columns env ->
      item pred [i; j] = nth_error lab (i * columns env + j) /\
      is_Some (item pred [i; j]).
Proof.
  intros Hval.
  destruct (run_Kmeans_returns lib env raster numSamples bnorm pca w pred Hval)
    as (X & idx & samples & scored & s & rest & k & m & l & sc & lab & HX & _ & _ & _
        & _ & _ & _ & _ & Hpred & Hlen & -> & _).
  exists X, m, lab. split; [exact HX|]. split; [exact Hpred|]. split; [exact Hlen|].
  intros i j Hi Hj.
  rewrite (item2_eq _ (rows env) (columns env)) by (auto; reflexivity). cbn [data].
  split; [reflexivity|].
  destruct (nth_error lab (i * columns env + j)) as [c|] eqn:E; [eauto|].
  apply nth_error_None in E. nia.
Qed.

Lemma labels_aligned_with_pixels_witness :
  exists X m lab,
    prepared toy_sklearn env_2x3 raster_2x3 false false X /\
    KMeans_predict toy_sklearn m X = Ok lab /\
    length lab = rows env_2x3 * columns env_2x3 /\
    forall i j, i < rows env_2x3 -> j < columns env_2x3 ->
      item (NDArray [2; 3] [0; 1; 2; 3; 0; 1]%Z) [i; j]
        = nth_error lab (i * columns env_2x3 + j) /\
      is_Some (item (NDArray [2; 3] [0; 1; 2; 3; 0; 1]%Z) [i; j]).
Proof.
  apply (labels_aligned_with_pixels (py := cpython) toy_sklearn env_2x3 raster_2x3 40 false false
           (world_typing "4") (NDArray [2; 3] [0; 1; 2; 3; 0; 1]%Z)).
  vm_compute. reflexivity.
Defined.

(** X9. [meta] is one dictionary shared by all calls: a second returning
    run (of any raster and options, with the same library) leaves it exactly
    as the first returning run left it. *)
Theorem metadata_update_idempotent {A : Type} `{Numeric A} {py : Interpreter} (lib : sklearn A)
    (env env' : globals) (raster raster' : ndarray A) (numSamples numSamples' : nat)
    (bnorm pca bnorm' pca' : bool) (w : world) (pred pred' : ndarray Z) :
  value (run_Kmeans lib env raster numSamples bnorm pca w) = Ok pred ->
  value (run_Kmeans lib env' raster' numSamples' bnorm' pca'
           (final (run_Kmeans lib env raster numSamples bnorm pca w))) = Ok pred' ->
  meta (final (run_Kmeans lib env' raster' numSamples' bnorm' pca'
                 (final (run_Kmeans lib env raster numSamples bnorm pca w))))
  = meta (final (run_Kmeans lib env raster numSamples bnorm pca w)).
Proof.
  intros Hval Hval'.
  destruct (run_Kmeans_returns lib env' raster' numSamples' bnorm' pca' _ pred' Hval')
    as (X' & idx' & samples' & scored' & s' & rest' & k' & m' & l' & sc' & lab' & _ & _
        & _ & _ & _ & _ & _ & _ & _ & _ & _ & Heq').
  rewrite Heq'. cbn [final meta].
  destruct (run_Kmeans_returns lib env raster numSamples bnorm pca w pred Hval)
    as (X & idx & samples & scored & s & rest & k & m & l & sc & lab & _ & _
        & _ & _ & _ & _ & _ & _ & _ & _ & _ & Heq).
  rewrite Heq. cbn [final meta].
  apply map_eq. intros key.
  destruct (decide (key = "count")) as [->|Hc]; [by simplify_map_eq|].
  destruct (decide (key = "dtype")) as [->|Hd]; by simplify_map_eq.
Qed.

Lemma metadata_update_idempotent_witness :
  meta (final (run_Kmeans (py := cpython) toy_sklearn env_2x3 raster_2x3 40 true false
                 (final (run_Kmeans (py := cpython) toy_sklearn env_2x3 raster_2x3 40 false false
                           (World ["4"; "6"] (fun i => i) 0 src_meta_example ∅)))))
  = meta (final (run_Kmeans (py := cpython) toy_sklearn env_2x3 raster_2x3 40 false false
                   (World ["4"; "6"] (fun i => i) 0 src_meta_example ∅))).
Proof.
  apply (metadata_update_idempotent (py := cpython)
      toy_sklearn env_2x3 env_2x3 raster_2x3 raster_2x3
           40 40 false false true false
           (World ["4"; "6"] (fun i => i) 0 src_meta_example ∅)
           (NDArray [2; 3] [0; 1; 2; 3; 0; 1]%Z)
           (NDArray [2; 3] [0; 1; 2; 3; 4; 5]%Z)).
  - vm_compute. reflexivity.
  - vm_compute. reflexivity.
Defined.

(** X10. When [meta], [rows] and [columns] are the ones the crop of the
    Sentinel-2 raster sets, the file a returning run writes is consistent:
    its profile has driver "GTiff", the crop transform, [count] 1 and the
    height and width of the label image, which is its only band. *)
Theorem output_file_consistent {A : Type} `{Numeric A} {py : Interpreter} (lib : sklearn A)
    (src_meta : gmap string meta_value) (img : ndarray A) (transform : pyobj)
    (nbands h wd : nat) (env : globals) (m0 : gmap string meta_value)
    (raster : ndarray A) (numSamples : nat) (bnorm pca : bool)
    (w : world) (pred : ndarray Z) :
  shape img = [nbands; h; wd] ->
  crop_meta src_meta img transform = Ok m0 ->
  unpack_shape img = Ok env ->
  meta w = m0 ->
  value (run_Kmeans lib env raster numSamples bnorm pca w) = Ok pred ->
  exists s rest f,
    stdin w = s :: rest /\
    fs (final (run_Kmeans lib env raster numSamples bnorm pca w))
      !! output_name s bnorm pca = Some f /\
    bands f = {[1 := pred]} /\
    shape pred = [h; wd] /\
    profile f !! "height" = Some (MInt (Z.of_nat h)) /\
    profile f !! "width" = Some (MInt (Z.of_nat wd)) /\
    profile f !! "count" = Some (MInt 1) /\
    profile f !! "driver" = Some (MStr "GTiff") /\
    profile f !! "transform" = Some (MObj transform).
Proof.
  intros Himg Hcrop Hunpack Hmeta Hval.
  unfold crop_meta in Hcrop. rewrite Himg in Hcrop. cbn [nth_error] in Hcrop.
  injection Hcrop as <-.
  unfold unpack_shape in Hunpack. rewrite Himg in Hunpack. injection Hunpack as <-.
  destruct (run_Kmeans_returns lib _ raster numSamples bnorm pca w pred Hval)
    as (X & idx & samples & scored & s & rest & k & m & l & sc & lab & _ & _
        & _ & _ & Hstdin & _ & _ & _ & _ & _ & -> & Heq).
  rewrite Heq. cbn [final fs rows columns]. rewrite Hmeta.
  exists s, rest. eexists. split; [exact Hstdin|].
  split; [apply lookup_insert_eq|]. cbn [bands profile shape].
  split; [reflexivity|]. split; [reflexivity|].
  repeat split; by simplify_map_eq.
Qed.

Lemma output_file_consistent_witness :
  exists s rest f,
    stdin (world_cropped "4") = s :: rest /\
    fs (final (run_Kmeans (py := cpython) toy_sklearn env_2x3 raster_2x3 40 false false
                 (world_cropped "4")))
      !! output_name s false false = Some f /\
    bands f = {[1 := NDArray [2; 3] [0; 1; 2; 3; 0; 1]%Z]} /\
    shape (NDArray [2; 3] [0; 1; 2; 3; 0; 1]%Z) = [2; 3] /\
    profile f !! "height" = Some (MInt (Z.of_nat 2)) /\
    profile f !! "width" = Some (MInt (Z.of_nat 3)) /\
    profile f !! "count" = Some (MInt 1) /\
    profile f !! "driver" = Some (MStr "GTiff") /\
    profile f !! "transform" = Some (MObj (PyObj 7)).
Proof.
  apply (output_file_consistent (py := cpython)
      toy_sklearn src_meta_example img_S2 (PyObj 7) 2 2 3
           env_2x3 meta_cropped raster_2x3 40 false false (world_cropped "4")
           (NDArray [2; 3] [0; 1; 2; 3; 0; 1]%Z)).
  - reflexivity.
  - reflexivity.
  - reflexivity.
  - reflexivity.
  - vm_compute. reflexivity.
Defined.

(** X11. When the prompt is reached and no line can be read, [input] raises
    [EOFError]: the run ends there, after the whole sweep, with no final fit
    and no file written. *)
Theorem prompt_at_end_of_input {A : Type} `{Numeric A} {py : Interpreter} (lib : sklearn A)
    (env : globals) (raster : ndarray A) (numSamples : nat) (bnorm pca : bool)
    (w : world) :
  stdin w = [] ->
  In (EvInput prompt) (events (run_Kmeans lib env raster numSamples bnorm pca w)) ->
  value (run_Kmeans lib env raster numSamples bnorm pca w) = Raise EOFError /\
  after_prompt (events (run_Kmeans lib env raster numSamples bnorm pca w)) = [] /\
  length (events (run_Kmeans lib env raster numSamples bnorm pca w)) = 49 /\
  fs (final (run_Kmeans lib env raster numSamples bnorm pca w)) = fs w.
Proof.
  intros Hstdin Hin.
  destruct (run_Kmeans_cases lib env raster numSamples bnorm pca w)
    as [(e & _ & Hsw & _) | (X & idx & samples & scored & w1 & _ & _ & _ & Hs1 & _ & Hf1
                             & Hrun & Hsw & Heq)].
  { exfalso. exact (sweep_event_not_input _ _ Hsw Hin). }
  destruct (sweep_run_requests lib samples range_n_clusters scored Hrun) as (_ & Hlen).
  rewrite Heq. cbn [events final value].
  rewrite select_and_write_eq, Hs1, Hstdin. cbn [events final value].
  split; [reflexivity|]. split; [apply after_prompt_sweep, Hsw|].
  split; [rewrite length_app, Hlen; reflexivity | exact Hf1].
Qed.

Lemma prompt_at_end_of_input_witness :
  value (run_Kmeans (py := cpython) toy_sklearn env_2x3 raster_2x3 40 false false
           (World [] (fun i => i) 0 src_meta_example ∅)) = Raise EOFError /\
  after_prompt (events (run_Kmeans (py := cpython) toy_sklearn env_2x3 raster_2x3 40 false false
                          (World [] (fun i => i) 0 src_meta_example ∅))) = [] /\
  length (events (run_Kmeans (py := cpython) toy_sklearn env_2x3 raster_2x3 40 false false
                    (World [] (fun i => i) 0 src_meta_example ∅))) = 49 /\
  fs (final (run_Kmeans (py := cpython) toy_sklearn env_2x3 raster_2x3 40 false false
               (World [] (fun i => i) 0 src_meta_example ∅)))
    = fs (World [] (fun i => i) 0 src_meta_example ∅).
Proof.
  apply (prompt_at_end_of_input (py := cpython) toy_sklearn env_2x3 raster_2x3 40 false false
           (World [] (fun i => i) 0 src_meta_example ∅)).
  - reflexivity.
  - apply (nth_error_In _ 48). vm_compute. reflexivity.
Defined.

(** ** Early failures *)

(** X3. [run_Kmeans] takes the number of pixels from the module-level
    [rows] and [columns], not from the raster: for a raster of shape
    (R, C, B) with at least one band and [rows*columns <> R*C] the first
    statement raises [ValueError], before any call, draw or prompt. *)
Theorem reshape_needs_matching_globals {A : Type} `{Numeric A} {py : Interpreter}
    (lib : sklearn A)
    (env : globals) (raster : ndarray A) (R C B numSamples : nat) (bnorm pca : bool)
    (w : world) :
  shape raster = [R; C; B] -> well_shaped raster -> 1 <= B ->
  rows env * columns env <> R * C ->
  run_Kmeans lib env raster numSamples bnorm pca w = Outcome [] w (Raise ValueError).
Proof.
  intros Hs Hw HB Hne. rewrite run_Kmeans_eq.
  unfold reshape_pixels, np_reshape. rewrite Hs. cbn [nth_error].
  red in Hw. rewrite Hs in Hw. cbn [size_of fold_right] in Hw.
  destruct (size_of [rows env * columns env; B] =? length (data raster)) eqn:E;
    [|reflexivity].
  apply Nat.eqb_eq in E. cbn [size_of fold_right] in E. rewrite Hw in E.
  exfalso. apply Hne. nia.
Qed.

Lemma reshape_needs_matching_globals_witness :
  run_Kmeans (py := cpython) toy_sklearn (Globals 3 3) raster_2x3 40 false false
      (world_typing "4")
  = Outcome [] (world_typing "4") (Raise ValueError).
Proof.
  apply (reshape_needs_matching_globals (py := cpython)
      toy_sklearn (Globals 3 3) raster_2x3 2 3 2 40
           false false (world_typing "4")); [reflexivity | reflexivity | lia | vm_compute; lia].
Defined.

Lemma reshape_pixels_shape {A : Type} (env : globals) (raster : ndarray A)
    (R C B : nat) :
  shape raster = [R; C; B] -> well_shaped raster ->
  rows env = R -> columns env = C ->
  exists X, reshape_pixels env raster = Ok X /\ shape X = [R * C; B] /\ well_shaped X.
Proof.
  intros Hs Hw HR HC. unfold reshape_pixels, np_reshape.
  rewrite Hs, HR, HC. cbn [nth_error].
  red in Hw. rewrite Hs in Hw. cbn [size_of fold_right] in Hw.
  assert (Hsz : size_of [R * C; B] = length (data raster)).
  { cbn [size_of fold_right]. rewrite Hw. ring. }
  apply Nat.eqb_eq in Hsz as Hsz'. rewrite Hsz'.
  eexists. split; [reflexivity|]. split; [reflexivity|].
  red. cbn [data shape]. symmetry. exact Hsz.
Qed.

Lemma sweep_head {A : Type} (lib : sklearn A) (samples : ndarray A) (n : Z)
    (rest : list Z) (w : world) :
  exists tail, events (sweep lib samples (n :: rest) w) = EvFit n 10 samples :: tail.
Proof.
  cbn [sweep]. unfold fit_predict.
  destruct (KMeans_fit_predict lib n 10 samples) as [[m l]|e].
  - rewrite bind_call_Ok. eexists. reflexivity.
  - rewrite bind_call_Raise. eexists. reflexivity.
Qed.

Lemma empty_matrix {A : Type} (X : ndarray A) (B : nat) :
  shape X = [0; B] -> well_shaped X -> X = NDArray [0; B] [].
Proof.
  destruct X as [sh d]. cbn [shape]. intros -> Hw. red in Hw.
  cbn [shape data size_of fold_right] in Hw.
  destruct d; [reflexivity | discriminate].
Qed.

(** X4. An image without pixels: a raster of shape (R, C, B) with
    [R*C = 0], and [pca=False]. When at least one sample is asked for (the
    default asks for 10000), [run_Kmeans] raises [ValueError] before any fit
    or prompt: from the random draw, or from the normalisation when there is
    no band either. When no sample is asked for, the draw returns no index,
    the sample is the empty (0, B) matrix, and the run goes on to the first
    fit of the sweep with it (unless the normalisation has raised). *)
Theorem empty_image_raises {A : Type} `{Numeric A} {py : Interpreter} (lib : sklearn A)
    (env : globals) (raster : ndarray A) (R C B numSamples : nat) (bnorm : bool)
    (w : world) :
  shape raster = [R; C; B] -> well_shaped raster ->
  rows env = R -> columns env = C -> R * C = 0 ->
  (1 <= numSamples ->
   run_Kmeans lib env raster numSamples bnorm false w = Outcome [] w (Raise ValueError)) /\
  (numSamples = 0 -> bnorm = false \/ B <> 0 ->
   exists tail,
     events (run_Kmeans lib env raster numSamples bnorm false w)
       = EvFit 2 10 (NDArray [0; B] []) :: tail).
Proof.
  intros Hs Hw HR HC Hzero.
  destruct (reshape_pixels_shape env raster R C B Hs Hw HR HC)
    as (X0 & HX0 & HsX0 & HwX0).
  rewrite Hzero in HsX0.
  split.
  - intros Hn.
    rewrite run_Kmeans_eq, HX0.
    assert (Hdraw : forall X1 : ndarray A, nrows X1 = 0 ->
      value (subsample X1 numSamples w) = Raise ValueError /\
      final (subsample X1 numSamples w) = w).
    { intros X1 Hn1. unfold subsample, np_random_randint. rewrite bind_eq, Hn1.
      destruct (numSamples =? 0) eqn:E; [apply Nat.eqb_eq in E; lia|].
      cbn. auto. }
    destruct bnorm.
    + destruct (Nat.eq_dec B 0) as [->|HB].
      * unfold brightness, np_apply_along_axis0. rewrite HsX0. reflexivity.
      * destruct (brightness_divides_by_band_norm X0 0 B HsX0 HwX0 ltac:(lia))
          as (X1 & HX1 & HsX1 & _).
        rewrite HX1. cbn [principal]. cbv zeta.
        destruct (Hdraw X1) as [Hv Hf]; [unfold nrows; rewrite HsX1; reflexivity|].
        rewrite Hv, Hf. reflexivity.
    + cbn [brightness principal]. cbv zeta.
      destruct (Hdraw X0) as [Hv Hf]; [unfold nrows; rewrite HsX0; reflexivity|].
      rewrite Hv, Hf. reflexivity.
  - intros -> Hb.
    assert (Hgo : forall X1 : ndarray A, shape X1 = [0; B] -> well_shaped X1 ->
      exists w1, value (subsample X1 0 w) = Ok ([], NDArray [0; B] []) /\
                 final (subsample X1 0 w) = w1).
    { intros X1 Hs1 Hw1. rewrite (empty_matrix X1 B Hs1 Hw1).
      eexists. split; reflexivity. }
    assert (Hrun : forall X1 : ndarray A, shape X1 = [0; B] -> well_shaped X1 ->
      reshape_pixels env raster = Ok X0 -> brightness bnorm X0 = Ok X1 ->
      exists tail,
        events (run_Kmeans lib env raster 0 bnorm false w)
          = EvFit 2 10 (NDArray [0; B] []) :: tail).
    { intros X1 Hs1 Hw1 H0 H1.
      rewrite run_Kmeans_eq, H0, H1. cbn [principal]. cbv zeta.
      destruct (Hgo X1 Hs1 Hw1) as (w1 & Hv & Hf). rewrite Hv, Hf.
      destruct (sweep_head lib (NDArray [0; B] []) 2
                  [4; 6; 8; 10; 12; 14; 16; 18; 20; 22; 24; 26; 28; 30; 32]%Z w1)
        as [tail Htail].
      change range_n_clusters
        with [2; 4; 6; 8; 10; 12; 14; 16; 18; 20; 22; 24; 26; 28; 30; 32]%Z.
      destruct (value (sweep lib (NDArray [0; B] []) _ w1));
        cbn [events]; rewrite Htail; eexists; reflexivity. }
    destruct bnorm.
    + destruct Hb as [Hb|HB]; [discriminate|].
      destruct (brightness_divides_by_band_norm X0 0 B HsX0 HwX0 ltac:(lia))
        as (X1 & HX1 & HsX1 & HwX1 & _).
      apply (Hrun X1 HsX1 HwX1 HX0 HX1).
    + apply (Hrun X0 HsX0 HwX0 HX0). reflexivity.
Qed.

Lemma empty_image_raises_witness :
  (1 <= 40 ->
   run_Kmeans (py := cpython) toy_sklearn (Globals 0 3) raster_0x3 40 true false
     (world_typing "4")
   = Outcome [] (world_typing "4") (Raise ValueError)) /\
  (40 = 0 -> true = false \/ 2 <> 0 ->
   exists tail,
     events (run_Kmeans (py := cpython) toy_sklearn (Globals 0 3) raster_0x3 40 true false
               (world_typing "4"))
       = EvFit 2 10 (NDArray [0; 2] []) :: tail).
Proof.
  apply (empty_image_raises (py := cpython) toy_sklearn (Globals 0 3) raster_0x3 0 3 2 40 true
           (world_typing "4")); reflexivity.
Defined.

(** ** The sweep stops at the first failure *)

Lemma sweep_app {A : Type} `{Numeric A} (lib : sklearn A) (samples : ndarray A)
    (pre post : list Z) (w : world) :
  sweep lib samples (pre ++ post) w =
  match value (sweep lib samples pre w) with
  | Ok _ => Outcome (events (sweep lib samples pre w) ++ events (sweep lib samples post w))
              (final (sweep lib samples post w)) (value (sweep lib samples post w))
  | Raise e => Outcome (events (sweep lib samples pre w)) w (Raise e)
  end.
Proof.
  induction pre as [|n pre IH].
  - cbn. symmetry. apply outcome_eta.
  - cbn [app sweep]. unfold fit_predict.
    destruct (KMeans_fit_predict lib n 10 samples) as [[m l]|e];
      [|rewrite !bind_call_Raise; reflexivity].
    rewrite !bind_call_Ok. cbn [value final events]. unfold silhouette.
    destruct (silhouette_score lib samples l) as [s|e];
      [|rewrite !bind_call_Raise; reflexivity].
    rewrite !bind_call_Ok. cbn [value final events]. unfold print_score.
    rewrite !bind_call_Ok. cbn [value final events]. rewrite IH.
    destruct (value (sweep lib samples pre w)); reflexivity.
Qed.

(** X12. The loop over the candidates catches nothing: when the candidates
    before [n] were scored and the fit for [n] raises, or its score does, the
    sweep ends with that exception right after the failing call; the later
    candidates are not tried. *)
Theorem sweep_stops_at_first_failure {A : Type} `{Numeric A} (lib : sklearn A)
    (samples : ndarray A) (pre post : list Z) (n : Z) (w : world) (e : exn) :
  value (sweep lib samples pre w) = Ok tt ->
  (KMeans_fit_predict lib n 10 samples = Raise e ->
   sweep lib samples (pre ++ n :: post) w
   = Outcome (events (sweep lib samples pre w) ++ [EvFit n 10 samples]) w (Raise e)) /\
  (forall m l,
   KMeans_fit_predict lib n 10 samples = Ok (m, l) ->
   silhouette_score lib samples l = Raise e ->
   sweep lib samples (pre ++ n :: post) w
   = Outcome (events (sweep lib samples pre w)
              ++ [EvFit n 10 samples; EvSilhouette samples l]) w (Raise e)).
Proof.
  intros Hpre. split.
  - intros Hfit. rewrite sweep_app, Hpre. cbn [sweep]. unfold fit_predict.
    rewrite Hfit, bind_call_Raise. reflexivity.
  - intros m l Hfit Hsil. rewrite sweep_app, Hpre. cbn [sweep]. unfold fit_predict.
    rewrite Hfit, bind_call_Ok. unfold silhouette.
    rewrite Hsil, bind_call_Raise. reflexivity.
Qed.

Lemma sweep_stops_at_first_failure_witness :
  (KMeans_fit_predict toy_sklearn 6 10 pixels_6x2 = Raise ValueError ->
   sweep toy_sklearn pixels_6x2 ([2; 4] ++ 6 :: [8; 10])%Z (world_typing "4")
   = Outcome (events (sweep toy_sklearn pixels_6x2 [2; 4]%Z (world_typing "4"))
              ++ [EvFit 6 10 pixels_6x2]) (world_typing "4") (Raise ValueError)) /\
  (forall m l,
   KMeans_fit_predict toy_sklearn 6 10 pixels_6x2 = Ok (m, l) ->
   silhouette_score toy_sklearn pixels_6x2 l = Raise ValueError ->
   sweep toy_sklearn pixels_6x2 ([2; 4] ++ 6 :: [8; 10])%Z (world_typing "4")
   = Outcome (events (sweep toy_sklearn pixels_6x2 [2; 4]%Z (world_typing "4"))
              ++ [EvFit 6 10 pixels_6x2; EvSilhouette pixels_6x2 l])
       (world_typing "4") (Raise ValueError)).
Proof.
  apply (sweep_stops_at_first_failure toy_sklearn pixels_6x2 [2; 4]%Z [8; 10]%Z 6%Z
           (world_typing "4") ValueError).
  vm_compute. reflexivity.
Defined.

(** ** Brightness normalisation over the whole image *)

(** X1. With [bnorm=True] the pixel matrix holds, for pixel [(i, j)] and
    band [b], the raster value divided by the Euclidean norm of band [b]
    taken over all pixels of the image (column [b] of the reshaped raster):
    the divisor depends on the band only, not on the pixel. *)
Theorem bnorm_divides_by_band_norm {A : Type} `{Numeric A} (env : globals)
    (raster : ndarray A) (R C B : nat) :
  shape raster = [R; C; B] -> well_shaped raster ->
  rows env = R -> columns env = C -> 1 <= B ->
  exists X0 X,
    reshape_pixels env raster = Ok X0 /\
    brightness true X0 = Ok X /\
    shape X = [R * C; B] /\
    forall i j b, i < R -> j < C -> b < B ->
      item X [i * C + j; b]
        = option_map (fun x => ndiv x (l2_norm (column X0 b))) (item raster [i; j; b]).
Proof.
  intros Hs Hw HR HC HB.
  destruct (reshape_pixels_shape env raster R C B Hs Hw HR HC) as (X0 & HX0 & HsX0 & HwX0).
  destruct (brightness_divides_by_band_norm X0 (R * C) B HsX0 HwX0 HB)
    as (X & HX & HsX & _ & Hitem).
  exists X0, X. split; [exact HX0|]. split; [exact HX|]. split; [exact HsX|].
  intros i j b Hi Hj Hb.
  rewrite Hitem by (auto; nia). f_equal.
  rewrite (item2_eq X0 (R * C) B) by (auto; nia).
  rewrite (item3_eq raster R C B) by assumption.
  unfold reshape_pixels, np_reshape in HX0. rewrite Hs in HX0. cbn [nth_error] in HX0.
  destruct (size_of [rows env * columns env; B] =? length (data raster));
    [|discriminate].
  injection HX0 as <-. reflexivity.
Qed.

Lemma bnorm_divides_by_band_norm_witness :
  exists X0 X,
    reshape_pixels env_2x3 raster_2x3 = Ok X0 /\
    brightness true X0 = Ok X /\
    shape X = [2 * 3; 2] /\
    forall i j b, i < 2 -> j < 3 -> b < 2 ->
      item X [i * 3 + j; b]
        = option_map (fun x => ndiv x (l2_norm (column X0 b))) (item raster_2x3 [i; j; b]).
Proof.
  apply (bnorm_divides_by_band_norm env_2x3 raster_2x3 2 3 2);
    [reflexivity | reflexivity | reflexivity | reflexivity | lia].
Defined.

Lemma fold_left_Rplus_acc (l : list R) (a : R) :
  fold_left Rplus l a = (a + fold_left Rplus l 0%R)%R.
Proof.
  revert a. induction l as [|x l IH]; intros a; cbn [fold_left].
  - lra.
  - rewrite (IH (a + x)%R), (IH (0 + x)%R). lra.
Qed.

Lemma sum_squares_nonneg (v : list R) :
  (0 <= fold_left Rplus (map (fun x => x * x)%R v) 0)%R.
Proof.
  induction v as [|x v IH]; cbn [map fold_left]; [lra|].
  rewrite fold_left_Rplus_acc. nra.
Qed.

Lemma sum_squares_pos (v : list R) (x : R) :
  In x v -> x <> 0%R -> (0 < fold_left Rplus (map (fun x => x * x)%R v) 0)%R.
Proof.
  induction v as [|y v IH]; intros Hin Hx; [contradiction|].
  cbn [map fold_left]. rewrite fold_left_Rplus_acc.
  pose proof (sum_squares_nonneg v) as Hnn.
  destruct Hin as [->|Hin].
  - assert (0 < x * x)%R by nra. lra.
  - specialize (IH Hin Hx). nra.
Qed.

Lemma sum_squares_scaled (v : list R) (s : R) :
  s <> 0%R ->
  fold_left Rplus (map (fun x => x * x)%R (map (fun x => x / s)%R v)) 0%R
  = (fold_left Rplus (map (fun x => x * x)%R v) 0 / (s * s))%R.
Proof.
  intros Hs. induction v as [|x v IH]; cbn [map fold_left].
  - field. exact Hs.
  - rewrite fold_left_Rplus_acc, IH.
    rewrite (fold_left_Rplus_acc _ (0 + x * x)). field. exact Hs.
Qed.

Lemma l2_norm_of_norm (v : list R) (x : R) :
  In x v -> x <> 0%R -> l2_norm (norm v) = 1%R.
Proof.
  intros Hin Hx. unfold l2_norm, norm, np_sum.
  cbn [nsqrt nmul nadd nzero ndiv Numeric_R].
  pose proof (sum_squares_pos v x Hin Hx) as Hpos.
  set (q := fold_left Rplus (map (fun x => x * x)%R v) 0%R) in *.
  assert (Hs : R_sqrt.sqrt q <> 0%R).
  { pose proof (sqrt_lt_R0 q Hpos). lra. }
  rewrite (sum_squares_scaled v (R_sqrt.sqrt q) Hs). fold q.
  rewrite sqrt_sqrt by lra.
  replace (q / q)%R with 1%R by (field; lra). apply sqrt_1.
Qed.

Lemma list_eq_nth_error {T : Type} (l1 l2 : list T) :
  length l1 = length l2 ->
  (forall i, i < length l1 -> nth_error l1 i = nth_error l2 i) ->
  l1 = l2.
Proof.
  revert l2. induction l1 as [|x l1 IH]; intros [|y l2] Hlen Hnth; try discriminate.
  - reflexivity.
  - cbn in Hlen. pose proof (Hnth 0 ltac:(cbn; lia)) as H0. cbn in H0.
    injection H0 as ->. f_equal. apply IH; [lia|].
    intros i Hi. apply (Hnth (S i)). cbn. lia.
Qed.

(** X2. In real arithmetic, after [bnorm=True] every band of the pixel
    matrix that is not zero everywhere has Euclidean norm 1 over the pixels:
    the normalisation equalises the bands, it does not normalise pixels. *)
Theorem bnorm_bands_have_unit_norm (X : ndarray R) (n b c i : nat) (x : R) :
  shape X = [n; b] -> well_shaped X -> c < b -> i < n ->
  item X [i; c] = Some x -> x <> 0%R ->
  exists X',
    brightness true X = Ok X' /\
    shape X' = [n; b] /\
    column X' c = norm (column X c) /\
    l2_norm (column X' c) = 1%R.
Proof.
  intros Hs Hw Hc Hi Hx Hx0.
  destruct (brightness_divides_by_band_norm X n b Hs Hw ltac:(lia))
    as (X' & HX' & HsX' & HwX' & Hitem).
  destruct (column_spec X n b c Hs Hw Hc) as (Hlen & Hnth).
  destruct (column_spec X' n b c HsX' HwX' Hc) as (Hlen' & Hnth').
  assert (Hcol : column X' c = norm (column X c)).
  { apply list_eq_nth_error.
    - rewrite length_norm. lia.
    - intros k Hk. rewrite Hlen' in Hk.
      rewrite Hnth', Hitem, nth_error_norm, Hnth by assumption. reflexivity. }
  exists X'. split; [exact HX'|]. split; [exact HsX'|]. split; [exact Hcol|].
  rewrite Hcol. apply (l2_norm_of_norm _ x); [|exact Hx0].
  apply (nth_error_In _ i). rewrite Hnth by assumption. exact Hx.
Qed.

Lemma bnorm_bands_have_unit_norm_witness :
  exists X',
    brightness true pixels_3x2_R = Ok X' /\
    shape X' = [3; 2] /\
    column X' 0 = norm (column pixels_3x2_R 0) /\
    l2_norm (column X' 0) = 1%R.
Proof.
  apply (bnorm_bands_have_unit_norm pixels_3x2_R 3 2 0 0 3%R);
    [reflexivity | reflexivity | lia | lia | reflexivity | lra].
Defined.

(** ** Output names never collide *)

Lemma output_name_as_suffix (s : string) (bnorm pca : bool) :
  output_name s bnorm pca
  = ("Sentinel_40m_kmeans_" ++ s ++
     (if bnorm then (if pca then "k_bnorm_pca.tif" else "k_bnorm.tif")
      else (if pca then "k_pca.tif" else "k.tif")))%string.
Proof.
  assert (Hcut : forall t : string,
    slice_to_minus 4 ("Sentinel_40m_kmeans_" ++ s ++ t ++ ".tif")%string
    = ("Sentinel_40m_kmeans_" ++ s ++ t)%string).
  { intros t.
    rewrite <- (string_app_assoc s t ".tif").
    rewrite <- (string_app_assoc "Sentinel_40m_kmeans_" (s ++ t) ".tif").
    rewrite slice_to_minus_app by reflexivity.
    reflexivity. }
  unfold output_name. cbv zeta.
  change "k.tif"%string with ("k" ++ ".tif")%string.
  destruct bnorm, pca; cbv iota.
  - rewrite Hcut, !string_app_assoc.
    change ("k" ++ "_bnorm.tif")%string with ("k_bnorm" ++ ".tif")%string.
    rewrite Hcut, !string_app_assoc. reflexivity.
  - rewrite Hcut, !string_app_assoc. reflexivity.
  - rewrite Hcut, !string_app_assoc. reflexivity.
  - reflexivity.
Qed.

Lemma list_ascii_of_string_app (x y : string) :
  list_ascii_of_string (x ++ y)%string = list_ascii_of_string x ++ list_ascii_of_string y.
Proof.
  induction x as [|c x IH]; [reflexivity|].
  change (String c x ++ y)%string with (String c (x ++ y)).
  cbn [list_ascii_of_string app]. rewrite IH. reflexivity.
Qed.

Lemma string_app_inv_head (x y z : string) :
  (x ++ y)%string = (x ++ z)%string -> y = z.
Proof.
  induction x as [|c x IH]; intros Heq; [exact Heq|].
  change (String c (x ++ y) = String c (x ++ z)) in Heq.
  injection Heq as Heq. apply IH, Heq.
Qed.

Lemma list_ascii_of_string_inj (x y : string) :
  list_ascii_of_string x = list_ascii_of_string y -> x = y.
Proof.
  intros Heq. rewrite <- (string_of_list_ascii_of_string x),
    <- (string_of_list_ascii_of_string y), Heq. reflexivity.
Qed.

(** X8. The output name determines the typed string and both options: two
    runs write to the same file only if the same text was typed and [bnorm]
    and [pca] were the same, so no variant of the clustering overwrites
    another one's output. *)
Theorem output_name_injective (s s' : string) (bnorm pca bnorm' pca' : bool) :
  output_name s bnorm pca = output_name s' bnorm' pca' ->
  s = s' /\ bnorm = bnorm' /\ pca = pca'.
Proof.
  rewrite !output_name_as_suffix. intros Heq.
  apply string_app_inv_head in Heq.
  apply (f_equal (fun t => rev (list_ascii_of_string t))) in Heq.
  rewrite !list_ascii_of_string_app, !rev_app_distr in Heq.
  assert (Hs : rev (list_ascii_of_string s) = rev (list_ascii_of_string s') -> s = s').
  { intros Hrev. apply list_ascii_of_string_inj.
    rewrite <- (rev_involutive (list_ascii_of_string s)), Hrev.
    apply rev_involutive. }
  destruct bnorm, pca, bnorm', pca';
    cbn [list_ascii_of_string rev app] in Heq;
    first [discriminate Heq
          | (injection Heq as Heq; split; [exact (Hs Heq) | split; reflexivity])].
Qed.

Lemma output_name_injective_witness :
  "8"%string = "8"%string /\ true = true /\ false = false.
Proof.
  apply (output_name_injective "8" "8" true false true false). reflexivity.
Defined.

(** ** The preview of the stacked raster *)

Lemma nth_error_flat_map_cells {T U : Type} (g : T -> option U) (l : list T) (d : T) :
  (forall x, In x l -> exists y, g x = Some y) ->
  length (flat_map (fun x => option_list (g x)) l) = length l /\
  forall k, k < length l ->
    nth_error (flat_map (fun x => option_list (g x)) l) k = g (nth k l d).
Proof.
  induction l as [|x l IH]; intros Hall.
  - split; [reflexivity|]. intros k Hk. cbn in Hk. lia.
  - destruct (Hall x (or_introl eq_refl)) as [y Hy].
    destruct (IH (fun z Hz => Hall z (or_intror Hz))) as (Hlen & Hnth).
    cbn [flat_map]. rewrite Hy. change (option_list (Some y)) with [y].
    cbn [app length]. split.
    + rewrite Hlen. reflexivity.
    + intros [|k] Hk; cbn [nth_error nth]; [symmetry; exact Hy|].
      apply Hnth. lia.
Qed.

(** Indexing the last axis with a list of positions. *)
Lemma np_take_last_item {A : Type} (a : ndarray A) (s0 s1 s2 : nat) (idx : list nat) :
  shape a = [s0; s1; s2] -> well_shaped a ->
  Forall (fun k => k < s2) idx ->
  exists t, np_take_last a idx = Ok t /\ shape t = [s0; s1; length idx] /\
    forall b i k, b < s0 -> i < s1 -> k < length idx ->
      item t [b; i; k] = item a [b; i; nth k idx 0].
Proof.
  intros Hs Hw Hidx. unfold np_take_last. rewrite Hs.
  assert (Hall : forallb (fun k => k <? s2) idx = true).
  { apply forallb_forall. intros k Hk. rewrite List.Forall_forall in Hidx.
    apply Nat.ltb_lt, Hidx, Hk. }
  rewrite Hall. eexists. split; [reflexivity|]. split; [reflexivity|].
  set (cells := fun b i => flat_map (fun k => option_list (item a [b; i; k])) idx).
  assert (Hcells : forall b i, b < s0 -> i < s1 ->
            length (cells b i) = length idx /\
            forall k, k < length idx ->
              nth_error (cells b i) k = item a [b; i; nth k idx 0]).
  { intros b i Hb Hi. unfold cells.
    apply (nth_error_flat_map_cells (fun k => item a [b; i; k]) idx 0).
    intros k Hk. rewrite List.Forall_forall in Hidx.
    apply (item3_is_Some a s0 s1 s2); auto. }
  assert (Hrows : forall b, b < s0 ->
            length (flat_map (cells b) (seq 0 s1)) = s1 * length idx).
  { intros b Hb. apply length_flat_map_regular. intros i Hi.
    apply Hcells; lia. }
  intros b i k Hb Hi Hk.
  rewrite (item3_eq _ s0 s1 (length idx)) by (auto; reflexivity). cbn [data].
  replace ((b * s1 + i) * length idx + k)
    with (b * (s1 * length idx) + (i * length idx + k)) by ring.
  rewrite (nth_error_flat_map_regular _ (s1 * length idx));
    [| intros x Hx; apply Hrows; lia | assumption | nia].
  cbn [Nat.add].
  rewrite (nth_error_flat_map_regular (cells b) (length idx));
    [| intros x Hx; apply Hcells; lia | assumption | assumption].
  cbn [Nat.add]. apply Hcells; assumption.
Qed.

Lemma np_take_last_out_of_range {A : Type} (a : ndarray A) (s0 s1 s2 k : nat)
    (idx : list nat) :
  shape a = [s0; s1; s2] -> In k idx -> s2 <= k ->
  np_take_last a idx = Raise IndexError.
Proof.
  intros Hs Hin Hk. unfold np_take_last. rewrite Hs.
  destruct (forallb (fun k => k <? s2) idx) eqn:E; [|reflexivity].
  rewrite forallb_forall in E. specialize (E k Hin). apply Nat.ltb_lt in E. lia.
Qed.

Lemma image_shape_imshow_argument {A : Type} `{Numeric A} `{Display A} (img : image A)
    (factor : A) :
  image_shape (imshow_argument img factor) = image_shape img.
Proof. destruct img; reflexivity. Qed.

Lemma plot_image_cases {A : Type} `{Numeric A} `{Display A} (img : image A) (factor : A) :
  plot_image img factor =
  if imshow_accepts (image_shape img) then Ok (imshow_argument img factor)
  else Raise TypeError.
Proof. unfold plot_image. cbv zeta. rewrite image_shape_imshow_argument. reflexivity. Qed.

Lemma plot_image_three_channels {A : Type} `{Numeric A} `{Display A} (p : ndarray A)
    (s0 s1 : nat) (factor : A) :
  shape p = [s0; s1; 3] ->
  plot_image (FloatImage p) factor = Ok (imshow_argument (FloatImage p) factor).
Proof. intros Hs. rewrite plot_image_cases. cbn [image_shape]. rewrite Hs. reflexivity. Qed.

(** Lines 240 to 245, step by step. *)
Lemma main_stack_steps {A : Type} `{Numeric A} `{Display A}
    (img img2 : ndarray A) (B2 B1 R C : nat) :
  shape img = [B2; R; C] -> shape img2 = [B1; R; C] ->
  well_shaped img -> well_shaped img2 ->
  (C < 9 -> main_stack img img2 = Raise IndexError) /\
  (9 <= C -> exists stacked preview raster,
     np_concatenate img img2 = Ok stacked /\
     shape stacked = [B2 + B1; R; C] /\
     np_take_last stacked [8; 4; 3] = Ok preview /\
     shape preview = [B2 + B1; R; 3] /\
     (forall b i k, b < B2 + B1 -> i < R -> k < 3 ->
        item preview [b; i; k] = item stacked [b; i; nth k [8; 4; 3] 0]) /\
     plot_image (FloatImage preview) none = Ok (imshow_argument (FloatImage preview) none) /\
     stack_bands img img2 = Ok raster /\
     main_stack img img2 = Ok (raster, imshow_argument (FloatImage preview) none)).
Proof.
  intros Hs Hs2 Hw Hw2.
  destruct (np_concatenate_item img img2 B2 B1 R C Hs Hs2 Hw Hw2)
    as (c & Hc & Hcs & Hcw & _).
  split.
  - intros HC. unfold main_stack. rewrite Hc. cbn [result_bind].
    rewrite (np_take_last_out_of_range c (B2 + B1) R C 8 [8; 4; 3] Hcs); [reflexivity | |lia].
    cbn. auto.
  - intros HC.
    destruct (np_take_last_item c (B2 + B1) R C [8; 4; 3] Hcs Hcw) as (p & Hp & Hps & Hpi).
    { repeat constructor; lia. }
    destruct (np_transpose_120_item c (B2 + B1) R C Hcs Hcw) as (t & Ht & _).
    cbn [length] in Hps, Hpi.
    pose proof (plot_image_three_channels p (B2 + B1) R none Hps) as Hshow.
    exists c, p, t. split; [exact Hc|]. split; [exact Hcs|]. split; [exact Hp|].
    split; [exact Hps|]. split; [exact Hpi|]. split; [exact Hshow|]. split.
    + unfold stack_bands. rewrite Hc. exact Ht.
    + unfold main_stack. rewrite Hc. cbn [result_bind]. rewrite Hp. cbn [result_bind].
      rewrite Hshow. cbn [result_bind]. rewrite Ht. reflexivity.
Qed.

(** [bands, rows, columns = img.shape]: the module-level [rows] and [columns]
    are those of the cropped Sentinel-2 array, hence of the stacked raster
    when the stacking gets through. *)
Lemma unpack_shape_stack {A : Type} `{Numeric A} `{Display A}
    (img img2 : ndarray A) (B2 B1 R C : nat) :
  shape img = [B2; R; C] -> shape img2 = [B1; R; C] ->
  well_shaped img -> well_shaped img2 -> 9 <= C ->
  exists env raster shown,
    unpack_shape img = Ok env /\ main_stack img img2 = Ok (raster, shown) /\
    shape raster = [rows env; columns env; B2 + B1].
Proof.
  intros Hs Hs2 Hw Hw2 HC.
  destruct (main_stack_steps img img2 B2 B1 R C Hs Hs2 Hw Hw2) as [_ Hhigh].
  destruct (Hhigh HC) as (c & p & t & _ & _ & _ & _ & _ & _ & Ht & Hmain).
  destruct (stack_bands_item img img2 B2 B1 R C Hs Hs2 Hw Hw2)
    as (t' & Ht' & Hts & _).
  assert (t' = t) by congruence. subst t'.
  exists (Globals R C), t, (imshow_argument (FloatImage p) none).
  unfold unpack_shape. rewrite Hs. cbn [rows columns]. auto.
Qed.

(** C6. Lines 240 to 245 stack the cropped arrays [img] of shape
    (B2, R, C) and [img2] of shape (B1, R, C) only for an image of nine
    columns or more. The preview plotted between the concatenation and the
    transposition indexes the last axis of the band-first stack, which is
    the image columns, at 8, 4 and 3: for [C < 9] it raises [IndexError] and
    no raster is produced. For [9 <= C] the stacking gives a raster of shape
    (R, C, B2+B1) with [raster[i, j, b] = img[b, i, j]] for [b < B2] and
    [raster[i, j, b] = img2[b-B2, i, j]] for [B2 <= b < B2+B1]: the
    Sentinel-2 bands first, then the Sentinel-1 bands, pixel-major. *)
Theorem stacking_stops_at_preview {A : Type} `{Numeric A} `{Display A}
    (img img2 : ndarray A) (B2 B1 R C : nat) :
  shape img = [B2; R; C] -> shape img2 = [B1; R; C] ->
  well_shaped img -> well_shaped img2 ->
  (C < 9 -> main_stack img img2 = Raise IndexError) /\
  (9 <= C -> exists raster shown,
     main_stack img img2 = Ok (raster, shown) /\
     shape raster = [R; C; B2 + B1] /\
     well_shaped raster /\
     forall i j b, i < R -> j < C ->
       (b < B2 -> item raster [i; j; b] = item img [b; i; j] /\
                  is_Some (item img [b; i; j])) /\
       (B2 <= b < B2 + B1 -> item raster [i; j; b] = item img2 [b - B2; i; j] /\
                             is_Some (item img2 [b - B2; i; j]))).
Proof.
  intros Hs Hs2 Hw Hw2.
  destruct (main_stack_steps img img2 B2 B1 R C Hs Hs2 Hw Hw2) as [Hlow Hhigh].
  split; [exact Hlow|]. intros HC.
  destruct (Hhigh HC) as (c & p & t & _ & _ & _ & _ & _ & _ & Ht & Hmain).
  destruct (stack_bands_item img img2 B2 B1 R C Hs Hs2 Hw Hw2)
    as (t' & Ht' & Hts & Htw & Hti).
  assert (t' = t) by congruence. subst t'.
  exists t, (imshow_argument (FloatImage p) none). auto.
Qed.

Lemma stacking_stops_at_preview_witness :
  (3 < 9 -> main_stack img_3_columns img2_3_columns = Raise IndexError) /\
  (9 <= 3 -> exists raster shown,
     main_stack img_3_columns img2_3_columns = Ok (raster, shown) /\
     shape raster = [2; 3; 2 + 1] /\
     well_shaped raster /\
     forall i j b, i < 2 -> j < 3 ->
       (b < 2 -> item raster [i; j; b] = item img_3_columns [b; i; j] /\
                 is_Some (item img_3_columns [b; i; j])) /\
       (2 <= b < 2 + 1 -> item raster [i; j; b] = item img2_3_columns [b - 2; i; j] /\
                          is_Some (item img2_3_columns [b - 2; i; j]))).
Proof.
  apply (stacking_stops_at_preview img_3_columns img2_3_columns 2 1 2 3);
    reflexivity.
Defined.

(** X13. The preview between the two stacking statements indexes the last
    axis of the band-first stack, that is the image columns, at 8, 4 and 3.
    With fewer than nine columns it raises [IndexError] and the script never
    reaches the transposition; with nine or more the stacking gives the
    raster of [stack_bands]. *)
Theorem main_stack_needs_nine_columns {A : Type} `{Numeric A} `{Display A}
    (img img2 : ndarray A) (B2 B1 R C : nat) :
  shape img = [B2; R; C] -> shape img2 = [B1; R; C] ->
  well_shaped img -> well_shaped img2 ->
  (C < 9 -> main_stack img img2 = Raise IndexError) /\
  (9 <= C -> exists raster shown,
     main_stack img img2 = Ok (raster, shown) /\
     stack_bands img img2 = Ok raster).
Proof.
  intros Hs Hs2 Hw Hw2.
  destruct (main_stack_steps img img2 B2 B1 R C Hs Hs2 Hw Hw2) as [Hlow Hhigh].
  split; [exact Hlow|]. intros HC.
  destruct (Hhigh HC) as (c & p & t & _ & _ & _ & _ & _ & _ & Ht & Hmain).
  eauto.
Qed.

Lemma main_stack_needs_nine_columns_witness :
  (9 < 9 -> main_stack img_9_columns img2_9_columns = Raise IndexError) /\
  (9 <= 9 -> exists raster shown,
     main_stack img_9_columns img2_9_columns = Ok (raster, shown) /\
     stack_bands img_9_columns img2_9_columns = Ok raster).
Proof.
  apply (main_stack_needs_nine_columns img_9_columns img2_9_columns 1 1 1 9);
    reflexivity.
Defined.

(** X14. What the preview shows when it succeeds: for every band [b] and
    row [i] of the band-first stack, the three values at columns 8, 4 and 3
    (an array of shape (B2+B1, R, 3), which [plt.imshow] takes as B2+B1 rows
    of R pixels in three channels), clipped at 1 from above. It selects
    image columns, not the bands 8, 4 and 3. *)
Theorem preview_shows_columns {A : Type} `{Numeric A} `{Display A}
    (img img2 : ndarray A) (B2 B1 R C : nat) :
  shape img = [B2; R; C] -> shape img2 = [B1; R; C] ->
  well_shaped img -> well_shaped img2 -> 9 <= C ->
  exists stacked preview raster shown,
    np_concatenate img img2 = Ok stacked /\
    np_take_last stacked [8; 4; 3] = Ok preview /\
    plot_image (FloatImage preview) none = Ok shown /\
    shown = FloatImage (NDArray [B2 + B1; R; 3]
                          (map (fun x => nmin (nmul x none) none) (data preview))) /\
    main_stack img img2 = Ok (raster, shown) /\
    shape preview = [B2 + B1; R; 3] /\
    forall b i, b < B2 + B1 -> i < R ->
      item preview [b; i; 0] = item stacked [b; i; 8] /\
      item preview [b; i; 1] = item stacked [b; i; 4] /\
      item preview [b; i; 2] = item stacked [b; i; 3].
Proof.
  intros Hs Hs2 Hw Hw2 HC.
  destruct (main_stack_steps img img2 B2 B1 R C Hs Hs2 Hw Hw2) as [_ Hhigh].
  destruct (Hhigh HC) as (c & p & t & Hc & _ & Hp & Hps & Hpi & Hshow & _ & Hmain).
  exists c, p, t, (imshow_argument (FloatImage p) none).
  split; [exact Hc|]. split; [exact Hp|]. split; [exact Hshow|]. split.
  { cbn [imshow_argument]. rewrite Hps. reflexivity. }
  split; [exact Hmain|]. split; [exact Hps|].
  intros b i Hb Hi.
  split; [|split]; rewrite Hpi by (auto; lia); reflexivity.
Qed.

Lemma preview_shows_columns_witness :
  exists stacked preview raster shown,
    np_concatenate img_9_columns img2_9_columns = Ok stacked /\
    np_take_last stacked [8; 4; 3] = Ok preview /\
    plot_image (FloatImage preview) none = Ok shown /\
    shown = FloatImage (NDArray [1 + 1; 1; 3]
                          (map (fun x => nmin (nmul x none) none) (data preview))) /\
    main_stack img_9_columns img2_9_columns = Ok (raster, shown) /\
    shape preview = [1 + 1; 1; 3] /\
    forall b i, b < 1 + 1 -> i < 1 ->
      item preview [b; i; 0] = item stacked [b; i; 8] /\
      item preview [b; i; 1] = item stacked [b; i; 4] /\
      item preview [b; i; 2] = item stacked [b; i; 3].
Proof.
  apply (preview_shows_columns img_9_columns img2_9_columns 1 1 1 9);
    [reflexivity | reflexivity | reflexivity | reflexivity | lia].
Defined.

(** ** The clustering section of the main script *)

Lemma plot_name_unbound {A : Type} (vars : gmap string (ndarray Z)) (name : string)
    (rest : M A script_end) :
  vars !! name = None -> plot_name vars name rest = mret (NameError name).
Proof. intros Hn. unfold plot_name. rewrite Hn. reflexivity. Qed.

(** X15. Line 252 plots [kmeans2], which is first bound at line 255. Unless
    that name was bound before the section starts, the section ends right
    after the first call of [run_Kmeans]: with that call's exception if it
    raised, with a [NameError] otherwise. The runs with PCA and with
    brightness normalisation are never made, and nothing is called, read or
    written beyond the first run. *)
Theorem main_clustering_stops_after_first_run {A : Type} `{Numeric A} {py : Interpreter}
    (lib : sklearn A)
    (env : globals) (raster : ndarray A) (vars : gmap string (ndarray Z)) (w : world) :
  vars !! "kmeans2" = None ->
  main_clustering lib env raster vars w =
  Outcome
    (events (run_Kmeans lib env raster default_numSamples false false w))
    (final (run_Kmeans lib env raster default_numSamples false false w))
    (stops_at "kmeans2"
       (value (run_Kmeans lib env raster default_numSamples false false w))).
Proof.
  intros Hvars. unfold main_clustering. rewrite bind_eq.
  destruct (value (run_Kmeans lib env raster default_numSamples false false w))
    as [kmeans1|e]; [|reflexivity].
  cbv zeta. rewrite plot_name_unbound by (rewrite lookup_insert_ne by discriminate; exact Hvars).
  cbn [mret M_ret ret events final value]. rewrite app_nil_r. reflexivity.
Qed.

Lemma main_clustering_stops_after_first_run_witness :
  main_clustering (py := cpython) toy_sklearn env_2x3 raster_2x3 ∅ (world_typing "4") =
  Outcome
    (events (run_Kmeans (py := cpython) toy_sklearn env_2x3 raster_2x3 default_numSamples
        false false
               (world_typing "4")))
    (final (run_Kmeans (py := cpython) toy_sklearn env_2x3 raster_2x3 default_numSamples
        false false
              (world_typing "4")))
    (stops_at "kmeans2"
       (value (run_Kmeans (py := cpython)
           toy_sklearn env_2x3 raster_2x3 default_numSamples false false
                 (world_typing "4")))).
Proof.
  apply (main_clustering_stops_after_first_run (py := cpython) toy_sklearn env_2x3 raster_2x3 ∅
           (world_typing "4")).
  vm_compute. reflexivity.
Defined.

(** ** The previews of the downloaded images *)

Lemma py_index_nonneg {T : Type} (l : list T) (i : nat) :
  (i < length l -> exists x, py_index l (Z.of_nat i) = Ok x /\ nth_error l i = Some x) /\
  (length l <= i -> py_index l (Z.of_nat i) = Raise IndexError).
Proof.
  unfold py_index. cbv zeta.
  destruct (Z.of_nat i <? 0)%Z eqn:Eneg; [apply Z.ltb_lt in Eneg; lia|].
  split; intros Hi.
  - assert (E : ((0 <=? Z.of_nat i) && (Z.of_nat i <? Z.of_nat (length l)))%Z = true).
    { apply andb_true_intro. split; [apply Z.leb_le | apply Z.ltb_lt]; lia. }
    rewrite E, Nat2Z.id.
    destruct (nth_error l i) as [x|] eqn:En; [eauto|].
    apply nth_error_None in En. lia.
  - assert (E : ((0 <=? Z.of_nat i) && (Z.of_nat i <? Z.of_nat (length l)))%Z = false).
    { apply andb_false_intro2. apply Z.ltb_ge. lia. }
    rewrite E. reflexivity.
Qed.

Lemma py_index_last {T : Type} (l : list T) :
  (l = [] -> py_index l (-1) = Raise IndexError) /\
  (l <> [] -> exists x, py_index l (-1) = Ok x /\ nth_error l (length l - 1) = Some x).
Proof.
  unfold py_index. cbv zeta. change (-1 <? 0)%Z with true. cbv iota. split.
  - intros ->. reflexivity.
  - intros Hne. assert (Hlen : 0 < length l) by (destruct l; [congruence | cbn; lia]).
    assert (E : ((0 <=? -1 + Z.of_nat (length l))
                 && (-1 + Z.of_nat (length l) <? Z.of_nat (length l)))%Z = true).
    { apply andb_true_intro. split; [apply Z.leb_le | apply Z.ltb_lt]; lia. }
    rewrite E. replace (Z.to_nat (-1 + Z.of_nat (length l))) with (length l - 1) by lia.
    destruct (nth_error l (length l - 1)) as [x|] eqn:En; [eauto|].
    apply nth_error_None in En. lia.
Qed.

(** One preview: the image at a fixed position of a list is looked up and
    plotted. *)
Lemma preview_step {A : Type} `{Numeric A} `{Display A} (l : list (image A))
    (i : Z) (n : nat) :
  (i = Z.of_nat n \/ (i = (-1)%Z /\ n = length l - 1)) ->
  result_bind (py_index l i) (fun x => plot_image x none) =
  match nth_error l n with
  | None => Raise IndexError
  | Some x =>
      if imshow_accepts (image_shape x) then Ok (imshow_argument x none)
      else Raise TypeError
  end.
Proof.
  intros [-> | [-> ->]].
  - destruct (Nat.lt_ge_cases n (length l)) as [Hn|Hn].
    + destruct (proj1 (py_index_nonneg l n) Hn) as (x & -> & ->).
      cbn [result_bind]. apply plot_image_cases.
    + rewrite (proj2 (py_index_nonneg l n) Hn).
      apply nth_error_None in Hn. rewrite Hn. reflexivity.
  - destruct l as [|x0 l'].
    + reflexivity.
    + destruct (proj2 (py_index_last (x0 :: l')) ltac:(congruence)) as (x & -> & ->).
      cbn [result_bind]. apply plot_image_cases.
Qed.


